(** * A shallow embedding of SolveSpace's platform GUI layer

    Sources embedded here:
    - [src/platform/gui.h]      the backend-independent event model and
                                the Timer / MenuItem / Window interfaces;
    - [src/platform/guigtk.cpp] the GTK backend   (module [Gtk]);
    - [src/platform/guiwin.cpp] the Win32 backend (module [Win32]).

    C++ [int], [UINT], [guint], [WPARAM] ... are integers in [Z] with the
    wrap-around written out where the code relies on it; [double] is
    Rocq's primitive binary64 [float].  Callbacks ([std::function] slots)
    are [option]s of pure functions, and every invocation of a callback
    or of a host routine that matters is recorded in a list of [Effect]s,
    in program order. *)

From Stdlib Require Import ZArith Zpower Bool List Lia.
From Stdlib Require Import Floats.
From stdpp Require Import base option strings gmap.
Import ListNotations.

Local Open Scope Z_scope.

(** ** gui.h : events *)

Module KeyboardEvent.

Inductive Type_ := PRESS | RELEASE.
Inductive Key := CHARACTER | FUNCTION.

(** [chr_num] is the 32-bit cell of the anonymous union
    [{ char32_t chr; int num; }]. *)
Record t := mk {
  type        : Type_;
  key         : Key;
  chr_num     : Z;
  shiftDown   : bool;
  controlDown : bool
}.

Definition chr (e : t) : Z := chr_num e.
Definition num (e : t) : Z := chr_num e.

Definition Type_eqb (a b : Type_) : bool :=
  match a, b with PRESS, PRESS | RELEASE, RELEASE => true | _, _ => false end.

Definition Key_eqb (a b : Key) : bool :=
  match a, b with CHARACTER, CHARACTER | FUNCTION, FUNCTION => true | _, _ => false end.

Definition Equals (this other : t) : bool :=
  Type_eqb (type this) (type other) &&
  Key_eqb (key this) (key other) &&
  (num this =? num other) &&
  Bool.eqb (shiftDown this) (shiftDown other) &&
  Bool.eqb (controlDown this) (controlDown other).

End KeyboardEvent.

Module MouseEvent.

Inductive Type_ := MOTION | PRESS | DBL_PRESS | RELEASE | SCROLL_VERT | LEAVE.
Inductive Button := NONE | LEFT | MIDDLE | RIGHT.

Record t := mk {
  type        : Type_;
  x           : float;
  y           : float;
  button      : Button;
  shiftDown   : bool;
  controlDown : bool;
  scrollDelta : Z
}.

End MouseEvent.

Module MenuItem.

Inductive Indicator := NONE | CHECK_MARK | RADIO_MARK.

End MenuItem.

(** ** gui.h : callback slots *)

(** What a call into the collaborators or into the host looks like from
    outside.  [GW_KeyboardEvent] is the call [SS.GW.KeyboardEvent(event)]
    on the application's global graphics window that the GTK backend
    makes; the others are the callback slots of [Timer], [MenuItem] and
    [Window], and the host routines named after them. *)
Inductive Effect :=
| onClose_called
| onRender_called
| onMouseEvent_called (e : MouseEvent.t)
| onKeyboardEvent_called (e : KeyboardEvent.t)
| GW_KeyboardEvent_called (e : KeyboardEvent.t)
| onScrollbarAdjusted_called (pos : float)
| onTimeout_called (timer : Z)
| onTrigger_called (item : Z)
| Invalidate_called
| SetForegroundWindow_called (h : Z)
| SendMessage_called (h msg wParam lParam : Z)
| TrackMouseEvent_called.

(** How often a list of effects invokes the [onTimeout] of the timer at
    [this]. *)
Definition is_onTimeout_of (this : Z) (e : Effect) : bool :=
  match e with onTimeout_called t => t =? this | _ => false end.

Definition timeouts_of (this : Z) (effects : list Effect) : nat :=
  length (List.filter (is_onTimeout_of this) effects).

(** The seven slots of [class Window]; an empty [std::function] is [None]. *)
Record WindowCallbacks := mkWindowCallbacks {
  onClose             : option (unit -> unit);
  onFullScreen        : option (bool -> unit);
  onMouseEvent        : option (MouseEvent.t -> bool);
  onKeyboardEvent     : option (KeyboardEvent.t -> bool);
  onEditingDone       : option (string -> unit);
  onScrollbarAdjusted : option (float -> unit);
  onRender            : option (unit -> unit)
}.

Definition no_callbacks : WindowCallbacks :=
  mkWindowCallbacks None None None None None None None.

(** [if(f)] for a [std::function] slot. *)
Definition is_set {A} (f : option A) : bool :=
  match f with Some _ => true | None => false end.

(** [(x & mask) != 0] *)
Definition has_bits (x mask : Z) : bool := negb (Z.land x mask =? 0).

(** ** Conversions between [double] and the integer types *)

(** [(double)n] for an [int]. *)
Definition double_of_int (n : Z) : float :=
  if n <? 0 then PrimFloat.opp (PrimFloat.of_uint63 (Uint63.of_Z (- n)))
  else PrimFloat.of_uint63 (Uint63.of_Z n).

(** The integral part of a finite [double], towards zero. *)
Definition double_trunc (d : float) : Z :=
  match Prim2SF d with
  | S754_finite s m e =>
      let v := if 0 <=? e then Zpos m * 2 ^ e else Zpos m / 2 ^ (- e) in
      if s then - v else v
  | _ => 0
  end.

(** [(UINT)d]: the truncated value in 32 bits. *)
Definition UINT_of_double (d : float) : Z := double_trunc d mod 2 ^ 32.

(** An [int] holding the bits of a [UINT]. *)
Definition int_of_UINT (u : Z) : Z := if u <? 2 ^ 31 then u else u - 2 ^ 32.
Definition UINT_of_int (n : Z) : Z := n mod 2 ^ 32.

Definition INT_MIN : Z := - 2 ^ 31.

(** [(int)d], also for the 32-bit [LONG].  Where the integral part of
    [d] is an [int], that is the result.  For every other [d], a NaN or
    an infinity included, C++ leaves the conversion undefined; the
    compiled code converts with the processor's truncating instruction,
    which answers [INT_MIN] there, and so does this definition. *)
Definition int_of_double (d : float) : Z :=
  match Prim2SF d with
  | S754_nan | S754_infinity _ => INT_MIN
  | _ =>
      let t := double_trunc d in
      if (INT_MIN <=? t) && (t <? 2 ^ 31) then t else INT_MIN
  end.

(** [int] arithmetic as compiled: the result in 32 bits, two's
    complement. *)
Definition int_wrap (n : Z) : Z := int_of_UINT (UINT_of_int n).

(** ** The configuration collaborator *)

(** Modelled from the spec: [CnfFreezeInt] and [CnfThawInt] are declared
    outside the three source files; the spec gives them as integer
    key/value persistence under string keys with default-on-miss
    semantics. *)
Definition CnfFreezeInt (val : Z) (key : string) (cnf : gmap string Z) : gmap string Z :=
  <[key := val]> cnf.

Definition CnfThawInt (val : Z) (key : string) (cnf : gmap string Z) : Z :=
  default val (cnf !! key).

(** Modelled from the spec: the macro [ssassert(condition, message)] is
    defined outside the three source files; the spec classes a failed
    one as a programming-error assertion, not a recoverable error.  A
    method that can trip it returns an [outcome]. *)
Inductive outcome (A : Type) :=
| Ok (a : A)
| AssertionFailure (message : string).
Arguments Ok {A} a.
Arguments AssertionFailure {A} message.

Definition ssassert {A} (condition : bool) (message : string) (k : outcome A) : outcome A :=
  if condition then k else AssertionFailure message.

(** * The GTK backend *)
Module Gtk.

(** gdk/gdktypes.h, gdk/gdkkeysyms.h *)
Definition GDK_SHIFT_MASK   : Z := 1.
Definition GDK_CONTROL_MASK : Z := 4.
Definition GDK_BUTTON1_MASK : Z := 256.
Definition GDK_BUTTON2_MASK : Z := 512.
Definition GDK_BUTTON3_MASK : Z := 1024.
Definition GDK_KEY_F1       : Z := 0xffbe.
Definition GDK_KEY_F12      : Z := 0xffc9.

(** ** Timers *)

(** The part of the GLib main context that [TimerImplGtk] touches: a
    millisecond clock and the timeout sources attached by
    [Glib::signal_timeout().connect].  A source remembers the [this] its
    handler captured.  The identifier of a source is what the
    [sigc::connection] returned by [connect] refers to. *)
Record TimeoutSource := mkTimeoutSource {
  source_id   : Z;
  source_due  : Z;
  source_this : Z
}.

Record MainContext := mkMainContext {
  now            : Z;
  next_source_id : Z;
  sources        : list TimeoutSource
}.

Definition signal_timeout_connect (this milliseconds : Z) (ctx : MainContext)
    : Z * MainContext :=
  (next_source_id ctx,
   {| now := now ctx;
      next_source_id := next_source_id ctx + 1;
      sources := sources ctx ++
        [mkTimeoutSource (next_source_id ctx) (now ctx + milliseconds) this] |}).

Definition connected (c : Z) (ctx : MainContext) : bool :=
  existsb (fun s => source_id s =? c) (sources ctx).

Definition disconnect (c : Z) (ctx : MainContext) : MainContext :=
  {| now := now ctx;
     next_source_id := next_source_id ctx;
     sources := List.filter (fun s => negb (source_id s =? c)) (sources ctx) |}.

Record TimerImplGtk := mkTimerImplGtk {
  _connection : option Z;
  onTimeout   : option (unit -> unit)
}.

(** [_connection.empty()]: never bound, or the source it was bound to is gone. *)
Definition connection_empty (c : option Z) (ctx : MainContext) : bool :=
  match c with
  | None => true
  | Some i => negb (connected i ctx)
  end.

Definition connection_disconnect (c : option Z) (ctx : MainContext) : MainContext :=
  match c with
  | None => ctx
  | Some i => disconnect i ctx
  end.

(** The timers that exist, by address, and the main context they share. *)
Record World := mkWorld {
  main_context : MainContext;
  timers       : gmap Z TimerImplGtk
}.

Definition CreateTimer (this : Z) (w : World) : World :=
  {| main_context := main_context w;
     timers := <[this := mkTimerImplGtk None None]> (timers w) |}.

Definition set_onTimeout (this : Z) (f : option (unit -> unit)) (w : World) : World :=
  match timers w !! this with
  | None => w
  | Some t =>
      {| main_context := main_context w;
         timers := <[this := mkTimerImplGtk (_connection t) f]> (timers w) |}
  end.

(** The first statement of [WindUp]: the main context once the timer's
    connection, unless it is empty, has been disconnected. *)
Definition without_old (t : TimerImplGtk) (ctx : MainContext) : MainContext :=
  if negb (connection_empty (_connection t) ctx)
  then connection_disconnect (_connection t) ctx
  else ctx.

Definition WindUp (this milliseconds : Z) (w : World) : World :=
  match timers w !! this with
  | None => w
  | Some t =>
      let '(c, ctx2) :=
        signal_timeout_connect this milliseconds (without_old t (main_context w)) in
      {| main_context := ctx2;
         timers := <[this := mkTimerImplGtk (Some c) (onTimeout t)]> (timers w) |}
  end.

(** The lambda [handler] of [WindUp], run for the timer at [this]. *)
Definition handler (w : World) (this : Z) : list Effect :=
  match timers w !! this with
  | Some t => if is_set (onTimeout t) then [onTimeout_called this] else []
  | None => []
  end.

Definition is_due (ctx : MainContext) (s : TimeoutSource) : bool :=
  source_due s <=? now ctx.

(** One iteration of the main loop: every source that is due runs its
    handler; the handler returns [false], so the source is removed. *)
Definition dispatch (w : World) : World * list Effect :=
  let ctx := main_context w in
  ({| main_context :=
        {| now := now ctx;
           next_source_id := next_source_id ctx;
           sources := List.filter (fun s => negb (is_due ctx s)) (sources ctx) |};
      timers := timers w |},
   flat_map (fun s => handler w (source_this s)) (List.filter (is_due ctx) (sources ctx))).

Definition elapse (milliseconds : Z) (w : World) : World * list Effect :=
  let ctx := main_context w in
  dispatch {| main_context :=
                {| now := now ctx + milliseconds;
                   next_source_id := next_source_id ctx;
                   sources := sources ctx |};
              timers := timers w |}.

(** The fires pending for the timer at [this]. *)
Definition pending (this : Z) (w : World) : nat :=
  length (List.filter (fun s => source_this s =? this) (sources (main_context w))).

Definition initial_world : World :=
  mkWorld (mkMainContext 0 0 []) ∅.

(** What a program can do with timers and the passage of time. *)
Inductive reachable : World -> Prop :=
| reach_initial : reachable initial_world
| reach_CreateTimer w this :
    reachable w -> timers w !! this = None -> reachable (CreateTimer this w)
| reach_set_onTimeout w this f :
    reachable w -> reachable (set_onTimeout this f w)
| reach_WindUp w this ms :
    reachable w -> reachable (WindUp this ms w)
| reach_elapse w ms :
    reachable w -> reachable (fst (elapse ms w)).

(** Every source is the one its timer's [_connection] refers to, and no
    two sources share an identifier. *)
Definition owned (w : World) (s : TimeoutSource) : Prop :=
  exists t, timers w !! source_this s = Some t /\ _connection t = Some (source_id s).

Definition well_formed (w : World) : Prop :=
  List.NoDup (map source_id (sources (main_context w))) /\
  List.Forall (fun s => source_id s < next_source_id (main_context w) /\ owned w s)
         (sources (main_context w)).

(** ** Menus *)

(** [class GtkMenuItem : public Gtk::CheckMenuItem], with the state of the
    base class that the code reads or writes. *)
Record GtkMenuItem := mkGtkMenuItem {
  _has_indicator   : bool;
  _synthetic_event : bool;
  active           : bool;
  draw_as_radio    : bool;
  sensitive        : bool
}.

Record MenuItemImplGtk := mkMenuItemImplGtk {
  gtkMenuItem : GtkMenuItem;
  onTrigger   : option (unit -> unit)
}.

Definition has_indicator (i : GtkMenuItem) : bool := _has_indicator i.

Definition set_has_indicator (b : bool) (i : GtkMenuItem) : GtkMenuItem :=
  mkGtkMenuItem b (_synthetic_event i) (active i) (draw_as_radio i) (sensitive i).

Definition set_draw_as_radio (b : bool) (i : GtkMenuItem) : GtkMenuItem :=
  mkGtkMenuItem (_has_indicator i) (_synthetic_event i) (active i) b (sensitive i).

Definition set_sensitive (b : bool) (i : GtkMenuItem) : GtkMenuItem :=
  mkGtkMenuItem (_has_indicator i) (_synthetic_event i) (active i) (draw_as_radio i) b.

(** [GtkMenuItem::on_activate], for the item at address [this]. *)
Definition on_activate (this : Z) (m : MenuItemImplGtk) : list Effect :=
  if negb (_synthetic_event (gtkMenuItem m)) && is_set (onTrigger m)
  then [onTrigger_called this] else [].

(** [GtkMenuItem::set_active]: the base class toggles the item and
    activates it, which runs [on_activate] while [_synthetic_event] is set. *)
Definition set_active (this : Z) (b : bool) (m : MenuItemImplGtk)
    : MenuItemImplGtk * list Effect :=
  let i := gtkMenuItem m in
  if Bool.eqb (active i) b then (m, [])
  else
    let during := mkMenuItemImplGtk
      (mkGtkMenuItem (_has_indicator i) true b (draw_as_radio i) (sensitive i))
      (onTrigger m) in
    (mkMenuItemImplGtk
       (mkGtkMenuItem (_has_indicator i) false b (draw_as_radio i) (sensitive i))
       (onTrigger m),
     on_activate this during).

Definition SetIndicator (type : MenuItem.Indicator) (m : MenuItemImplGtk) : MenuItemImplGtk :=
  mkMenuItemImplGtk
    match type with
    | MenuItem.NONE => set_has_indicator false (gtkMenuItem m)
    | MenuItem.CHECK_MARK => set_draw_as_radio false (set_has_indicator true (gtkMenuItem m))
    | MenuItem.RADIO_MARK => set_draw_as_radio true (set_has_indicator true (gtkMenuItem m))
    end
    (onTrigger m).

Definition SetActive (this : Z) (b : bool) (m : MenuItemImplGtk)
    : outcome (MenuItemImplGtk * list Effect) :=
  ssassert (has_indicator (gtkMenuItem m))
           "Cannot change state of a menu item without indicator"
           (Ok (set_active this b m)).

Definition SetEnabled (enabled : bool) (m : MenuItemImplGtk) : MenuItemImplGtk :=
  mkMenuItemImplGtk (set_sensitive enabled (gtkMenuItem m)) (onTrigger m).

(** [MenuImplGtk::AddItem] makes the item with [GtkMenuItem(this)]. *)
Definition AddItem_item (onTrigger : option (unit -> unit)) : MenuItemImplGtk :=
  mkMenuItemImplGtk (mkGtkMenuItem false false false false true) onTrigger.

(** ** GtkGLWidget *)

(** [event = {}] leaves the button at [NONE] and both flags false. *)
Definition pointer_event (type : MouseEvent.Type_) (x y : float)
    (state button scroll_delta : Z) : MouseEvent.t :=
  MouseEvent.mk type x y
    (if (button =? 1) || has_bits state GDK_BUTTON1_MASK then MouseEvent.LEFT
     else if (button =? 2) || has_bits state GDK_BUTTON2_MASK then MouseEvent.MIDDLE
     else if (button =? 3) || has_bits state GDK_BUTTON3_MASK then MouseEvent.RIGHT
     else MouseEvent.NONE)
    (has_bits state GDK_SHIFT_MASK)
    (has_bits state GDK_CONTROL_MASK)
    scroll_delta.

Definition process_pointer_event (_receiver : WindowCallbacks)
    (type : MouseEvent.Type_) (x y : float) (state button scroll_delta : Z)
    : bool * list Effect :=
  let event := pointer_event type x y state button scroll_delta in
  match onMouseEvent _receiver with
  | Some f => (f event, [onMouseEvent_called event])
  | None => (false, [])
  end.

(** [on_motion_notify_event], [on_button_release_event]: no explicit
    button for a motion, the event's button for a release.  The result is
    whether the event was handled; otherwise the base class handler runs. *)
Definition on_motion_notify_event (_receiver : WindowCallbacks) (x y : float) (state : Z) :=
  process_pointer_event _receiver MouseEvent.MOTION x y state 0 0.

Definition on_button_release_event (_receiver : WindowCallbacks) (x y : float)
    (state button : Z) :=
  process_pointer_event _receiver MouseEvent.RELEASE x y state button 0.

Inductive GdkEventType := GDK_BUTTON_PRESS | GDK_2BUTTON_PRESS | GDK_3BUTTON_PRESS.

Inductive GdkScrollDirection :=
  GDK_SCROLL_UP | GDK_SCROLL_DOWN | GDK_SCROLL_LEFT | GDK_SCROLL_RIGHT | GDK_SCROLL_SMOOTH.

Definition on_scroll_event (_receiver : WindowCallbacks) (x y : float) (state : Z)
    (delta_y : float) (direction : GdkScrollDirection) : bool * list Effect :=
  if PrimFloat.ltb delta_y 0 || match direction with GDK_SCROLL_UP => true | _ => false end
  then process_pointer_event _receiver MouseEvent.SCROLL_VERT x y state 0 1
  else if PrimFloat.ltb 0 delta_y ||
          match direction with GDK_SCROLL_DOWN => true | _ => false end
  then process_pointer_event _receiver MouseEvent.SCROLL_VERT x y state 0 (-1)
  else (false, []).

Definition on_leave_notify_event (_receiver : WindowCallbacks) (x y : float) (state : Z) :=
  process_pointer_event _receiver MouseEvent.LEAVE x y state 0 0.

Definition on_button_press_event (_receiver : WindowCallbacks) (type : GdkEventType)
    (x y : float) (state button : Z) : bool * list Effect :=
  match type with
  | GDK_BUTTON_PRESS => process_pointer_event _receiver MouseEvent.PRESS x y state button 0
  | GDK_2BUTTON_PRESS => process_pointer_event _receiver MouseEvent.DBL_PRESS x y state button 0
  | GDK_3BUTTON_PRESS => (false, [])
  end.

Section KeyEvents.

(** GDK's keymap routines and the application's global graphics window
    [SS.GW], which live outside the three source files. *)
Variable gdk_keyval_to_lower   : Z -> Z.
Variable gdk_keyval_to_unicode : Z -> Z.
Variable GW_KeyboardEvent      : KeyboardEvent.t -> bool.

(** The first part of [process_key_event]: the [KeyboardEvent] built
    from a [GdkEventKey], or [None] where the method returns [false]
    before it has one. *)
Definition key_event (type : KeyboardEvent.Type_) (state keyval : Z)
    : option KeyboardEvent.t :=
  if negb (Z.land state (Z.lnot (Z.lor GDK_SHIFT_MASK GDK_CONTROL_MASK)) =? 0)
  then None
  else
    let shiftDown := has_bits state GDK_SHIFT_MASK in
    let controlDown := has_bits state GDK_CONTROL_MASK in
    let chr := gdk_keyval_to_unicode (gdk_keyval_to_lower keyval) in
    if negb (chr =? 0) then
      Some (KeyboardEvent.mk type KeyboardEvent.CHARACTER chr shiftDown controlDown)
    else if (GDK_KEY_F1 <=? keyval) && (keyval <=? GDK_KEY_F12) then
      Some (KeyboardEvent.mk type KeyboardEvent.FUNCTION (keyval - GDK_KEY_F1 + 1)
                             shiftDown controlDown)
    else None.

(** The receiver's [onKeyboardEvent] slot is not consulted: the event
    goes to [SS.GW.KeyboardEvent]. *)
Definition process_key_event (_receiver : WindowCallbacks)
    (type : KeyboardEvent.Type_) (state keyval : Z) : bool * list Effect :=
  match key_event type state keyval with
  | None => (false, [])
  | Some event =>
      (if GW_KeyboardEvent event then true else false,
       [GW_KeyboardEvent_called event])
  end.

Definition on_key_press_event (_receiver : WindowCallbacks) (state keyval : Z) :=
  process_key_event _receiver KeyboardEvent.PRESS state keyval.

Definition on_key_release_event (_receiver : WindowCallbacks) (state keyval : Z) :=
  process_key_event _receiver KeyboardEvent.RELEASE state keyval.

End KeyEvents.

(** ** Windows *)

(** [Gtk::Adjustment], as far as the scrollbar uses it. *)
Record Adjustment := mkAdjustment {
  value          : float;
  lower          : float;
  upper          : float;
  step_increment : float;
  page_increment : float;
  page_size      : float
}.

Definition fmin (a b : float) : float := if PrimFloat.ltb a b then a else b.
Definition fmax (a b : float) : float := if PrimFloat.ltb b a then a else b.

(** The value an adjustment settles on: [MIN (value, upper - page_size)],
    then [MAX (value, lower)]. *)
Definition settle (v lower upper page_size : float) : float :=
  fmax (fmin v (PrimFloat.sub upper page_size)) lower.

(** [class GtkWindow : public Gtk::Window] and the widgets it owns. *)
Record GtkWindow := mkGtkWindow {
  visible           : bool;
  position          : Z * Z;
  size              : Z * Z;
  maximized         : bool;
  _is_fullscreen    : bool;
  scrollbar_visible : bool;
  adjustment        : Adjustment
}.

Record WindowImplGtk := mkWindowImplGtk {
  gtkWindow : GtkWindow;
  callbacks : WindowCallbacks
}.

Definition with_gtkWindow (g : GtkWindow) (w : WindowImplGtk) : WindowImplGtk :=
  mkWindowImplGtk g (callbacks w).

Definition with_adjustment (a : Adjustment) (g : GtkWindow) : GtkWindow :=
  mkGtkWindow (visible g) (position g) (size g) (maximized g) (_is_fullscreen g)
              (scrollbar_visible g) a.

(** A window as [CreateWindow] leaves it: hidden, with a scrollbar whose
    adjustment is all zeros. *)
Definition CreateWindow (position size : Z * Z) (cb : WindowCallbacks) : WindowImplGtk :=
  mkWindowImplGtk
    (mkGtkWindow false position size false false false (mkAdjustment 0 0 0 0 0 0))
    cb.

Definition IsVisible (w : WindowImplGtk) : bool := visible (gtkWindow w).

Definition SetVisible (b : bool) (w : WindowImplGtk) : WindowImplGtk :=
  let g := gtkWindow w in
  with_gtkWindow
    (mkGtkWindow b (position g) (size g) (maximized g) (_is_fullscreen g)
                 (scrollbar_visible g) (adjustment g)) w.

Definition FreezePosition (key : string) (w : WindowImplGtk) (cnf : gmap string Z)
    : gmap string Z :=
  if negb (visible (gtkWindow w)) then cnf
  else
    let '(left_, top_) := position (gtkWindow w) in
    let '(width, height) := size (gtkWindow w) in
    let isMaximized := maximized (gtkWindow w) in
    let cnf := CnfFreezeInt left_ (key +:+ "_left") cnf in
    let cnf := CnfFreezeInt top_ (key +:+ "_top") cnf in
    let cnf := CnfFreezeInt width (key +:+ "_width") cnf in
    let cnf := CnfFreezeInt height (key +:+ "_height") cnf in
    CnfFreezeInt (Z.b2z isMaximized) (key +:+ "_maximized") cnf.

Definition ThawPosition (key : string) (w : WindowImplGtk) (cnf : gmap string Z)
    : WindowImplGtk :=
  let g := gtkWindow w in
  let '(left_, top_) := position g in
  let '(width, height) := size g in
  let left_ := CnfThawInt left_ (key +:+ "_left") cnf in
  let top_ := CnfThawInt top_ (key +:+ "_top") cnf in
  let width := CnfThawInt width (key +:+ "_width") cnf in
  let height := CnfThawInt height (key +:+ "_height") cnf in
  with_gtkWindow
    (mkGtkWindow (visible g) (left_, top_) (width, height)
       (if negb (CnfThawInt 0 (key +:+ "_maximized") cnf =? 0) then true else maximized g)
       (_is_fullscreen g) (scrollbar_visible g) (adjustment g)) w.

(** [GtkWindow::on_scrollbar_value_changed], connected to the
    adjustment's [value_changed] signal. *)
Definition on_scrollbar_value_changed (w : WindowImplGtk) : list Effect :=
  if is_set (onScrollbarAdjusted (callbacks w))
  then [onScrollbarAdjusted_called (value (adjustment (gtkWindow w)))]
  else [].

(** Store a settled value; [value_changed] is emitted if it differs. *)
Definition adjustment_store (a : Adjustment) (w : WindowImplGtk)
    : WindowImplGtk * list Effect :=
  let old := value (adjustment (gtkWindow w)) in
  let w' := with_gtkWindow (with_adjustment a (gtkWindow w)) w in
  (w', if PrimFloat.eqb (value a) old then [] else on_scrollbar_value_changed w').

Definition SetScrollbarVisible (b : bool) (w : WindowImplGtk) : WindowImplGtk :=
  let g := gtkWindow w in
  with_gtkWindow
    (mkGtkWindow (visible g) (position g) (size g) (maximized g) (_is_fullscreen g)
                 b (adjustment g)) w.

(** [adjustment->configure(adjustment->get_value(), min, max, 1, 4, pageSize)] *)
Definition ConfigureScrollbar (min max pageSize : float) (w : WindowImplGtk)
    : WindowImplGtk * list Effect :=
  let a := adjustment (gtkWindow w) in
  adjustment_store
    (mkAdjustment (settle (value a) min max pageSize) min max 1 4 pageSize) w.

Definition GetScrollbarPosition (w : WindowImplGtk) : float :=
  value (adjustment (gtkWindow w)).

(** [adjustment->set_value(pos)] *)
Definition SetScrollbarPosition (pos : float) (w : WindowImplGtk)
    : WindowImplGtk * list Effect :=
  let a := adjustment (gtkWindow w) in
  adjustment_store
    (mkAdjustment (settle pos (lower a) (upper a) (page_size a))
       (lower a) (upper a) (step_increment a) (page_increment a) (page_size a)) w.

(** A connection refers to a source of its own timer only, and to none
    that is still to be made. *)
Definition exclusive (w : World) : Prop :=
  forall this t c,
    timers w !! this = Some t -> _connection t = Some c ->
    c < next_source_id (main_context w) /\
    forall s, In s (sources (main_context w)) -> source_id s = c -> source_this s = this.

(** ** Menus: labels and accelerators *)

Section MenuLabels.

Import Stdlib.Strings.Ascii.

(** [std::replace(label.begin(), label.end(), '&', '_')] *)
Fixpoint PrepareMenuLabel (label : string) : string :=
  match label with
  | EmptyString => EmptyString
  | String c rest =>
      String (if Strings.Ascii.eqb c "&"%char then "_"%char else c) (PrepareMenuLabel rest)
  end.

End MenuLabels.

Definition GDK_KEY_Tab    : Z := 0xff09.
Definition GDK_KEY_Escape : Z := 0xff1b.
Definition GDK_KEY_Delete : Z := 0xffff.

(** The two arguments of the [Gtk::AccelKey] that
    [MenuItemImplGtk::SetAccelerator] gives the item.
    [gdk_unicode_to_keyval] is GDK's. *)
Definition accelKey (gdk_unicode_to_keyval : Z -> Z) (accel : KeyboardEvent.t) : Z :=
  match KeyboardEvent.key accel with
  | KeyboardEvent.CHARACTER =>
      if KeyboardEvent.chr accel =? 0x09 then GDK_KEY_Tab
      else if KeyboardEvent.chr accel =? 0x1b then GDK_KEY_Escape
      else if KeyboardEvent.chr accel =? 0x7f then GDK_KEY_Delete
      else gdk_unicode_to_keyval (KeyboardEvent.chr accel)
  | KeyboardEvent.FUNCTION => UINT_of_int (GDK_KEY_F1 + KeyboardEvent.num accel - 1)
  end.

Definition accelMods (accel : KeyboardEvent.t) : Z :=
  let mods := 0 in
  let mods := if KeyboardEvent.shiftDown accel then Z.lor mods GDK_SHIFT_MASK else mods in
  if KeyboardEvent.controlDown accel then Z.lor mods GDK_CONTROL_MASK else mods.

(** ** GtkEditorOverlay *)

Definition PANGO_SCALE : Z := 1024.

(** What the entry's style context reports. *)
Record EntryStyle := mkEntryStyle {
  margin_left   : Z;
  margin_top    : Z;
  border_left   : Z;
  border_top    : Z;
  padding_left  : Z;
  padding_top   : Z;
  padding_right : Z
}.

(** The overlay with its [Gtk::Entry]: whether the entry is shown, its
    text, where [move] put it, its size request, its font (monospace
    flag and height), and how many modal grabs the overlay holds. *)
Record GtkEditorOverlay := mkGtkEditorOverlay {
  entry_visible      : bool;
  entry_text         : string;
  entry_position     : Z * Z;
  entry_size_request : Z * Z;
  entry_font         : bool * Z;
  modal_grabs        : nat
}.

(** The overlay as its constructor leaves it. *)
Definition new_overlay : GtkEditorOverlay :=
  mkGtkEditorOverlay false "" (0, 0) (-1, -1) (false, 0) 0.

Definition is_editing (o : GtkEditorOverlay) : bool := entry_visible o.

Section EditorOverlay.

(** Pango's metrics: the ascent of a font and the logical width of a
    text laid out in it, both in Pango units; and the entry's style
    under a font. *)
Variable get_ascent : bool * Z -> Z.
Variable layout_width : bool * Z -> string -> Z.
Variable get_style : bool * Z -> EntryStyle.

Definition start_editing (x y font_height min_width : Z) (is_monospace : bool)
    (val : string) (o : GtkEditorOverlay) : GtkEditorOverlay :=
  let font_desc := (is_monospace, font_height) in
  let style := get_style font_desc in
  let y := y - Z.quot (get_ascent font_desc) PANGO_SCALE in
  let width := layout_width font_desc (val +:+ " ") in
  let fitWidth := Z.quot width PANGO_SCALE + padding_left style + padding_right style in
  mkGtkEditorOverlay
    true
    val
    (x - margin_left style - border_left style - padding_left style,
     y - margin_top style - border_top style - padding_top style)
    (Z.max fitWidth min_width, -1)
    font_desc
    (if entry_visible o then modal_grabs o else S (modal_grabs o)).

Definition stop_editing (o : GtkEditorOverlay) : GtkEditorOverlay :=
  if entry_visible o
  then mkGtkEditorOverlay false (entry_text o) (entry_position o) (entry_size_request o)
         (entry_font o) (Nat.pred (modal_grabs o))
  else o.

(** What a key handler of the overlay does with the event besides
    changing the overlay: hand it to the entry, or leave it to the base
    class [Gtk::Fixed]. *)
Inductive KeyRoute := entry_event (keyval : Z) | swallowed | base_class.

(** Whether the handler returned [true] itself. *)
Definition consumed (r : KeyRoute) : bool :=
  match r with base_class => false | _ => true end.

Definition overlay_key_press (keyval : Z) (o : GtkEditorOverlay)
    : GtkEditorOverlay * KeyRoute :=
  if is_editing o
  then if keyval =? GDK_KEY_Escape then (stop_editing o, swallowed)
       else (o, entry_event keyval)
  else (o, base_class).

Definition overlay_key_release (keyval : Z) (o : GtkEditorOverlay)
    : GtkEditorOverlay * KeyRoute :=
  if is_editing o then (o, entry_event keyval) else (o, base_class).

(** [GtkEditorOverlay::on_activate]: the text handed to [onEditingDone],
    if that slot is set. *)
Definition overlay_on_activate (_receiver : WindowCallbacks) (o : GtkEditorOverlay)
    : option string :=
  if is_set (onEditingDone _receiver) then Some (entry_text o) else None.

(** [WindowImplGtk::ShowEditor], [HideEditor], [IsEditorVisible]; the
    [double] arguments are converted to the [int] parameters of
    [start_editing]. *)
Definition ShowEditor (x y fontHeight minWidth : float) (isMonospace : bool)
    (text : string) (o : GtkEditorOverlay) : GtkEditorOverlay :=
  start_editing (int_of_double x) (int_of_double y) (int_of_double fontHeight)
                (int_of_double minWidth) isMonospace text o.

Definition HideEditor (o : GtkEditorOverlay) : GtkEditorOverlay := stop_editing o.

Definition IsEditorVisible (o : GtkEditorOverlay) : bool := is_editing o.

(** What can happen to an overlay, and a run of it. *)
Inductive OverlayStep :=
| step_start_editing (x y font_height min_width : Z) (is_monospace : bool) (val : string)
| step_stop_editing
| step_key_press (keyval : Z)
| step_key_release (keyval : Z).

Definition overlay_step (o : GtkEditorOverlay) (s : OverlayStep) : GtkEditorOverlay :=
  match s with
  | step_start_editing x y h m mono val => start_editing x y h m mono val o
  | step_stop_editing => stop_editing o
  | step_key_press keyval => (overlay_key_press keyval o).1
  | step_key_release keyval => (overlay_key_release keyval o).1
  end.

End EditorOverlay.

(** ** GtkWindow: the menu bar and the window manager's events *)

(** The children of [_vbox] that are menu bars, by address, and the
    [_menu_bar] pointer ([None] for [NULL]). *)
Record MenuBarSlot := mkMenuBarSlot {
  _menu_bar  : option Z;
  vbox_menus : list Z
}.

Definition set_menu_bar (menu_bar : option Z) (g : MenuBarSlot) : MenuBarSlot :=
  let children :=
    match _menu_bar g with
    | Some old => List.filter (fun c => negb (c =? old)) (vbox_menus g)
    | None => vbox_menus g
    end in
  mkMenuBarSlot menu_bar
    match menu_bar with
    | Some new => new :: children
    | None => children
    end.

(** [GtkWindow::on_delete_event]: whether the close was taken over, and
    the call made. *)
Definition on_delete_event (_receiver : WindowCallbacks) : bool * list Effect :=
  if is_set (onClose _receiver) then (true, [onClose_called]) else (false, []).

(** A keymap for concrete events: GDK's treatment of the Latin-1
    keyvals, which are their own code points, with the capitals lowered;
    every other keyval is taken to have no character. *)
Definition latin1_keyval_to_lower (keyval : Z) : Z :=
  if (0x41 <=? keyval) && (keyval <=? 0x5a) then keyval + 0x20 else keyval.

Definition latin1_keyval_to_unicode (keyval : Z) : Z :=
  if ((0x20 <=? keyval) && (keyval <=? 0x7e)) || ((0xa0 <=? keyval) && (keyval <=? 0xff))
  then keyval else 0.

End Gtk.

(** * The Win32 backend *)
Module Win32.

(** winuser.h *)
Definition MK_LBUTTON : Z := 0x01.
Definition MK_RBUTTON : Z := 0x02.
Definition MK_SHIFT   : Z := 0x04.
Definition MK_CONTROL : Z := 0x08.
Definition MK_MBUTTON : Z := 0x10.
Definition VK_SHIFT   : Z := 0x10.
Definition VK_CONTROL : Z := 0x11.
Definition VK_MENU    : Z := 0x12.
Definition VK_DELETE  : Z := 0x2E.
Definition VK_F1      : Z := 0x70.
Definition VK_F12     : Z := 0x7B.
Definition MFT_RADIOCHECK : Z := 0x200.
Definition MFS_CHECKED    : Z := 0x8.
Definition MFS_DISABLED   : Z := 0x3.
Definition MFS_GRAYED     : Z := 0x3.
Definition SW_SHOWMAXIMIZED : Z := 3.
Definition SW_SHOW          : Z := 5.

(** The messages [WndProc] has a [case] for; [WM_OTHER] is any other
    one, which the [default:] label takes. *)
Inductive Message :=
| WM_ERASEBKGND | WM_PAINT | WM_CLOSE | WM_DESTROY | WM_SIZE
| WM_LBUTTONDOWN | WM_MBUTTONDOWN | WM_RBUTTONDOWN
| WM_LBUTTONDBLCLK | WM_MBUTTONDBLCLK | WM_RBUTTONDBLCLK
| WM_LBUTTONUP | WM_MBUTTONUP | WM_RBUTTONUP
| WM_MOUSEMOVE | WM_MOUSEWHEEL | WM_MOUSELEAVE
| WM_KEYDOWN | WM_KEYUP | WM_SYSKEYDOWN
| WM_VSCROLL | WM_MENUCOMMAND
| WM_OTHER (code : Z).

(** The scroll requests in the low word of a [WM_VSCROLL]'s [wParam]. *)
Definition SB_LINEUP        : Z := 0.
Definition SB_LINEDOWN      : Z := 1.
Definition SB_PAGEUP        : Z := 2.
Definition SB_PAGEDOWN      : Z := 3.
Definition SB_THUMBPOSITION : Z := 4.
Definition SB_THUMBTRACK    : Z := 5.
Definition SB_TOP           : Z := 6.
Definition SB_BOTTOM        : Z := 7.

Definition LOWORD (l : Z) : Z := Z.land l 0xFFFF.
Definition HIWORD (l : Z) : Z := Z.land (Z.shiftr l 16) 0xFFFF.

(** [(short)HIWORD(wParam)] *)
Definition GET_WHEEL_DELTA_WPARAM (wParam : Z) : Z :=
  let w := HIWORD wParam in if w <? 0x8000 then w else w - 0x10000.

(** ** Utility functions *)

Definition Clamp (x a b : Z) : Z := Z.max a (Z.min x b).

(** ** Timers *)

Record TimerImplWin32 := mkTimerImplWin32 {
  onTimeout : option (unit -> unit)
}.

(** The timers that exist, by address, and the timers the host keeps for
    the message-only window [WindowHandle()]: a millisecond clock and,
    per [nIDEvent], when it is due.  [SetTimer] on an identifier that
    already has a timer replaces it, as the host documents. *)
Record World := mkWorld {
  now         : Z;
  timer_table : gmap Z Z;
  timers      : gmap Z TimerImplWin32
}.

Definition SetTimer (nIDEvent uElapse : Z) (w : World) : World :=
  mkWorld (now w) (<[nIDEvent := now w + uElapse]> (timer_table w)) (timers w).

Definition KillTimer (nIDEvent : Z) (w : World) : World :=
  mkWorld (now w) (delete nIDEvent (timer_table w)) (timers w).

Definition TimerFunc (event : Z) (w : World) : World * list Effect :=
  (KillTimer event w,
   match timers w !! event with
   | Some timer => if is_set (onTimeout timer) then [onTimeout_called event] else []
   | None => []
   end).

Definition WindUp (this milliseconds : Z) (w : World) : World :=
  SetTimer this milliseconds w.

Definition CreateTimer (this : Z) (w : World) : World :=
  mkWorld (now w) (timer_table w) (<[this := mkTimerImplWin32 None]> (timers w)).

Definition set_onTimeout (this : Z) (f : option (unit -> unit)) (w : World) : World :=
  match timers w !! this with
  | None => w
  | Some _ => mkWorld (now w) (timer_table w) (<[this := mkTimerImplWin32 f]> (timers w))
  end.

(** The identifiers whose timer is due. *)
Definition due_timers (w : World) : list Z :=
  (map_to_list (filter (fun p => p.2 <= now w) (timer_table w))).*1.

Definition run_TimerFunc (st : World * list Effect) (event : Z) : World * list Effect :=
  let '(w', e) := TimerFunc event st.1 in (w', st.2 ++ e).

(** The message loop delivers a [WM_TIMER] to [TimerFunc] for every
    timer that is due. *)
Definition dispatch (w : World) : World * list Effect :=
  fold_left run_TimerFunc (due_timers w) (w, []).

Definition elapse (milliseconds : Z) (w : World) : World * list Effect :=
  dispatch (mkWorld (now w + milliseconds) (timer_table w) (timers w)).

(** The fires pending for the timer at [this]. *)
Definition pending (this : Z) (w : World) : nat :=
  match timer_table w !! this with Some _ => 1%nat | None => 0%nat end.

(** ** Menus *)

(** What the host keeps for a menu item, as [GetMenuItemInfoW] and
    [SetMenuItemInfoW] read and write it. *)
Record MENUITEMINFOW := mkMENUITEMINFOW {
  fType  : Z;
  fState : Z
}.

Record MenuItemImplWin32 := mkMenuItemImplWin32 {
  info      : MENUITEMINFOW;
  onTrigger : option (unit -> unit)
}.

(** [AppendMenuW(hMenu, MF_STRING, ...)] in [MenuImplWin32::AddItem]. *)
Definition AddItem_item (onTrigger : option (unit -> unit)) : MenuItemImplWin32 :=
  mkMenuItemImplWin32 (mkMENUITEMINFOW 0 0) onTrigger.

Definition SetIndicator (type : MenuItem.Indicator) (m : MenuItemImplWin32) : MenuItemImplWin32 :=
  let mii := info m in
  mkMenuItemImplWin32
    (mkMENUITEMINFOW
       match type with
       | MenuItem.NONE | MenuItem.CHECK_MARK => Z.land (fType mii) (Z.lnot MFT_RADIOCHECK)
       | MenuItem.RADIO_MARK => Z.lor (fType mii) MFT_RADIOCHECK
       end
       (fState mii))
    (onTrigger m).

(** No assertion guards this method: it always returns normally. *)
Definition SetActive (b : bool) (m : MenuItemImplWin32)
    : outcome (MenuItemImplWin32 * list Effect) :=
  let mii := info m in
  Ok (mkMenuItemImplWin32
        (mkMENUITEMINFOW (fType mii)
           (if b then Z.lor (fState mii) MFS_CHECKED
            else Z.land (fState mii) (Z.lnot MFS_CHECKED)))
        (onTrigger m),
      []).

Definition SetEnabled (enabled : bool) (m : MenuItemImplWin32) : MenuItemImplWin32 :=
  let mii := info m in
  mkMenuItemImplWin32
    (mkMENUITEMINFOW (fType mii)
       (if enabled then Z.land (fState mii) (Z.lnot (Z.lor MFS_DISABLED MFS_GRAYED))
        else Z.lor (fState mii) (Z.lor MFS_DISABLED MFS_GRAYED)))
    (onTrigger m).

(** ** Windows *)

Definition SCROLLBAR_UNIT : Z := 65536.

Record RECT := mkRECT {
  left_   : Z;
  top_    : Z;
  right_  : Z;
  bottom_ : Z
}.

Record WINDOWPLACEMENT := mkWINDOWPLACEMENT {
  flags            : Z;
  showCmd          : Z;
  rcNormalPosition : RECT
}.

Record SCROLLINFO := mkSCROLLINFO {
  nMin      : Z;
  nMax      : Z;
  nPage     : Z;
  nPos      : Z;
  nTrackPos : Z
}.

(** What the host keeps behind the handle [hWindow]. *)
Record NativeWindow := mkNativeWindow {
  IsWindowVisible   : bool;
  IsZoomed          : bool;
  GetWindowPlacement : WINDOWPLACEMENT;
  GetScrollInfo     : SCROLLINFO;
  scrollbar_shown   : bool;
  GetParent         : Z
}.

Record WindowImplWin32 := mkWindowImplWin32 {
  hWindow          : NativeWindow;
  placement        : WINDOWPLACEMENT;
  minWidth         : Z;
  minHeight        : Z;
  scrollbarVisible : bool;
  callbacks        : WindowCallbacks
}.

(** The object as its constructor and member initializers leave it,
    around the native window the host made for it. *)
Definition CreateWindow (native : NativeWindow) (cb : WindowCallbacks) : WindowImplWin32 :=
  mkWindowImplWin32 native (mkWINDOWPLACEMENT 0 0 (mkRECT 0 0 0 0)) 0 0 false cb.

Definition with_hWindow (n : NativeWindow) (w : WindowImplWin32) : WindowImplWin32 :=
  mkWindowImplWin32 n (placement w) (minWidth w) (minHeight w) (scrollbarVisible w)
                    (callbacks w).

(** What the window procedure asks the host and the process at large. *)
Record Host := mkHost {
  handlingFatalError    : bool;
  GetMilliseconds       : Z;
  contextMenuCancelTime : Z;
  GetKeyState           : Z -> Z;
  MapVirtualKeyW        : Z -> Z;
  tolower               : Z -> Z;
  WindowFromPoint       : Z -> Z -> Z;
  GetMenuItemID         : Z -> Z -> Z;
  item_onTrigger        : Z -> option (unit -> unit)
}.

(** What [WndProc] returns: the constant 1, or whatever the default
    window procedure makes of the message. *)
Inductive LRESULT := ret_1 | ret_DefWindowProc.

Definition is_button_message (msg : Message) : bool :=
  match msg with
  | WM_LBUTTONDOWN | WM_MBUTTONDOWN | WM_RBUTTONDOWN
  | WM_LBUTTONDBLCLK | WM_MBUTTONDBLCLK | WM_RBUTTONDBLCLK
  | WM_LBUTTONUP | WM_MBUTTONUP | WM_RBUTTONUP => true
  | _ => false
  end.

(** The inner [switch(msg)] of the mouse cases: the event it leaves, and
    the calls it makes on the way. *)
Definition mouse_event (host : Host) (h : Z) (msg : Message) (wParam lParam : Z)
    : MouseEvent.t * list Effect :=
  let ev type button delta :=
    MouseEvent.mk type (double_of_int (LOWORD lParam)) (double_of_int (HIWORD lParam))
      button (has_bits wParam MK_SHIFT) (has_bits wParam MK_CONTROL) delta in
  match msg with
  | WM_LBUTTONDOWN => (ev MouseEvent.PRESS MouseEvent.LEFT 0, [])
  | WM_MBUTTONDOWN => (ev MouseEvent.PRESS MouseEvent.MIDDLE 0, [])
  | WM_RBUTTONDOWN => (ev MouseEvent.PRESS MouseEvent.RIGHT 0, [])
  | WM_LBUTTONDBLCLK => (ev MouseEvent.DBL_PRESS MouseEvent.LEFT 0, [])
  | WM_MBUTTONDBLCLK => (ev MouseEvent.DBL_PRESS MouseEvent.MIDDLE 0, [])
  | WM_RBUTTONDBLCLK => (ev MouseEvent.DBL_PRESS MouseEvent.RIGHT 0, [])
  | WM_LBUTTONUP => (ev MouseEvent.RELEASE MouseEvent.LEFT 0, [])
  | WM_MBUTTONUP => (ev MouseEvent.RELEASE MouseEvent.MIDDLE 0, [])
  | WM_RBUTTONUP => (ev MouseEvent.RELEASE MouseEvent.RIGHT 0, [])
  | WM_MOUSEWHEEL =>
      let hWindowUnderMouse := WindowFromPoint host (LOWORD lParam) (HIWORD lParam) in
      if negb (hWindowUnderMouse =? 0) && negb (hWindowUnderMouse =? h)
      then (ev MouseEvent.MOTION MouseEvent.NONE 0,
            [SendMessage_called hWindowUnderMouse 0x020A wParam lParam])
      else (ev MouseEvent.SCROLL_VERT MouseEvent.NONE
               (if 0 <? GET_WHEEL_DELTA_WPARAM wParam then 1 else -1),
            [])
  | WM_MOUSELEAVE => (ev MouseEvent.LEAVE MouseEvent.NONE 0, [])
  | WM_MOUSEMOVE =>
      (ev MouseEvent.MOTION
          (if has_bits wParam MK_LBUTTON then MouseEvent.LEFT
           else if has_bits wParam MK_MBUTTON then MouseEvent.MIDDLE
           else if has_bits wParam MK_RBUTTON then MouseEvent.RIGHT
           else MouseEvent.NONE) 0,
       [TrackMouseEvent_called])
  | _ => (ev MouseEvent.MOTION MouseEvent.NONE 0, [])
  end.

(** The first part of the [WM_KEYDOWN]/[WM_KEYUP] case: the
    [KeyboardEvent] it builds, or [None] where it leaves through
    [break] for a key that maps to no character. *)
Definition key_event (host : Host) (msg : Message) (wParam : Z) : option KeyboardEvent.t :=
  let type := match msg with WM_KEYUP => KeyboardEvent.RELEASE | _ => KeyboardEvent.PRESS end in
  let shiftDown := has_bits (GetKeyState host VK_SHIFT) 0x8000 in
  let controlDown := has_bits (GetKeyState host VK_CONTROL) 0x8000 in
  if (VK_F1 <=? wParam) && (wParam <=? VK_F12) then
    Some (KeyboardEvent.mk type KeyboardEvent.FUNCTION (wParam - VK_F1 + 1) shiftDown controlDown)
  else
    let chr := tolower host (MapVirtualKeyW host wParam) in
    if chr =? 0 then
      if wParam =? VK_DELETE
      then Some (KeyboardEvent.mk type KeyboardEvent.CHARACTER 0x7f shiftDown controlDown)
      else None
    else if (chr =? 0x2e) && shiftDown then
      Some (KeyboardEvent.mk type KeyboardEvent.CHARACTER 0x3e false controlDown)
    else
      Some (KeyboardEvent.mk type KeyboardEvent.CHARACTER chr shiftDown controlDown).

(** The rest of that case.  The callback's result is dropped. *)
Definition dispatch_key_event (window : WindowImplWin32) (msg_code wParam lParam : Z)
    (event : KeyboardEvent.t) : list Effect :=
  if is_set (onKeyboardEvent (callbacks window))
  then [onKeyboardEvent_called event]
  else
    let hParent := GetParent (hWindow window) in
    if negb (hParent =? 0)
    then [SetForegroundWindow_called hParent; SendMessage_called hParent msg_code wParam lParam]
    else [].

(** [si.nPos] after the [switch(LOWORD(wParam))] of the [WM_VSCROLL] case
    and the [min] that follows it. *)
Definition vscroll_pos (si : SCROLLINFO) (wParam : Z) : Z :=
  let request := LOWORD wParam in
  let pos :=
    if request =? SB_LINEUP then int_of_UINT (UINT_of_int (nPos si - SCROLLBAR_UNIT))
    else if request =? SB_PAGEUP then int_of_UINT (UINT_of_int (nPos si - nPage si))
    else if request =? SB_LINEDOWN then int_of_UINT (UINT_of_int (nPos si + SCROLLBAR_UNIT))
    else if request =? SB_PAGEDOWN then int_of_UINT (UINT_of_int (nPos si + nPage si))
    else if request =? SB_TOP then nMin si
    else if request =? SB_BOTTOM then nMax si
    else if (request =? SB_THUMBTRACK) || (request =? SB_THUMBPOSITION) then nTrackPos si
    else nPos si in
  int_of_UINT (Z.min (UINT_of_int pos) (UINT_of_int (nMax si - nPage si))).

Definition WndProc (host : Host) (window : option WindowImplWin32)
    (h : Z) (msg : Message) (wParam lParam : Z) : LRESULT * list Effect :=
  if handlingFatalError host then (ret_1, [])
  else
    match window with
    | None => (ret_DefWindowProc, [])
    | Some window =>
        match msg with
        | WM_ERASEBKGND => (ret_1, [])
        | WM_PAINT =>
            (ret_1, if is_set (onRender (callbacks window)) then [onRender_called] else [])
        | WM_CLOSE | WM_DESTROY =>
            (ret_1, if is_set (onClose (callbacks window)) then [onClose_called] else [])
        | WM_SIZE => (ret_1, [Invalidate_called])
        | WM_LBUTTONDOWN | WM_MBUTTONDOWN | WM_RBUTTONDOWN
        | WM_LBUTTONDBLCLK | WM_MBUTTONDBLCLK | WM_RBUTTONDBLCLK
        | WM_LBUTTONUP | WM_MBUTTONUP | WM_RBUTTONUP
        | WM_MOUSEMOVE | WM_MOUSEWHEEL | WM_MOUSELEAVE =>
            if is_button_message msg &&
               (GetMilliseconds host - contextMenuCancelTime host <? 100)
            then (ret_1, [])
            else
              let '(event, calls) := mouse_event host h msg wParam lParam in
              (ret_1,
               calls ++ if is_set (onMouseEvent (callbacks window))
                        then [onMouseEvent_called event] else [])
        | WM_KEYDOWN | WM_KEYUP =>
            match key_event host msg wParam with
            | None => (ret_1, [])
            | Some event =>
                (ret_1,
                 dispatch_key_event window
                   (match msg with WM_KEYUP => 0x0101 | _ => 0x0100 end)
                   wParam lParam event)
            end
        | WM_SYSKEYDOWN =>
            let hParent := GetParent (hWindow window) in
            if negb (hParent =? 0)
            then (ret_1, [SetForegroundWindow_called hParent])
            else (ret_DefWindowProc, [])
        | WM_VSCROLL =>
            (ret_1,
             if is_set (onScrollbarAdjusted (callbacks window))
             then [onScrollbarAdjusted_called
                     (double_of_int (vscroll_pos (GetScrollInfo (hWindow window)) wParam)
                      / double_of_int SCROLLBAR_UNIT)%float]
             else [])
        | WM_MENUCOMMAND =>
            let menuItem := GetMenuItemID host lParam wParam in
            (ret_1,
             if is_set (item_onTrigger host menuItem) then [onTrigger_called menuItem] else [])
        | WM_OTHER _ => (ret_DefWindowProc, [])
        end
    end.

Definition IsVisible (w : WindowImplWin32) : bool := IsWindowVisible (hWindow w).

(** [ShowWindow(hWindow, visible ? SW_SHOW : SW_HIDE)] *)
Definition SetVisible (b : bool) (w : WindowImplWin32) : WindowImplWin32 :=
  let n := hWindow w in
  with_hWindow
    (mkNativeWindow b (IsZoomed n) (GetWindowPlacement n) (GetScrollInfo n)
                    (scrollbar_shown n) (GetParent n)) w.

(** [placement] is refreshed from the host whether or not the window is
    visible, and the five values are written. *)
Definition FreezePosition (key : string) (w : WindowImplWin32) (cnf : gmap string Z)
    : WindowImplWin32 * gmap string Z :=
  let placement := GetWindowPlacement (hWindow w) in
  let isMaximized := IsZoomed (hWindow w) in
  let rc := rcNormalPosition placement in
  let cnf := CnfFreezeInt (left_ rc) (key +:+ "_left") cnf in
  let cnf := CnfFreezeInt (right_ rc) (key +:+ "_right") cnf in
  let cnf := CnfFreezeInt (top_ rc) (key +:+ "_top") cnf in
  let cnf := CnfFreezeInt (bottom_ rc) (key +:+ "_bottom") cnf in
  let cnf := CnfFreezeInt (Z.b2z isMaximized) (key +:+ "_maximized") cnf in
  (mkWindowImplWin32 (hWindow w) placement (minWidth w) (minHeight w)
                     (scrollbarVisible w) (callbacks w),
   cnf).

(** The rectangle [ThawPosition] hands to [SetWindowPlacement].
    [MonitorFromRect] stands for [GetMonitorInfo(MonitorFromRect(&rc,
    MONITOR_DEFAULTTONEAREST), &mi)] followed by [mi.rcMonitor]. *)
Definition thawed_rect (MonitorFromRect : RECT -> RECT) (key : string)
    (rc : RECT) (cnf : gmap string Z) : RECT :=
  let rc := mkRECT (CnfThawInt (left_ rc) (key +:+ "_left") cnf)
                   (CnfThawInt (top_ rc) (key +:+ "_top") cnf)
                   (CnfThawInt (right_ rc) (key +:+ "_right") cnf)
                   (CnfThawInt (bottom_ rc) (key +:+ "_bottom") cnf) in
  let mrc := MonitorFromRect rc in
  mkRECT (Clamp (left_ rc) (left_ mrc) (right_ mrc))
         (Clamp (top_ rc) (top_ mrc) (bottom_ mrc))
         (Clamp (right_ rc) (left_ mrc) (right_ mrc))
         (Clamp (bottom_ rc) (top_ mrc) (bottom_ mrc)).

Definition ThawPosition (MonitorFromRect : RECT -> RECT) (key : string)
    (w : WindowImplWin32) (cnf : gmap string Z) : WindowImplWin32 :=
  let n := hWindow w in
  let rc := thawed_rect MonitorFromRect key (rcNormalPosition (GetWindowPlacement n)) cnf in
  let showCmd :=
    if negb (CnfThawInt 0 (key +:+ "_maximized") cnf =? 0)
    then SW_SHOWMAXIMIZED else SW_SHOW in
  let placement := mkWINDOWPLACEMENT 0 showCmd rc in
  mkWindowImplWin32
    (mkNativeWindow true (showCmd =? SW_SHOWMAXIMIZED) placement (GetScrollInfo n)
                    (scrollbar_shown n) (GetParent n))
    placement (minWidth w) (minHeight w) (scrollbarVisible w) (callbacks w).

(** [SetScrollInfo]: the host stores the fields the mask names, then
    brings the page into [0, nMax - nMin + 1] and the position into
    [nMin, nMax - max(nPage - 1, 0)], as it documents. *)
Definition range_check (si : SCROLLINFO) : SCROLLINFO :=
  let page := Z.max 0 (Z.min (nPage si) (nMax si - nMin si + 1)) in
  let pos := Z.max (nMin si) (Z.min (nPos si) (nMax si - Z.max (page - 1) 0)) in
  mkSCROLLINFO (nMin si) (nMax si) page pos (nTrackPos si).

Definition with_scroll (si : SCROLLINFO) (w : WindowImplWin32) : WindowImplWin32 :=
  let n := hWindow w in
  with_hWindow
    (mkNativeWindow (IsWindowVisible n) (IsZoomed n) (GetWindowPlacement n) si
                    (scrollbar_shown n) (GetParent n)) w.

Definition SetScrollbarVisible (b : bool) (w : WindowImplWin32) : WindowImplWin32 :=
  let n := hWindow w in
  mkWindowImplWin32
    (mkNativeWindow (IsWindowVisible n) (IsZoomed n) (GetWindowPlacement n)
                    (GetScrollInfo n) b (GetParent n))
    (placement w) (minWidth w) (minHeight w) b (callbacks w).

Definition ConfigureScrollbar (min max pageSize : float) (w : WindowImplWin32)
    : WindowImplWin32 :=
  let si := GetScrollInfo (hWindow w) in
  let unit := double_of_int SCROLLBAR_UNIT in
  with_scroll
    (range_check
       (mkSCROLLINFO (int_of_UINT (UINT_of_double (min * unit)))
                     (int_of_UINT (UINT_of_double (max * unit)))
                     (UINT_of_double (pageSize * unit))
                     (nPos si) (nTrackPos si))) w.

Definition GetScrollbarPosition (w : WindowImplWin32) : float :=
  if negb (scrollbarVisible w) then 0
  else (double_of_int (nPos (GetScrollInfo (hWindow w))) / double_of_int SCROLLBAR_UNIT)%float.

(** The host synthesizes no [WM_VSCROLL] here, so the method calls
    [onScrollbarAdjusted] itself, with the position it asked for. *)
Definition SetScrollbarPosition (pos : float) (w : WindowImplWin32)
    : WindowImplWin32 * list Effect :=
  let si := GetScrollInfo (hWindow w) in
  let nPos' := int_of_UINT (UINT_of_double (pos * double_of_int SCROLLBAR_UNIT)) in
  (with_scroll
     (range_check (mkSCROLLINFO (nMin si) (nMax si) (nPage si) nPos' (nTrackPos si))) w,
   if is_set (onScrollbarAdjusted (callbacks w))
   then [onScrollbarAdjusted_called
           (double_of_int nPos' / double_of_int SCROLLBAR_UNIT)%float]
   else []).

(** What the host shows for an item: checked, enabled, radio mark. *)
Definition is_checked (m : MenuItemImplWin32) : bool :=
  has_bits (fState (info m)) MFS_CHECKED.

Definition is_enabled (m : MenuItemImplWin32) : bool :=
  negb (has_bits (fState (info m)) (Z.lor MFS_DISABLED MFS_GRAYED)).

Definition is_radio (m : MenuItemImplWin32) : bool :=
  has_bits (fType (info m)) MFT_RADIOCHECK.

(** ** Menus: the containers *)

(** What [AppendMenuW] adds to a native menu: an item under the address
    of its [MenuItemImplWin32], a popup under the handle of its submenu,
    or a separator. *)
Inductive MenuEntry :=
| MF_STRING_item (item : Z) (label : string)
| MF_POPUP_item (hSubMenu : Z) (label : string)
| MF_SEPARATOR_item.

(** A menu: the entries the host keeps for [hMenu], and the two
    vectors of owned objects. *)
#[local] Unset Elimination Schemes.
Inductive MenuImplWin32 :=
  mkMenuImplWin32 (hMenu : Z) (entries : list MenuEntry)
                  (menuItems : list (Z * MenuItemImplWin32))
                  (subMenus : list MenuImplWin32).
#[local] Set Elimination Schemes.

Definition hMenu (m : MenuImplWin32) : Z :=
  match m with mkMenuImplWin32 h _ _ _ => h end.
Definition entries (m : MenuImplWin32) : list MenuEntry :=
  match m with mkMenuImplWin32 _ e _ _ => e end.
Definition menuItems (m : MenuImplWin32) : list (Z * MenuItemImplWin32) :=
  match m with mkMenuImplWin32 _ _ i _ => i end.
Definition subMenus (m : MenuImplWin32) : list MenuImplWin32 :=
  match m with mkMenuImplWin32 _ _ _ s => s end.

(** [CreateMenu()], around the handle [CreatePopupMenu()] returned. *)
Definition CreateMenu (h : Z) : MenuImplWin32 := mkMenuImplWin32 h [] [] [].

(** [menuItem] is the address of the new item. *)
Definition AddItem (menuItem : Z) (label : string) (onTrigger : option (unit -> unit))
    (m : MenuImplWin32) : MenuImplWin32 :=
  mkMenuImplWin32 (hMenu m)
    (entries m ++ [MF_STRING_item menuItem label])
    (menuItems m ++ [(menuItem, AddItem_item onTrigger)])
    (subMenus m).

(** [h] is the handle of the new submenu. *)
Definition AddSubMenu (h : Z) (label : string) (m : MenuImplWin32) : MenuImplWin32 :=
  mkMenuImplWin32 (hMenu m)
    (entries m ++ [MF_POPUP_item h label])
    (menuItems m)
    (subMenus m ++ [CreateMenu h]).

Definition AddSeparator (m : MenuImplWin32) : MenuImplWin32 :=
  mkMenuImplWin32 (hMenu m) (entries m ++ [MF_SEPARATOR_item]) (menuItems m) (subMenus m).

(** [RemoveMenu(hMenu, n, MF_BYPOSITION)] *)
Definition RemoveMenu (n : nat) (es : list MenuEntry) : list MenuEntry :=
  firstn n es ++ skipn (S n) es.

(** The loop of [Clear], entered with [k] positions still to visit:
    [n] runs from [k - 1] down to 0. *)
Fixpoint Clear_loop (k : nat) (es : list MenuEntry) : list MenuEntry :=
  match k with
  | O => es
  | S n => Clear_loop n (RemoveMenu n es)
  end.

Definition Clear (m : MenuImplWin32) : MenuImplWin32 :=
  mkMenuImplWin32 (hMenu m) (Clear_loop (length (entries m)) (entries m)) [] [].

(** The calls that build a menu, and a run of them. *)
Inductive MenuCall :=
| call_AddItem (menuItem : Z) (label : string) (onTrigger : option (unit -> unit))
| call_AddSubMenu (h : Z) (label : string)
| call_AddSeparator.

Definition menu_call (m : MenuImplWin32) (c : MenuCall) : MenuImplWin32 :=
  match c with
  | call_AddItem i l f => AddItem i l f m
  | call_AddSubMenu h l => AddSubMenu h l m
  | call_AddSeparator => AddSeparator m
  end.

Definition entry_of_call (c : MenuCall) : MenuEntry :=
  match c with
  | call_AddItem i l _ => MF_STRING_item i l
  | call_AddSubMenu h l => MF_POPUP_item h l
  | call_AddSeparator => MF_SEPARATOR_item
  end.

(** The host at another time of day. *)
Definition at_time (t : Z) (host : Host) : Host :=
  mkHost (handlingFatalError host) t (contextMenuCancelTime host)
         (GetKeyState host) (MapVirtualKeyW host) (tolower host)
         (WindowFromPoint host) (GetMenuItemID host) (item_onTrigger host).

(** [MenuImplWin32::PopUp]; [id] is what [TrackPopupMenu] returned, 0
    when the menu was dismissed.  The global [contextMenuCancelTime] is
    the field of that name of the host. *)
Definition PopUp (id : Z) (host : Host) : Host * list Effect :=
  if id =? 0 then
    (mkHost (handlingFatalError host) (GetMilliseconds host) (GetMilliseconds host)
            (GetKeyState host) (MapVirtualKeyW host) (tolower host)
            (WindowFromPoint host) (GetMenuItemID host) (item_onTrigger host),
     [])
  else
    (host, if is_set (item_onTrigger host id) then [onTrigger_called id] else []).

Section Accelerators.

Import Stdlib.Strings.Ascii.

(** The text conversions and the accelerator formatter, which live
    outside the three source files; [W] is [std::wstring]. *)
Variable W : Type.
Variable Widen : string -> W.
Variable Narrow : W -> string.
Variable AcceleratorDescription : KeyboardEvent.t -> string.

(** [name.find('\t')], [None] for [npos]. *)
Fixpoint find_tab (name : string) : option nat :=
  match name with
  | EmptyString => None
  | String c rest =>
      if Strings.Ascii.eqb c "009"%char then Some O
      else match find_tab rest with Some n => Some (S n) | None => None end
  end.

(** [if(name.find('\t') != npos) name = name.substr(0, name.find('\t'))] *)
Definition before_tab (name : string) : string :=
  match find_tab name with
  | Some n => String.substring 0 n name
  | None => name
  end.

(** The item text [MenuItemImplWin32::SetAccelerator] writes back, from
    the one it read. *)
Definition SetAccelerator_text (accel : KeyboardEvent.t) (nameW : W) : W :=
  Widen (before_tab (Narrow nameW) +:+
         String "009"%char EmptyString +:+ AcceleratorDescription accel).

End Accelerators.

(** ** The editor *)

Definition VK_RETURN : Z := 0x0D.
Definition VK_ESCAPE : Z := 0x1B.

Record TEXTMETRICW := mkTEXTMETRICW {
  tmAscent       : Z;
  tmDescent      : Z;
  tmAveCharWidth : Z
}.

(** What the host keeps behind [hEditor]: whether it is shown, its
    text, the rectangle [MoveWindow] gave it, its font (monospace flag
    and the height passed to [CreateFontW]) and whether [SetFocus] gave
    it the focus. *)
Record EditorWindow := mkEditorWindow {
  editor_visible : bool;
  editor_text    : string;
  editor_rect    : RECT;
  editor_font    : bool * Z;
  editor_focused : bool
}.

(** [(LONG)d]; a [LONG] is a 32-bit [int]. *)
Definition LONG_of_double (d : float) : Z := int_of_double d.

Section Editor.

(** The host's font metrics, text extent and frame adjustment. *)
Variable GetTextMetricsW : bool * Z -> TEXTMETRICW.
Variable GetTextExtentPoint32W : bool * Z -> string -> Z.
Variable AdjustWindowRectEx : RECT -> RECT.

Definition IsEditorVisible (e : EditorWindow) : bool := editor_visible e.

(** The rectangle of [ShowEditor] before [AdjustWindowRectEx]; its
    [LONG] sums and the negated font height are the 32-bit ones of the
    compiled code. *)
Definition editor_client_rect (x y fontHeight minWidth : float) (isMonospace : bool)
    (text : string) : RECT :=
  let hFont := (isMonospace, int_wrap (- LONG_of_double fontHeight)) in
  let tm := GetTextMetricsW hFont in
  let cx := GetTextExtentPoint32W hFont text in
  mkRECT (LONG_of_double x)
         (int_wrap (LONG_of_double y - tmAscent tm))
         (int_wrap (LONG_of_double x +
                    Z.max (LONG_of_double minWidth) (int_wrap (cx + tmAveCharWidth tm))))
         (int_wrap (LONG_of_double y + tmDescent tm)).

Definition ShowEditor (x y fontHeight minWidth : float) (isMonospace : bool)
    (text : string) (e : EditorWindow) : EditorWindow :=
  if IsEditorVisible e then e
  else
    let rc := AdjustWindowRectEx
                (editor_client_rect x y fontHeight minWidth isMonospace text) in
    mkEditorWindow true
      (if String.eqb text "" then editor_text e else text)
      rc
      (isMonospace, int_wrap (- LONG_of_double fontHeight))
      (if String.eqb text "" then editor_focused e else true).

Definition HideEditor (e : EditorWindow) : EditorWindow :=
  if negb (IsEditorVisible e) then e
  else mkEditorWindow false (editor_text e) (editor_rect e) (editor_font e)
                      (editor_focused e).

End Editor.

(** What [EditorWndProc] does with a message: return 1 after telling
    [onEditingDone] the text or after sending the message on to the
    parent window, or leave it to the edit control's own procedure. *)
Inductive EditorResult :=
| editing_done (text : string)
| sent_to_parent (msg : Message) (wParam lParam : Z)
| ignored_in_fatal_error
| CallWindowProc.

Definition EditorWndProc (host : Host) (window : WindowImplWin32) (e : EditorWindow)
    (msg : Message) (wParam lParam : Z) : EditorResult :=
  if handlingFatalError host then ignored_in_fatal_error
  else
    match msg with
    | WM_KEYDOWN =>
        if wParam =? VK_RETURN then
          if is_set (onEditingDone (callbacks window))
          then editing_done (editor_text e)
          else CallWindowProc
        else if wParam =? VK_ESCAPE then sent_to_parent msg wParam lParam
        else CallWindowProc
    | _ => CallWindowProc
    end.

(** ** Full screen *)






(** The scrollbar methods a caller can invoke, and a run of them. *)
Inductive ScrollbarCall :=
| call_SetScrollbarVisible (visible : bool)
| call_ConfigureScrollbar (min max pageSize : float)
| call_SetScrollbarPosition (pos : float).

Definition do_call (w : WindowImplWin32) (c : ScrollbarCall) : WindowImplWin32 :=
  match c with
  | call_SetScrollbarVisible visible => SetScrollbarVisible visible w
  | call_ConfigureScrollbar min max pageSize => ConfigureScrollbar min max pageSize w
  | call_SetScrollbarPosition pos => (SetScrollbarPosition pos w).1
  end.

Definition do_calls (calls : list ScrollbarCall) (w : WindowImplWin32) : WindowImplWin32 :=
  fold_left do_call calls w.

(** What the latest [SetScrollbarVisible] of a run asked for, starting
    from [shown]. *)
Definition visible_after (calls : list ScrollbarCall) (shown : bool) : bool :=
  fold_left (fun v c => match c with call_SetScrollbarVisible b => b | _ => v end)
            calls shown.

(** Whether the message was kept from the default window procedure. *)
Definition reported_handled (r : LRESULT) : bool :=
  match r with ret_1 => true | ret_DefWindowProc => false end.

(** A host for concrete events: the letter and digit keys map to their
    own code, the period key [VK_OEM_PERIOD] to ['.'], nothing else maps
    to a character; [keys] says which keys are held. *)
Definition sample_host (keys : Z -> Z) : Host :=
  mkHost false 1000 0 keys
    (fun vk => if ((0x30 <=? vk) && (vk <=? 0x39)) || ((0x41 <=? vk) && (vk <=? 0x5a)) then vk
               else if vk =? 0xBE then 0x2e else 0)
    (fun c => if (0x41 <=? c) && (c <=? 0x5a) then c + 0x20 else c)
    (fun _ _ => 0) (fun _ _ => 0) (fun _ => None).

Definition no_keys : Z -> Z := fun _ => 0.
Definition held (vk : Z) : Z -> Z := fun k => if k =? vk then -32768 else 0.

(** A single 1920 by 1080 monitor. *)
Definition one_monitor : RECT -> RECT := fun _ => mkRECT 0 0 1920 1080.

(** A native window for concrete cases: hidden, at (10,20)-(110,220). *)
Definition sample_native (parent : Z) : NativeWindow :=
  mkNativeWindow false false (mkWINDOWPLACEMENT 0 SW_SHOW (mkRECT 10 20 110 220))
                 (mkSCROLLINFO 0 100 0 0 0) false parent.

End Win32.

(** ** Positions at the precision of the fixed-point encoding *)

(** The [double] that is [n] units of 1/65536: the positions that the
    encoding of a scroll position in an [int], with the factor 65536,
    can represent. *)
Definition position_of_units (n : Z) : float := (double_of_int n / 65536)%float.

(** * Window geometry persistence *)

(** On GTK a hidden window freezes nothing. *)
Lemma gtk_FreezePosition_hidden (key : string) (w : Gtk.WindowImplGtk) (cnf : gmap string Z) :
  Gtk.IsVisible w = false -> Gtk.FreezePosition key w cnf = cnf.
Proof.
  unfold Gtk.IsVisible, Gtk.FreezePosition. intros ->. reflexivity.
Qed.

(** C2 (Win32): [FreezePosition] has no visibility test.  The store holds
    the rectangle (500,300)-(900,600) under the key "w"; freezing the
    hidden window at (10,20)-(110,220) overwrites all five values, and a
    thaw afterwards restores (10,20)-(110,220), not what was stored. *)
Lemma win32_FreezePosition_hidden_writes :
  let w := Win32.CreateWindow (Win32.sample_native 0) no_callbacks in
  let stored : gmap string Z :=
    list_to_map [("w_left", 500); ("w_right", 900); ("w_top", 300);
                 ("w_bottom", 600); ("w_maximized", 0)] in
  let frozen := Win32.FreezePosition "w" w stored in
  let thawed cnf :=
    Win32.rcNormalPosition
      (Win32.placement (Win32.ThawPosition Win32.one_monitor "w" frozen.1 cnf)) in
  Win32.IsVisible w = false /\
  frozen.2 !! "w_left" = Some 10 /\ frozen.2 !! "w_right" = Some 110 /\
  frozen.2 !! "w_top" = Some 20 /\ frozen.2 !! "w_bottom" = Some 220 /\
  thawed stored = Win32.mkRECT 500 300 900 600 /\
  thawed frozen.2 = Win32.mkRECT 10 20 110 220.
Proof.
  cbn zeta. repeat split; vm_compute; reflexivity.
Qed.

(** On Win32 the maximized flag, the last of the five values, is in the
    store after every [FreezePosition], visible window or not. *)
Lemma win32_FreezePosition_always_writes (key : string) (w : Win32.WindowImplWin32)
    (cnf : gmap string Z) :
  (Win32.FreezePosition key w cnf).2 !! (key +:+ "_maximized") =
  Some (Z.b2z (Win32.IsZoomed (Win32.hWindow w))).
Proof. unfold Win32.FreezePosition, CnfFreezeInt. cbn. apply lookup_insert_eq. Qed.

(** Win32 brings every thawed coordinate inside the monitor nearest to
    the stored rectangle. *)
Lemma win32_thawed_rect_within_monitor (MonitorFromRect : Win32.RECT -> Win32.RECT)
    (key : string) (rc : Win32.RECT) (cnf : gmap string Z) :
  (forall r, Win32.left_ (MonitorFromRect r) <= Win32.right_ (MonitorFromRect r) /\
             Win32.top_ (MonitorFromRect r) <= Win32.bottom_ (MonitorFromRect r)) ->
  let stored :=
    Win32.mkRECT (CnfThawInt (Win32.left_ rc) (key +:+ "_left") cnf)
                 (CnfThawInt (Win32.top_ rc) (key +:+ "_top") cnf)
                 (CnfThawInt (Win32.right_ rc) (key +:+ "_right") cnf)
                 (CnfThawInt (Win32.bottom_ rc) (key +:+ "_bottom") cnf) in
  let mrc := MonitorFromRect stored in
  let rc' := Win32.thawed_rect MonitorFromRect key rc cnf in
  Win32.left_ mrc <= Win32.left_ rc' <= Win32.right_ mrc /\
  Win32.left_ mrc <= Win32.right_ rc' <= Win32.right_ mrc /\
  Win32.top_ mrc <= Win32.top_ rc' <= Win32.bottom_ mrc /\
  Win32.top_ mrc <= Win32.bottom_ rc' <= Win32.bottom_ mrc.
Proof.
  intros Hm stored mrc. unfold Win32.thawed_rect. fold stored. fold mrc.
  destruct (Hm stored) as [Hh Hv]. fold mrc in Hh, Hv.
  cbn [Win32.left_ Win32.top_ Win32.right_ Win32.bottom_].
  unfold Win32.Clamp. lia.
Qed.

(** On GTK a stored position is where the window goes. *)
Lemma gtk_ThawPosition_position (key : string) (w : Gtk.WindowImplGtk)
    (cnf : gmap string Z) (l t : Z) :
  cnf !! (key +:+ "_left") = Some l -> cnf !! (key +:+ "_top") = Some t ->
  Gtk.position (Gtk.gtkWindow (Gtk.ThawPosition key w cnf)) = (l, t).
Proof.
  intros Hl Ht. unfold Gtk.ThawPosition, CnfThawInt.
  destruct (Gtk.position (Gtk.gtkWindow w)) as [l0 t0].
  destruct (Gtk.size (Gtk.gtkWindow w)) as [w0 h0].
  cbn. rewrite Hl, Ht. reflexivity.
Qed.

(** C3 (GTK): [ThawPosition] moves the window to the stored position as
    it is.  With (100000,100000) stored under the key "w", that is where
    the window goes; no monitor is looked at. *)
Lemma gtk_ThawPosition_moves_unclamped :
  let w := Gtk.CreateWindow (0, 0) (100, 100) no_callbacks in
  let stored : gmap string Z :=
    list_to_map [("w_left", 100000); ("w_top", 100000);
                 ("w_width", 640); ("w_height", 480)] in
  let g := Gtk.gtkWindow (Gtk.ThawPosition "w" w stored) in
  Gtk.position g = (100000, 100000) /\ Gtk.size g = (640, 480).
Proof.
  cbn zeta. split; vm_compute; reflexivity.
Qed.

(** * Menu items *)

(** On GTK an item without indicator trips the assertion. *)
Lemma gtk_SetActive_without_indicator (this : Z) (b : bool) (m : Gtk.MenuItemImplGtk) :
  Gtk.SetActive this b (Gtk.SetIndicator MenuItem.NONE m) =
  AssertionFailure "Cannot change state of a menu item without indicator".
Proof. reflexivity. Qed.

(** On Win32 [SetActive] returns normally on every item. *)
Lemma win32_SetActive_never_fails (b : bool) (m : Win32.MenuItemImplWin32) :
  exists r, Win32.SetActive b m = Ok r.
Proof. eexists. reflexivity. Qed.

(** C4 (Win32): [SetActive] has no assertion.  On a new item whose
    indicator is set to NONE it returns normally, and the item is
    checked afterwards. *)
Lemma win32_SetActive_without_indicator_accepted :
  Win32.SetActive true (Win32.SetIndicator MenuItem.NONE (Win32.AddItem_item None)) =
  Ok (Win32.mkMenuItemImplWin32 (Win32.mkMENUITEMINFOW 0 Win32.MFS_CHECKED) None, []).
Proof. reflexivity. Qed.

(** * Keyboard events *)

(** C1 as stated fails on Win32: the 'A' key goes down, the registered
    callback answers [false] (unhandled), and the window procedure still
    returns 1, keeping the message from the default window procedure. *)
Lemma win32_key_result_ignores_callback :
  let f : KeyboardEvent.t -> bool := fun _ => false in
  let cb := mkWindowCallbacks None None None (Some f) None None None in
  let window := Win32.CreateWindow (Win32.sample_native 0) cb in
  let host := Win32.sample_host Win32.no_keys in
  let event :=
    KeyboardEvent.mk KeyboardEvent.PRESS KeyboardEvent.CHARACTER 0x61 false false in
  Win32.key_event host Win32.WM_KEYDOWN 0x41 = Some event /\
  Win32.WndProc host (Some window) 1 Win32.WM_KEYDOWN 0x41 0 =
    (Win32.ret_1, [onKeyboardEvent_called event]) /\
  Win32.reported_handled (Win32.WndProc host (Some window) 1 Win32.WM_KEYDOWN 0x41 0).1
    <> f event.
Proof.
  cbn zeta. split; [reflexivity|]. split; [reflexivity|].
  vm_compute. discriminate.
Qed.

(** C1, amended.  On Win32 a [WM_KEYDOWN] or [WM_KEYUP] that yields a
    [KeyboardEvent], on a window with a registered [onKeyboardEvent],
    invokes that callback exactly once with that event, and the window
    procedure answers 1, reporting the message handled, whatever the
    callback answers. *)
Theorem keyboard_event_dispatch
    (host : Win32.Host) (window : Win32.WindowImplWin32) (h wParam lParam : Z)
    (msg : Win32.Message) (event : KeyboardEvent.t) (f : KeyboardEvent.t -> bool) :
  Win32.handlingFatalError host = false ->
  msg = Win32.WM_KEYDOWN \/ msg = Win32.WM_KEYUP ->
  Win32.key_event host msg wParam = Some event ->
  onKeyboardEvent (Win32.callbacks window) = Some f ->
  Win32.WndProc host (Some window) h msg wParam lParam =
    (Win32.ret_1, [onKeyboardEvent_called event]) /\
  Win32.reported_handled (Win32.WndProc host (Some window) h msg wParam lParam).1 = true.
Proof.
  intros Hfatal Hmsg Hev Hcb.
  assert (Hrun : Win32.WndProc host (Some window) h msg wParam lParam =
                 (Win32.ret_1, [onKeyboardEvent_called event])).
  { unfold Win32.WndProc. rewrite Hfatal.
    destruct Hmsg as [-> | ->]; rewrite Hev;
      unfold Win32.dispatch_key_event; rewrite Hcb; reflexivity. }
  split; [exact Hrun | rewrite Hrun; reflexivity].
Qed.

Lemma keyboard_event_dispatch_witness :
  let cb f := mkWindowCallbacks None None None (Some f) None None None in
  let window f := Win32.CreateWindow (Win32.sample_native 0) (cb f) in
  let host := Win32.sample_host Win32.no_keys in
  let event :=
    KeyboardEvent.mk KeyboardEvent.RELEASE KeyboardEvent.CHARACTER 0x61 false false in
  Win32.WndProc host (Some (window (fun _ => false))) 1 Win32.WM_KEYUP 0x41 0 =
    (Win32.ret_1, [onKeyboardEvent_called event]) /\
  Win32.WndProc host (Some (window (fun _ => true))) 1 Win32.WM_KEYUP 0x41 0 =
    (Win32.ret_1, [onKeyboardEvent_called event]).
Proof.
  cbn zeta. split.
  - exact (proj1 (keyboard_event_dispatch
             (Win32.sample_host Win32.no_keys)
             (Win32.CreateWindow (Win32.sample_native 0)
                (mkWindowCallbacks None None None (Some (fun _ => false)) None None None))
             1 0x41 0 Win32.WM_KEYUP
             (KeyboardEvent.mk KeyboardEvent.RELEASE KeyboardEvent.CHARACTER 0x61
                false false)
             (fun _ => false) eq_refl (or_intror eq_refl) eq_refl eq_refl)).
  - exact (proj1 (keyboard_event_dispatch
             (Win32.sample_host Win32.no_keys)
             (Win32.CreateWindow (Win32.sample_native 0)
                (mkWindowCallbacks None None None (Some (fun _ => true)) None None None))
             1 0x41 0 Win32.WM_KEYUP
             (KeyboardEvent.mk KeyboardEvent.RELEASE KeyboardEvent.CHARACTER 0x61
                false false)
             (fun _ => true) eq_refl (or_intror eq_refl) eq_refl eq_refl)).
Defined.

(** The GTK handler is no part of the amended C1.  It never invokes
    the registered [onKeyboardEvent], whatever the key: its only call is
    to [SS.GW.KeyboardEvent], where the pointer handler next to it calls
    the registered [onMouseEvent]. *)
Lemma gtk_key_event_bypasses_callback
    (gdk_keyval_to_lower gdk_keyval_to_unicode : Z -> Z)
    (GW_KeyboardEvent : KeyboardEvent.t -> bool) (_receiver : WindowCallbacks)
    (type : KeyboardEvent.Type_) (state keyval : Z) (e : KeyboardEvent.t) :
  ~ In (onKeyboardEvent_called e)
       (Gtk.process_key_event gdk_keyval_to_lower gdk_keyval_to_unicode GW_KeyboardEvent
          _receiver type state keyval).2.
Proof.
  unfold Gtk.process_key_event.
  destruct (Gtk.key_event _ _ _ _ _); cbn; intros H.
  - destruct H as [H | []]. discriminate H.
  - exact H.
Qed.

(** A state bit that is neither Shift nor Control survives the mask
    [~(GDK_SHIFT_MASK|GDK_CONTROL_MASK)]. *)
Lemma other_bit_survives_mask (state bit : Z) :
  Z.testbit state bit = true ->
  2 ^ bit <> Gtk.GDK_SHIFT_MASK -> 2 ^ bit <> Gtk.GDK_CONTROL_MASK ->
  Z.land state (Z.lnot (Z.lor Gtk.GDK_SHIFT_MASK Gtk.GDK_CONTROL_MASK)) <> 0.
Proof.
  intros Hbit Hshift Hcontrol Hzero.
  assert (0 <= bit) as Hnonneg.
  { destruct (Z.le_gt_cases 0 bit) as [H | H]; [exact H|].
    rewrite Z.testbit_neg_r in Hbit by exact H. discriminate Hbit. }
  apply (f_equal (fun z => Z.testbit z bit)) in Hzero.
  rewrite Z.land_spec, Z.lnot_spec, Hbit, Z.bits_0 in Hzero by exact Hnonneg.
  change (Z.lor Gtk.GDK_SHIFT_MASK Gtk.GDK_CONTROL_MASK) with 5 in Hzero.
  assert (Z.testbit 5 bit = false) as Hfive.
  { destruct (Z.eq_dec bit 0) as [-> | H0]; [exfalso; apply Hshift; reflexivity|].
    destruct (Z.eq_dec bit 1) as [-> | H1]; [reflexivity|].
    destruct (Z.eq_dec bit 2) as [-> | H2]; [exfalso; apply Hcontrol; reflexivity|].
    apply Z.bits_above_log2; [lia|]. change (Z.log2 5) with 2. lia. }
  rewrite Hfive in Hzero. discriminate Hzero.
Qed.

(** C5 as stated fails on Win32.  A key pressed with Alt held reaches
    the window procedure as [WM_SYSKEYDOWN]; on a tool window (parent 7)
    the case brings the parent to the foreground and returns 1, so the
    message is reported handled and the default window procedure never
    sees it. *)
Lemma win32_alt_key_on_tool_window_is_handled :
  let window := Win32.CreateWindow (Win32.sample_native 7) no_callbacks in
  let host := Win32.sample_host (Win32.held Win32.VK_MENU) in
  has_bits (Win32.GetKeyState host Win32.VK_MENU) 0x8000 = true /\
  Win32.WndProc host (Some window) 1 Win32.WM_SYSKEYDOWN 0x41 0 =
    (Win32.ret_1, [SetForegroundWindow_called 7]) /\
  Win32.reported_handled
    (Win32.WndProc host (Some window) 1 Win32.WM_SYSKEYDOWN 0x41 0).1 <> false.
Proof.
  cbn zeta. split; [reflexivity|]. split; [reflexivity|].
  vm_compute. discriminate.
Qed.

(** C5, amended.  GTK: a key event whose state has a bit set that is
    neither [GDK_SHIFT_MASK] nor [GDK_CONTROL_MASK] yields no
    [KeyboardEvent], invokes nothing and is reported unhandled.  Win32:
    a [WM_SYSKEYDOWN] never yields a keyboard callback; a window without
    parent leaves it to the default window procedure, a window with a
    parent brings the parent to the foreground and returns 1. *)
Theorem other_modifier_key_events
    (gdk_keyval_to_lower gdk_keyval_to_unicode : Z -> Z)
    (GW_KeyboardEvent : KeyboardEvent.t -> bool) (_receiver : WindowCallbacks)
    (type : KeyboardEvent.Type_) (state keyval bit : Z)
    (host : Win32.Host) (window : Win32.WindowImplWin32) (h wParam lParam : Z) :
  Z.testbit state bit = true -> 2 ^ bit <> Gtk.GDK_SHIFT_MASK -> 2 ^ bit <> Gtk.GDK_CONTROL_MASK ->
  Win32.handlingFatalError host = false ->
  Gtk.key_event gdk_keyval_to_lower gdk_keyval_to_unicode type state keyval = None /\
  Gtk.process_key_event gdk_keyval_to_lower gdk_keyval_to_unicode GW_KeyboardEvent
    _receiver type state keyval = (false, []) /\
  Win32.WndProc host (Some window) h Win32.WM_SYSKEYDOWN wParam lParam =
    if Win32.GetParent (Win32.hWindow window) =? 0
    then (Win32.ret_DefWindowProc, [])
    else (Win32.ret_1, [SetForegroundWindow_called (Win32.GetParent (Win32.hWindow window))]).
Proof.
  intros Hbit Hshift Hcontrol Hfatal.
  pose proof (other_bit_survives_mask state bit Hbit Hshift Hcontrol) as Hstate.
  assert (Hkey : Gtk.key_event gdk_keyval_to_lower gdk_keyval_to_unicode
                   type state keyval = None).
  { unfold Gtk.key_event.
    destruct (Z.eqb_spec
      (Z.land state (Z.lnot (Z.lor Gtk.GDK_SHIFT_MASK Gtk.GDK_CONTROL_MASK))) 0)
      as [E | _]; [contradiction | reflexivity]. }
  split; [exact Hkey|]. split.
  - unfold Gtk.process_key_event. rewrite Hkey. reflexivity.
  - unfold Win32.WndProc. rewrite Hfatal.
    destruct (Win32.GetParent (Win32.hWindow window) =? 0); reflexivity.
Qed.

Lemma other_modifier_key_events_witness :
  let GDK_MOD1_MASK := 8 in
  Gtk.process_key_event Gtk.latin1_keyval_to_lower Gtk.latin1_keyval_to_unicode
    (fun _ => true) no_callbacks KeyboardEvent.PRESS GDK_MOD1_MASK 0x61 = (false, []) /\
  Win32.WndProc (Win32.sample_host (Win32.held Win32.VK_MENU))
    (Some (Win32.CreateWindow (Win32.sample_native 0) no_callbacks))
    1 Win32.WM_SYSKEYDOWN 0x41 0 = (Win32.ret_DefWindowProc, []).
Proof.
  cbn zeta.
  destruct (other_modifier_key_events
              Gtk.latin1_keyval_to_lower Gtk.latin1_keyval_to_unicode (fun _ => true)
              no_callbacks KeyboardEvent.PRESS 8 0x61 3
              (Win32.sample_host (Win32.held Win32.VK_MENU))
              (Win32.CreateWindow (Win32.sample_native 0) no_callbacks) 1 0x41 0)
    as (_ & Hgtk & Hwin).
  - reflexivity.
  - vm_compute. discriminate.
  - vm_compute. discriminate.
  - reflexivity.
  - split; [exact Hgtk | exact Hwin].
Defined.

(** C6 (GTK): nothing rewrites Shift+'.'.  The period key with Shift held
    goes to the keyboard handler as the character '.' with [shiftDown]
    still set. *)
Lemma gtk_shift_period_not_rewritten
    (GW_KeyboardEvent : KeyboardEvent.t -> bool) (_receiver : WindowCallbacks) :
  let event := KeyboardEvent.mk KeyboardEvent.PRESS KeyboardEvent.CHARACTER 0x2e true false in
  Gtk.key_event Gtk.latin1_keyval_to_lower Gtk.latin1_keyval_to_unicode
    KeyboardEvent.PRESS Gtk.GDK_SHIFT_MASK 0x2e = Some event /\
  Gtk.process_key_event Gtk.latin1_keyval_to_lower Gtk.latin1_keyval_to_unicode
    GW_KeyboardEvent _receiver KeyboardEvent.PRESS Gtk.GDK_SHIFT_MASK 0x2e =
  (GW_KeyboardEvent event, [GW_KeyboardEvent_called event]).
Proof.
  cbn zeta. split; [reflexivity|].
  unfold Gtk.process_key_event.
  change (Gtk.key_event _ _ _ _ _)
    with (Some (KeyboardEvent.mk KeyboardEvent.PRESS KeyboardEvent.CHARACTER 0x2e true false)).
  cbn. destruct (GW_KeyboardEvent _); reflexivity.
Qed.

(** On Win32 a key that maps to '.' with Shift held becomes '>' with
    [shiftDown] cleared. *)
Lemma win32_shift_period_rewritten (host : Win32.Host) (msg : Win32.Message) (wParam : Z) :
  (Win32.VK_F1 <=? wParam) && (wParam <=? Win32.VK_F12) = false ->
  Win32.tolower host (Win32.MapVirtualKeyW host wParam) = 0x2e ->
  has_bits (Win32.GetKeyState host Win32.VK_SHIFT) 0x8000 = true ->
  exists event,
    Win32.key_event host msg wParam = Some event /\
    KeyboardEvent.chr event = 0x3e /\ KeyboardEvent.key event = KeyboardEvent.CHARACTER /\
    KeyboardEvent.shiftDown event = false.
Proof.
  intros HF Hchr Hshift. unfold Win32.key_event.
  rewrite HF, Hchr, Hshift. cbn. eexists. split; [reflexivity|]. cbn. auto.
Qed.

(** * Pointer buttons *)

(** On Win32 a press, double press or release carries the button of its
    message, whatever buttons [wParam] reports as held. *)
Lemma win32_button_message_explicit (host : Win32.Host) (h wParam lParam : Z)
    (msg : Win32.Message) :
  Win32.is_button_message msg = true ->
  MouseEvent.button (Win32.mouse_event host h msg wParam lParam).1 =
  match msg with
  | Win32.WM_LBUTTONDOWN | Win32.WM_LBUTTONDBLCLK | Win32.WM_LBUTTONUP => MouseEvent.LEFT
  | Win32.WM_MBUTTONDOWN | Win32.WM_MBUTTONDBLCLK | Win32.WM_MBUTTONUP => MouseEvent.MIDDLE
  | _ => MouseEvent.RIGHT
  end.
Proof. destruct msg; cbn; intros H; try discriminate H; reflexivity. Qed.

(** On Win32 a motion takes its button from the held-button mask, LEFT
    before MIDDLE before RIGHT. *)
Lemma win32_motion_mask_priority (host : Win32.Host) (h wParam lParam : Z) :
  MouseEvent.button (Win32.mouse_event host h Win32.WM_MOUSEMOVE wParam lParam).1 =
  if has_bits wParam Win32.MK_LBUTTON then MouseEvent.LEFT
  else if has_bits wParam Win32.MK_MBUTTON then MouseEvent.MIDDLE
  else if has_bits wParam Win32.MK_RBUTTON then MouseEvent.RIGHT
  else MouseEvent.NONE.
Proof. reflexivity. Qed.

(** On GTK an event without explicit button (a motion) takes it from the
    mask with the same priority. *)
Lemma gtk_motion_mask_priority (type : MouseEvent.Type_) (x y : float) (state delta : Z) :
  MouseEvent.button (Gtk.pointer_event type x y state 0 delta) =
  if has_bits state Gtk.GDK_BUTTON1_MASK then MouseEvent.LEFT
  else if has_bits state Gtk.GDK_BUTTON2_MASK then MouseEvent.MIDDLE
  else if has_bits state Gtk.GDK_BUTTON3_MASK then MouseEvent.RIGHT
  else MouseEvent.NONE.
Proof. reflexivity. Qed.

(** C7 (GTK): the explicit button does not come first.  Button 3 is
    pressed while button 1 is held ([state] has [GDK_BUTTON1_MASK]); the
    event delivered to [onMouseEvent] has button LEFT, not RIGHT. *)
Lemma gtk_press_with_held_button_resolves_to_mask (f : MouseEvent.t -> bool) :
  let cb := mkWindowCallbacks None None (Some f) None None None None in
  let event := MouseEvent.mk MouseEvent.PRESS 30 40 MouseEvent.LEFT false false 0 in
  Gtk.on_button_press_event cb Gtk.GDK_BUTTON_PRESS 30 40 Gtk.GDK_BUTTON1_MASK 3 =
  (f event, [onMouseEvent_called event]).
Proof. reflexivity. Qed.

(** * Scrollbar *)

(** ** The binary64 arithmetic of the fixed-point encoding

    Dividing a normal binary64 number by 65536 and multiplying it by
    65536 only move its exponent; so does the conversion of a positive
    [int], which only shifts the integer into the 53 bits of the
    mantissa. *)

Section FixedPoint.

Lemma digits2_pos_shift (j p : positive) :
  digits2_pos (Pos.iter xO p j) = (digits2_pos p + j)%positive.
Proof.
  induction j as [| j IH] using Pos.peano_ind.
  - cbn. lia.
  - rewrite Pos.iter_succ. cbn [digits2_pos]. rewrite IH. lia.
Qed.

Lemma digits2_pos_bounds (p : positive) :
  2 ^ (Zpos (digits2_pos p) - 1) <= Zpos p < 2 ^ Zpos (digits2_pos p).
Proof.
  induction p as [p IH | p IH |]; cbn [digits2_pos].
  - rewrite Pos2Z.inj_succ.
    replace (Z.succ (Zpos (digits2_pos p)) - 1) with (Z.succ (Zpos (digits2_pos p) - 1))
      by lia.
    rewrite !Z.pow_succ_r by lia. lia.
  - rewrite Pos2Z.inj_succ.
    replace (Z.succ (Zpos (digits2_pos p)) - 1) with (Z.succ (Zpos (digits2_pos p) - 1))
      by lia.
    rewrite !Z.pow_succ_r by lia. lia.
  - cbn. lia.
Qed.

Lemma digits2_pos_le (p : positive) (n : Z) :
  0 <= n -> Zpos p < 2 ^ n -> Zpos (digits2_pos p) <= n.
Proof.
  intros Hn Hp. pose proof (digits2_pos_bounds p) as Hb.
  destruct (Z.le_gt_cases (Zpos (digits2_pos p)) n) as [H | H]; [exact H|].
  exfalso.
  assert (2 ^ n <= 2 ^ (Zpos (digits2_pos p) - 1)) by (apply Z.pow_le_mono_r; lia).
  lia.
Qed.

Lemma iter_pos_iter {A} (f : A -> A) (n : positive) (x : A) :
  SpecFloat.iter_pos f n x = Pos.iter f x n.
Proof.
  revert x. induction n as [n IH | n IH |]; intros x; cbn; rewrite ?IH;
    rewrite ?Pos.iter_swap; reflexivity.
Qed.

Lemma shr_1_shift (j m : positive) :
  Pos.iter shr_1 (Build_shr_record (Zpos (Pos.iter xO m j)) false false) j =
  Build_shr_record (Zpos m) false false.
Proof.
  revert m. induction j as [| j IH] using Pos.peano_ind; intros m.
  - reflexivity.
  - rewrite Pos.iter_succ_r. rewrite Pos.iter_succ. cbn [shr_1 orb]. apply IH.
Qed.

Lemma fexp_normal (d e : Z) :
  -1074 <= d + e - 53 -> fexp prec emax (d + e) - e = d - 53.
Proof. unfold fexp, SpecFloat.emin, prec, emax. lia. Qed.

(** Rounding a mantissa of 53 bits, or one followed by [j] zero bits,
    changes nothing. *)
Lemma round_exact_0 (s : bool) (m : positive) (e : Z) :
  Zpos (digits2_pos m) = 53 -> -1074 <= e <= 971 ->
  binary_round_aux prec emax s (Zpos m) e loc_Exact = S754_finite s m e.
Proof.
  intros Hd He. unfold binary_round_aux, shr_fexp. cbn [Zdigits2 shr_record_of_loc].
  rewrite Hd, fexp_normal by lia. change (53 - 53) with 0.
  cbn [shr shr_m loc_of_shr_record round_nearest_even Zdigits2].
  rewrite Hd, fexp_normal by lia. change (53 - 53) with 0. cbn [shr shr_m].
  change (emax - prec) with 971.
  destruct (Z.leb_spec e 971); [reflexivity | lia].
Qed.

Lemma round_exact_shift (s : bool) (m j : positive) (e : Z) :
  Zpos (digits2_pos m) = 53 -> -1074 <= e + Zpos j <= 971 ->
  binary_round_aux prec emax s (Zpos (Pos.iter xO m j)) e loc_Exact =
  S754_finite s m (e + Zpos j).
Proof.
  intros Hd He. unfold binary_round_aux, shr_fexp. cbn [Zdigits2 shr_record_of_loc].
  rewrite digits2_pos_shift, Pos2Z.inj_add, Hd, fexp_normal by lia.
  replace (53 + Zpos j - 53) with (Zpos j) by lia.
  cbn [shr]. rewrite iter_pos_iter, shr_1_shift.
  cbn [shr_m loc_of_shr_record round_nearest_even Zdigits2].
  rewrite Hd, fexp_normal by lia. change (53 - 53) with 0. cbn [shr shr_m].
  change (emax - prec) with 971.
  destruct (Z.leb_spec (e + Zpos j) 971); [reflexivity | lia].
Qed.

Lemma mul_65536 (x : float) (m : positive) (e : Z) :
  Prim2SF x = S754_finite false m e ->
  Zpos (digits2_pos m) = 53 -> -1090 <= e <= 955 ->
  Prim2SF (x * 65536)%float = S754_finite false m (e + 16).
Proof.
  intros Hx Hd He. rewrite mul_spec, Hx.
  change (Prim2SF 65536) with (S754_finite false 4503599627370496 (-36)).
  unfold SF64mul, SFmul. cbn [xorb].
  replace (m * 4503599627370496)%positive with (Pos.iter xO m 52)
    by (rewrite Pos.mul_comm; reflexivity).
  rewrite round_exact_shift by (trivial; lia). f_equal. lia.
Qed.

Lemma div_eucl_pow2 (m : positive) :
  IntDef.Z.div_eucl (IntDef.Z.shiftl (Zpos m) 53) 4503599627370496 = (Zpos (xO m), 0).
Proof.
  change (Z.div_eucl (Z.shiftl (Zpos m) 53) 4503599627370496 = (Zpos (xO m), 0)).
  rewrite Z.shiftl_mul_pow2 by lia.
  pose proof (Z.div_eucl_eq (Zpos m * 2 ^ 53) 4503599627370496 ltac:(lia)) as Heq.
  pose proof (Z.mod_pos_bound (Zpos m * 2 ^ 53) 4503599627370496 ltac:(lia)) as Hb.
  unfold Z.modulo in Hb.
  destruct (Z.div_eucl (Zpos m * 2 ^ 53) 4503599627370496) as [q r].
  assert (q = Zpos m~0 /\ r = 0) as [-> ->]; [| reflexivity].
  change (2 ^ 53) with (2 * 4503599627370496) in Heq.
  rewrite Pos2Z.inj_xO. nia.
Qed.

Lemma div_65536 (x : float) (m : positive) (e : Z) :
  Prim2SF x = S754_finite false m e ->
  Zpos (digits2_pos m) = 53 -> -1057 <= e <= 971 ->
  Prim2SF (x / 65536)%float = S754_finite false m (e - 16).
Proof.
  intros Hx Hd He. rewrite div_spec, Hx.
  change (Prim2SF 65536) with (S754_finite false 4503599627370496 (-36)).
  unfold SF64div, SFdiv, SFdiv_core_binary. cbn [xorb Zdigits2].
  rewrite Hd. change (Zpos (digits2_pos 4503599627370496)) with 53.
  replace (fexp prec emax (53 + e - (53 + -36))) with (e - 17)
    by (unfold fexp, SpecFloat.emin, prec, emax; lia).
  replace (Z.min (e - 17) (e - -36)) with (e - 17) by lia.
  replace (e - -36 - (e - 17)) with 53 by lia.
  cbv iota. rewrite div_eucl_pow2.
  change (new_location 4503599627370496 0) with loc_Exact.
  change (Zpos m~0) with (Zpos (Pos.iter xO m 1)).
  rewrite round_exact_shift by (trivial; lia). f_equal. lia.
Qed.

(** [(double)k] for a positive [int]: the mantissa is [k] shifted to 53
    bits. *)
Lemma double_of_int_normal (p : positive) :
  Zpos p < 2 ^ 31 ->
  exists m e,
    Prim2SF (double_of_int (Zpos p)) = S754_finite false m e /\
    Zpos (digits2_pos m) = 53 /\
    e = Zpos (digits2_pos p) - 53 /\
    Zpos m = Zpos p * 2 ^ (- e).
Proof.
  intros Hp. pose proof (digits2_pos_le p 31 ltac:(lia) Hp) as Hd.
  unfold double_of_int. change (Zpos p <? 0) with false. cbv iota.
  rewrite of_uint63_spec.
  rewrite Uint63.of_Z_spec. rewrite Z.mod_small by (change Uint63.wB with (2 ^ 63); lia).
  unfold binary_normalize, binary_round, shl_align.
  replace (fexp prec emax (Zpos (digits2_pos p) + 0) - 0) with (Zpos (digits2_pos p) - 53)
    by (unfold fexp, SpecFloat.emin, prec, emax; lia).
  replace (fexp prec emax (Zpos (digits2_pos p) + 0)) with (Zpos (digits2_pos p) - 53)
    by (unfold fexp, SpecFloat.emin, prec, emax; lia).
  destruct (Zpos (digits2_pos p) - 53) as [| d | d] eqn:E; try lia.
  change (PosDef.Pos.iter xO p d) with (Pos.iter xO p d).
  assert (Hm : Zpos (digits2_pos (Pos.iter xO p d)) = 53).
  { rewrite digits2_pos_shift, Pos2Z.inj_add. lia. }
  exists (Pos.iter xO p d), (Zneg d).
  rewrite round_exact_0 by (trivial; lia).
  split; [reflexivity|]. split; [exact Hm|]. split; [reflexivity|].
  change (Pos.iter xO p d) with (shift_pos d p). rewrite shift_pos_correct.
  change (- Zneg d) with (Zpos d). rewrite Z.pow_pos_fold. lia.
Qed.

(** The encoding loses nothing: the position that is [k] units, times
    65536, is [(double)k] again, and that converts back to [k]. *)
Lemma position_times_unit (k : Z) :
  0 <= k < 2 ^ 31 ->
  (position_of_units k * 65536)%float = double_of_int k.
Proof.
  intros Hk. destruct k as [| p | p]; [reflexivity | | lia].
  destruct (double_of_int_normal p) as (m & e & Hx & Hd & He & _); [lia|].
  pose proof (digits2_pos_le p 31 ltac:(lia) ltac:(lia)) as Hle.
  pose proof (Pos2Z.is_pos (digits2_pos p)) as Hpos.
  apply Prim2SF_inj. unfold position_of_units.
  rewrite (mul_65536 _ m (e - 16)); [| apply div_65536; [exact Hx | exact Hd | lia]
                                     | exact Hd | lia].
  rewrite Hx. f_equal. lia.
Qed.

Lemma double_trunc_of_int (k : Z) :
  0 <= k < 2 ^ 31 -> double_trunc (double_of_int k) = k.
Proof.
  intros Hk. destruct k as [| p | p]; [reflexivity | | lia].
  destruct (double_of_int_normal p) as (m & e & Hx & Hd & He & Hm); [lia|].
  pose proof (digits2_pos_le p 31 ltac:(lia) ltac:(lia)) as Hle.
  unfold double_trunc. rewrite Hx. cbv zeta.
  destruct (Z.leb_spec 0 e); [lia|].
  rewrite Hm. apply Z.div_mul. apply Z.pow_nonzero; lia.
Qed.

Lemma units_of_position (k : Z) :
  0 <= k < 2 ^ 31 ->
  int_of_UINT (UINT_of_double
                 (position_of_units k * double_of_int Win32.SCROLLBAR_UNIT)) = k.
Proof.
  intros Hk. change (double_of_int Win32.SCROLLBAR_UNIT) with 65536%float.
  rewrite position_times_unit by exact Hk.
  unfold UINT_of_double. rewrite double_trunc_of_int by exact Hk.
  rewrite Z.mod_small by lia. unfold int_of_UINT.
  destruct (Z.ltb_spec k (2 ^ 31)); [reflexivity | lia].
Qed.

(** Where such a position lies: above 0, and below 8 while it is fewer
    than [8 * 65536] units. *)
Lemma position_within (k : Z) :
  0 < k < 8 * 65536 ->
  PrimFloat.ltb 0 (position_of_units k) = true /\
  PrimFloat.ltb (position_of_units k) 8 = true.
Proof.
  intros Hk. destruct k as [| p | p]; try lia.
  destruct (double_of_int_normal p) as (m & e & Hx & Hd & He & _); [lia|].
  pose proof (digits2_pos_le p 19 ltac:(lia) ltac:(lia)) as Hle.
  pose proof (Pos2Z.is_pos (digits2_pos p)) as Hpos.
  assert (Hpos' : Prim2SF (position_of_units (Zpos p)) = S754_finite false m (e - 16)).
  { apply div_65536; [exact Hx | exact Hd | lia]. }
  rewrite !ltb_spec, Hpos'.
  change (Prim2SF 0) with (S754_zero false).
  change (Prim2SF 8) with (S754_finite false 4503599627370496 (-49)).
  split; [reflexivity|].
  unfold SFltb, SFcompare.
  destruct (Z.compare_spec (e - 16) (-49)); [lia | reflexivity | lia].
Qed.

Lemma gtk_settle_position (k : Z) :
  0 <= k <= 8 * 65536 ->
  Gtk.settle (position_of_units k) 0 10 2 = position_of_units k.
Proof.
  intros Hk.
  destruct (Z.eq_dec k 0) as [-> | H0]; [reflexivity|].
  destruct (Z.eq_dec k (8 * 65536)) as [-> | H8]; [reflexivity|].
  destruct (position_within k) as [Hlo Hhi]; [lia|].
  unfold Gtk.settle, Gtk.fmax, Gtk.fmin.
  change (PrimFloat.sub 10 2) with 8%float. rewrite Hhi, Hlo. reflexivity.
Qed.

End FixedPoint.

Lemma zero_is_not_five : 0%float <> 5%float.
Proof.
  intros H. apply (f_equal (PrimFloat.eqb 0)) in H. vm_compute in H. discriminate H.
Qed.

(** C8 as stated fails on either backend.  On Win32,
    [ConfigureScrollbar(0,10,2)] and [SetScrollbarPosition(5)] on a new
    window, whose scrollbar has not been made visible, tell the callback
    5.0 and leave [GetScrollbarPosition()] at 0.0.  On GTK the same two
    calls on a window whose scrollbar is at 5.0 already invoke no
    callback. *)
Lemma scrollbar_position_claim_fails :
  (let cb := mkWindowCallbacks None None None None None (Some (fun _ => tt)) None in
   let w := Win32.CreateWindow (Win32.sample_native 0) cb in
   let s := Win32.SetScrollbarPosition 5 (Win32.ConfigureScrollbar 0 10 2 w) in
   s.2 = [onScrollbarAdjusted_called 5] /\
   Win32.GetScrollbarPosition s.1 <> 5%float) /\
  (let cb := mkWindowCallbacks None None None None None (Some (fun _ => tt)) None in
   let w := Gtk.CreateWindow (0, 0) (100, 100) cb in
   let first := Gtk.SetScrollbarPosition 5 (Gtk.ConfigureScrollbar 0 10 2 w).1 in
   let again := Gtk.SetScrollbarPosition 5 (Gtk.ConfigureScrollbar 0 10 2 first.1).1 in
   Gtk.GetScrollbarPosition first.1 = 5%float /\
   again.2 = [] /\
   again.2 <> [onScrollbarAdjusted_called 5]).
Proof.
  cbn zeta. split.
  - split; [vm_compute; reflexivity|].
    change (0%float <> 5%float). exact zero_is_not_five.
  - split; [vm_compute; reflexivity|].
    split; [vm_compute; reflexivity | vm_compute; discriminate].
Qed.

(** C8, amended.  The encoding with the factor 65536 loses no position
    it can represent: the position that is [n] units of 1/65536, for
    any non-negative [int] [n], is stored as [n].  After
    [ConfigureScrollbar(0,10,2)] on any window, [SetScrollbarPosition]
    with any such position between 0 and 8, 5.0 among them, invokes the
    registered [onScrollbarAdjusted] exactly once, with that position,
    and [GetScrollbarPosition()] then returns it exactly; provided, on
    Win32, that the scrollbar has been made visible and, on GTK, that
    the scrollbar was not at that position already. *)
Theorem scrollbar_position_round_trip
    (gtk_window : Gtk.WindowImplGtk) (win32_window : Win32.WindowImplWin32)
    (f g : float -> unit) (k : Z) :
  let pos := position_of_units k in
  let gtk_configured := (Gtk.ConfigureScrollbar 0 10 2 gtk_window).1 in
  let win32_configured := Win32.ConfigureScrollbar 0 10 2 win32_window in
  0 <= k <= 8 * 65536 ->
  onScrollbarAdjusted (Gtk.callbacks gtk_window) = Some f ->
  PrimFloat.eqb pos (Gtk.GetScrollbarPosition gtk_configured) = false ->
  onScrollbarAdjusted (Win32.callbacks win32_window) = Some g ->
  Win32.scrollbarVisible win32_window = true ->
  (forall n, 0 <= n < 2 ^ 31 ->
     int_of_UINT (UINT_of_double
                    (position_of_units n * double_of_int Win32.SCROLLBAR_UNIT)) = n) /\
  (let s := Gtk.SetScrollbarPosition pos gtk_configured in
   s.2 = [onScrollbarAdjusted_called pos] /\
   Gtk.GetScrollbarPosition s.1 = pos) /\
  (let s := Win32.SetScrollbarPosition pos win32_configured in
   s.2 = [onScrollbarAdjusted_called pos] /\
   Win32.GetScrollbarPosition s.1 = pos).
Proof.
  intros pos gtk_configured win32_configured Hk Hf Hne Hg Hvis.
  split; [exact units_of_position|]. split.
  - subst gtk_configured. revert Hne.
    unfold Gtk.SetScrollbarPosition, Gtk.ConfigureScrollbar, Gtk.adjustment_store,
      Gtk.on_scrollbar_value_changed, Gtk.GetScrollbarPosition.
    cbn [Gtk.gtkWindow Gtk.callbacks Gtk.with_gtkWindow Gtk.with_adjustment
         Gtk.adjustment Gtk.value Gtk.lower Gtk.upper Gtk.page_size
         Gtk.step_increment Gtk.page_increment fst snd].
    fold pos. subst pos. rewrite gtk_settle_position by exact Hk.
    intros Hne. rewrite Hne, Hf. cbn. split; reflexivity.
  - subst win32_configured. subst pos.
    unfold Win32.SetScrollbarPosition, Win32.GetScrollbarPosition, Win32.ConfigureScrollbar.
    cbn [Win32.with_scroll Win32.with_hWindow Win32.callbacks Win32.hWindow
         Win32.scrollbarVisible Win32.GetScrollInfo fst snd].
    rewrite Hg, Hvis, units_of_position by lia.
    change (int_of_UINT (UINT_of_double (0 * double_of_int Win32.SCROLLBAR_UNIT))) with 0.
    change (int_of_UINT (UINT_of_double (10 * double_of_int Win32.SCROLLBAR_UNIT)))
      with 655360.
    change (UINT_of_double (2 * double_of_int Win32.SCROLLBAR_UNIT)) with 131072.
    split; [reflexivity|]. cbn [negb].
    change (position_of_units k)
      with (double_of_int k / double_of_int Win32.SCROLLBAR_UNIT)%float.
    do 2 f_equal. unfold Win32.range_check.
    cbn [Win32.nMin Win32.nMax Win32.nPage Win32.nPos]. lia.
Qed.

Lemma scrollbar_position_round_trip_witness :
  let cb := mkWindowCallbacks None None None None None (Some (fun _ => tt)) None in
  let gtk := Gtk.SetScrollbarPosition 5
               (Gtk.ConfigureScrollbar 0 10 2 (Gtk.CreateWindow (0, 0) (100, 100) cb)).1 in
  let win32 := Win32.SetScrollbarPosition 5
                 (Win32.ConfigureScrollbar 0 10 2
                    (Win32.SetScrollbarVisible true
                       (Win32.CreateWindow (Win32.sample_native 0) cb))) in
  (gtk.2 = [onScrollbarAdjusted_called 5] /\ Gtk.GetScrollbarPosition gtk.1 = 5%float) /\
  (win32.2 = [onScrollbarAdjusted_called 5] /\ Win32.GetScrollbarPosition win32.1 = 5%float).
Proof.
  cbn zeta.
  exact (proj2 (scrollbar_position_round_trip
           (Gtk.CreateWindow (0, 0) (100, 100)
              (mkWindowCallbacks None None None None None (Some (fun _ => tt)) None))
           (Win32.SetScrollbarVisible true
              (Win32.CreateWindow (Win32.sample_native 0)
                 (mkWindowCallbacks None None None None None (Some (fun _ => tt)) None)))
           (fun _ => tt) (fun _ => tt) (5 * 65536)
           ltac:(lia) eq_refl eq_refl eq_refl eq_refl)).
Defined.

(** The flag [scrollbarVisible] after a run of scrollbar calls is what
    the latest [SetScrollbarVisible] asked for. *)
Lemma scrollbarVisible_do_calls (calls : list Win32.ScrollbarCall) :
  forall w : Win32.WindowImplWin32,
    Win32.scrollbarVisible (Win32.do_calls calls w) =
    Win32.visible_after calls (Win32.scrollbarVisible w).
Proof.
  unfold Win32.do_calls, Win32.visible_after.
  induction calls as [| c calls IH]; intros w; [reflexivity|].
  cbn [fold_left]. rewrite IH. destruct c; reflexivity.
Qed.

(** C10: on Win32, after any run of scrollbar calls on a new window,
    [GetScrollbarPosition()] returns 0.0 unless the latest
    [SetScrollbarVisible] asked for a visible scrollbar (none did, or
    the latest hid it), whatever positions were set; when it did, the
    result is the position the host stores, divided by 65536. *)
Theorem win32_GetScrollbarPosition_needs_visible_scrollbar
    (native : Win32.NativeWindow) (cb : WindowCallbacks)
    (calls : list Win32.ScrollbarCall) :
  let w := Win32.do_calls calls (Win32.CreateWindow native cb) in
  Win32.GetScrollbarPosition w =
  if Win32.visible_after calls false
  then (double_of_int (Win32.nPos (Win32.GetScrollInfo (Win32.hWindow w))) /
        double_of_int Win32.SCROLLBAR_UNIT)%float
  else 0%float.
Proof.
  cbn zeta. unfold Win32.GetScrollbarPosition.
  rewrite scrollbarVisible_do_calls.
  cbn [Win32.CreateWindow Win32.scrollbarVisible].
  destruct (Win32.visible_after calls false); reflexivity.
Qed.

(** Two runs of it: a position set on a hidden scrollbar reads 0.0; the
    same position after [SetScrollbarVisible(true)] reads 3.0. *)
Lemma win32_GetScrollbarPosition_examples :
  let w := Win32.CreateWindow (Win32.sample_native 0) no_callbacks in
  Win32.GetScrollbarPosition
    (Win32.do_calls [Win32.call_ConfigureScrollbar 0 10 2;
                     Win32.call_SetScrollbarPosition 3] w) = 0%float /\
  Win32.GetScrollbarPosition
    (Win32.do_calls [Win32.call_SetScrollbarVisible true;
                     Win32.call_ConfigureScrollbar 0 10 2;
                     Win32.call_SetScrollbarPosition 3] w) = 3%float.
Proof. cbn zeta. split; vm_compute; reflexivity. Qed.

(** * Timers *)

Section GtkTimers.

Import Gtk.

Lemma NoDup_map_filter {A B} (f : A -> B) (p : A -> bool) (l : list A) :
  List.NoDup (map f l) -> List.NoDup (map f (List.filter p l)).
Proof.
  induction l as [| a l IH]; cbn; intros Hnd; [exact Hnd|].
  apply List.NoDup_cons_iff in Hnd as [Hnotin Hnd].
  destruct (p a); cbn; [|auto].
  apply List.NoDup_cons_iff. split; [|auto].
  intros Hin. apply Hnotin. apply in_map_iff in Hin as (b & Hb & Hin).
  apply List.filter_In in Hin as [Hin _]. apply in_map_iff. eauto.
Qed.

Lemma filter_filter_comm {A} (p q : A -> bool) (l : list A) :
  List.filter p (List.filter q l) = List.filter q (List.filter p l).
Proof.
  induction l as [| a l IH]; cbn; [reflexivity|].
  destruct (q a) eqn:Hq, (p a) eqn:Hp; cbn; rewrite ?Hq, ?Hp, IH; reflexivity.
Qed.

Lemma filter_nil_iff {A} (p : A -> bool) (l : list A) :
  List.filter p l = [] <-> forall a, In a l -> p a = false.
Proof.
  induction l as [| a l IH]; cbn; [tauto|].
  destruct (p a) eqn:Hp; split.
  - discriminate.
  - intros H. specialize (H a (or_introl eq_refl)). congruence.
  - intros H b [<- | Hb]; [exact Hp | apply IH; assumption].
  - intros H. apply IH. auto.
Qed.

Lemma without_old_sources_sub (t : TimerImplGtk) (ctx : MainContext) (s : TimeoutSource) :
  In s (sources (without_old t ctx)) -> In s (sources ctx).
Proof.
  unfold without_old, connection_empty, connection_disconnect.
  destruct (_connection t) as [c|]; cbn; [|auto].
  destruct (connected c ctx); cbn; [|auto].
  intros H. apply List.filter_In in H. tauto.
Qed.

Lemma without_old_fields (t : TimerImplGtk) (ctx : MainContext) :
  now (without_old t ctx) = now ctx /\
  next_source_id (without_old t ctx) = next_source_id ctx.
Proof.
  unfold without_old, connection_empty, connection_disconnect.
  destruct (_connection t) as [c|]; cbn; [|auto].
  destruct (connected c ctx); cbn; auto.
Qed.

Lemma without_old_NoDup (t : TimerImplGtk) (ctx : MainContext) :
  List.NoDup (map source_id (sources ctx)) ->
  List.NoDup (map source_id (sources (without_old t ctx))).
Proof.
  unfold without_old, connection_empty, connection_disconnect.
  destruct (_connection t) as [c|]; cbn; [|auto].
  destruct (connected c ctx); cbn; [|auto].
  apply NoDup_map_filter.
Qed.

(** In a well-formed world, dropping the old connection leaves no
    source of that timer. *)
Lemma without_old_none_left (w : World) (this : Z) (t : TimerImplGtk) (s : TimeoutSource) :
  well_formed w -> timers w !! this = Some t ->
  In s (sources (without_old t (main_context w))) -> source_this s <> this.
Proof.
  intros [_ Hall] Ht Hin Hthis.
  pose proof (without_old_sources_sub _ _ _ Hin) as Hin0.
  rewrite List.Forall_forall in Hall. destruct (Hall s Hin0) as [_ (t' & Ht' & Hconn)].
  rewrite Hthis, Ht in Ht'. injection Ht' as <-.
  revert Hin. unfold without_old, connection_empty, connection_disconnect.
  rewrite Hconn. cbn.
  destruct (connected (source_id s) (main_context w)) eqn:Hc; cbn.
  - intros Hin. apply List.filter_In in Hin as [_ Hne].
    rewrite Z.eqb_refl in Hne. discriminate Hne.
  - intros _. unfold connected in Hc.
    assert (existsb (fun s0 => source_id s0 =? source_id s)
                    (sources (main_context w)) = true) as Hex.
    { apply existsb_exists. exists s. split; [exact Hin0 | apply Z.eqb_refl]. }
    congruence.
Qed.

(** What [WindUp] leaves: one more source, the only one of its timer. *)
Lemma WindUp_sources (w : World) (this ms : Z) (t : TimerImplGtk) :
  timers w !! this = Some t ->
  let fresh := mkTimeoutSource (next_source_id (main_context w))
                               (now (main_context w) + ms) this in
  sources (main_context (WindUp this ms w)) =
    sources (without_old t (main_context w)) ++ [fresh] /\
  now (main_context (WindUp this ms w)) = now (main_context w) /\
  next_source_id (main_context (WindUp this ms w)) = next_source_id (main_context w) + 1 /\
  timers (WindUp this ms w) =
    <[this := mkTimerImplGtk (Some (next_source_id (main_context w))) (onTimeout t)]>
      (timers w).
Proof.
  intros Ht. unfold WindUp. rewrite Ht. unfold signal_timeout_connect. cbn.
  destruct (without_old_fields t (main_context w)) as [-> ->]. auto.
Qed.

Lemma WindUp_own_sources (w : World) (this ms : Z) (t : TimerImplGtk) :
  well_formed w -> timers w !! this = Some t ->
  List.filter (fun s => source_this s =? this) (sources (main_context (WindUp this ms w))) =
  [mkTimeoutSource (next_source_id (main_context w)) (now (main_context w) + ms) this].
Proof.
  intros Hwf Ht. destruct (WindUp_sources w this ms t Ht) as (-> & _).
  rewrite List.filter_app. cbn. rewrite Z.eqb_refl.
  replace (List.filter _ (sources (without_old t (main_context w)))) with (@nil TimeoutSource);
    [reflexivity|].
  symmetry. apply filter_nil_iff. intros s Hin. apply Z.eqb_neq.
  exact (without_old_none_left w this t s Hwf Ht Hin).
Qed.

Lemma WindUp_well_formed (w : World) (this ms : Z) :
  well_formed w -> well_formed (WindUp this ms w).
Proof.
  intros Hwf. destruct (timers w !! this) as [t|] eqn:Ht;
    [| unfold WindUp; rewrite Ht; exact Hwf].
  destruct (WindUp_sources w this ms t Ht) as (Hs & _ & Hn & Htm).
  pose proof Hwf as [Hnd Hall]. rewrite List.Forall_forall in Hall.
  unfold well_formed. rewrite Hs, Hn. split.
  - rewrite map_app. cbn. apply List.NoDup_app.
    + apply without_old_NoDup, Hnd.
    + apply List.NoDup_cons; [intros [] | apply List.NoDup_nil].
    + intros i Hi Hi'. apply in_map_iff in Hi as (s & <- & Hin).
      destruct Hi' as [Heq | []].
      apply without_old_sources_sub in Hin. destruct (Hall s Hin) as [Hlt _]. lia.
  - apply List.Forall_forall. intros s Hin. apply in_app_iff in Hin as [Hin | [<- | []]].
    + pose proof (without_old_none_left w this t s Hwf Ht Hin) as Hne.
      apply without_old_sources_sub in Hin. destruct (Hall s Hin) as [Hlt (t' & Ht' & Hc)].
      split; [lia|]. exists t'. rewrite Htm, lookup_insert_ne by congruence. auto.
    + cbn. split; [lia|]. eexists. rewrite Htm, lookup_insert_eq. split; reflexivity.
Qed.

Lemma reachable_well_formed (w : World) : reachable w -> well_formed w.
Proof.
  induction 1 as [| w this Hr IH Hfresh | w this f Hr IH | w this ms Hr IH | w ms Hr IH].
  - split; [apply List.NoDup_nil | apply List.Forall_nil].
  - destruct IH as [Hnd Hall]. split; [exact Hnd|].
    eapply List.Forall_impl; [|exact Hall]. cbn.
    intros s [Hlt (t & Ht & Hc)]. split; [exact Hlt|]. exists t. split; [|exact Hc].
    cbn. rewrite lookup_insert_ne; [exact Ht | congruence].
  - unfold set_onTimeout. destruct (timers w !! this) as [t0|] eqn:Ht0; [|exact IH].
    destruct IH as [Hnd Hall]. split; [exact Hnd|].
    eapply List.Forall_impl; [|exact Hall]. cbn.
    intros s [Hlt (t & Ht & Hc)]. split; [exact Hlt|].
    destruct (Z.eq_dec (source_this s) this) as [E | E].
    + eexists. cbn. rewrite <- E, lookup_insert_eq. split; [reflexivity|].
      cbn. rewrite E, Ht0 in Ht. injection Ht as <-. exact Hc.
    + exists t. cbn. rewrite lookup_insert_ne by congruence. auto.
  - apply WindUp_well_formed, IH.
  - destruct IH as [Hnd Hall]. split; cbn.
    + apply NoDup_map_filter, Hnd.
    + rewrite List.Forall_forall in Hall |- *. intros s Hin.
      apply List.filter_In in Hin as [Hin _]. exact (Hall s Hin).
Qed.

Lemma filter_at_most_one {A B} (f : A -> B) (p : A -> bool) (l : list A) :
  (forall a b, In a l -> In b l -> p a = true -> p b = true -> f a = f b) ->
  List.NoDup (map f l) -> (length (List.filter p l) <= 1)%nat.
Proof.
  induction l as [| a l IH]; cbn; intros Hsame Hnd; [lia|].
  apply List.NoDup_cons_iff in Hnd as [Hnotin Hnd].
  destruct (p a) eqn:Hp; [| apply IH; auto].
  replace (List.filter p l) with (@nil A); [cbn; lia|].
  symmetry. apply filter_nil_iff. intros b Hb.
  destruct (p b) eqn:Hpb; [|reflexivity]. exfalso. apply Hnotin.
  rewrite (Hsame a b); auto. apply in_map. exact Hb.
Qed.

(** A timer never has two fires pending. *)
Lemma well_formed_pending (w : World) (this : Z) :
  well_formed w -> (pending this w <= 1)%nat.
Proof.
  intros [Hnd Hall]. unfold pending. apply (filter_at_most_one source_id); [|exact Hnd].
  rewrite List.Forall_forall in Hall.
  intros a b Ha Hb Hpa Hpb. apply Z.eqb_eq in Hpa, Hpb.
  destruct (Hall a Ha) as [_ (ta & Hta & Hca)].
  destruct (Hall b Hb) as [_ (tb & Htb & Hcb)].
  rewrite Hpa in Hta. rewrite Hpb in Htb. congruence.
Qed.

Lemma timeouts_of_handlers (w : World) (this : Z) (t : TimerImplGtk)
    (l : list TimeoutSource) :
  timers w !! this = Some t -> is_set (onTimeout t) = true ->
  timeouts_of this (flat_map (fun s => handler w (source_this s)) l) =
  length (List.filter (fun s => source_this s =? this) l).
Proof.
  intros Ht Hset. unfold timeouts_of.
  induction l as [| a l IH]; cbn; [reflexivity|].
  rewrite List.filter_app, length_app, IH.
  destruct (Z.eqb_spec (source_this a) this) as [E | E].
  - unfold handler. rewrite E, Ht, Hset. cbn. rewrite Z.eqb_refl. reflexivity.
  - unfold handler. destruct (timers w !! source_this a) as [ta|]; [|reflexivity].
    destruct (is_set (onTimeout ta)); [|reflexivity].
    cbn. destruct (Z.eqb_spec (source_this a) this); [contradiction | reflexivity].
Qed.

(** The GTK half of C9. *)
Lemma gtk_rearm (w : World) (this d1 d2 : Z) (t : TimerImplGtk) (f : unit -> unit) :
  reachable w -> timers w !! this = Some t -> onTimeout t = Some f ->
  let w2 := WindUp this d2 (WindUp this d1 w) in
  (pending this w <= 1)%nat /\
  pending this (WindUp this d1 w) = 1%nat /\
  pending this w2 = 1%nat /\
  timeouts_of this (elapse d2 w2).2 = 1%nat /\
  pending this (elapse d2 w2).1 = 0%nat.
Proof.
  intros Hr Ht Hf w2. pose proof (reachable_well_formed w Hr) as Hwf.
  pose proof (WindUp_well_formed w this d1 Hwf) as Hwf1.
  destruct (WindUp_sources w this d1 t Ht) as (_ & Hnow1 & _ & Htm1).
  assert (Ht1 : timers (WindUp this d1 w) !! this =
                Some (mkTimerImplGtk (Some (next_source_id (main_context w))) (onTimeout t))).
  { rewrite Htm1. apply lookup_insert_eq. }
  pose proof (WindUp_own_sources (WindUp this d1 w) this d2 _ Hwf1 Ht1) as Hown2.
  destruct (WindUp_sources (WindUp this d1 w) this d2 _ Ht1) as (_ & Hnow2 & _ & Htm2).
  fold w2 in Hown2, Hnow2, Htm2.
  split; [exact (well_formed_pending w this Hwf)|].
  split; [unfold pending; rewrite (WindUp_own_sources w this d1 t Hwf Ht); reflexivity|].
  split; [unfold pending; rewrite Hown2; reflexivity|].
  assert (Hdue : (source_due
            (mkTimeoutSource (next_source_id (main_context (WindUp this d1 w)))
               (now (main_context (WindUp this d1 w)) + d2) this)
            <=? now (main_context w2) + d2) = true).
  { cbn. rewrite Hnow2. apply Z.leb_refl. }
  split.
  - unfold elapse, dispatch. cbn [snd main_context timers now sources].
    erewrite timeouts_of_handlers.
    + rewrite filter_filter_comm, Hown2. cbn [List.filter]. unfold is_due.
      cbn [now]. rewrite Hdue. reflexivity.
    + cbn. rewrite Htm2. apply lookup_insert_eq.
    + cbn. rewrite Hf. reflexivity.
  - unfold pending, elapse, dispatch. cbn [fst main_context sources now].
    rewrite filter_filter_comm, Hown2. cbn [List.filter]. unfold is_due.
    cbn [now]. rewrite Hdue. reflexivity.
Qed.

End GtkTimers.

Section Win32Timers.

Import Win32.

(** Running [TimerFunc] for a list of identifiers: the clock and the
    timer objects stay, the effects are those of each handler in turn. *)
Lemma fold_TimerFunc (l : list Z) :
  forall st : World * list Effect,
    let r := fold_left run_TimerFunc l st in
    now r.1 = now st.1 /\ timers r.1 = timers st.1 /\
    r.2 = st.2 ++ flat_map (fun event => (TimerFunc event st.1).2) l.
Proof.
  induction l as [| a l IH]; intros st; cbn zeta.
  - cbn. rewrite app_nil_r. auto.
  - cbn [fold_left flat_map]. destruct (IH (run_TimerFunc st a)) as (Hn & Ht & He).
    rewrite Hn, Ht, He. unfold run_TimerFunc, TimerFunc. cbn.
    rewrite <- app_assoc. auto.
Qed.

Lemma fold_TimerFunc_keeps_none (l : list Z) (k : Z) :
  forall st : World * list Effect,
    timer_table st.1 !! k = None ->
    timer_table (fold_left run_TimerFunc l st).1 !! k = None.
Proof.
  induction l as [| a l IH]; intros st Hk; [exact Hk|].
  cbn [fold_left]. apply IH. unfold run_TimerFunc, TimerFunc, KillTimer. cbn.
  destruct (Z.eq_dec a k) as [-> | E];
    [apply lookup_delete_eq | rewrite lookup_delete_ne by exact E; exact Hk].
Qed.

Lemma fold_TimerFunc_kills (l : list Z) (k : Z) :
  forall st : World * list Effect,
    In k l -> timer_table (fold_left run_TimerFunc l st).1 !! k = None.
Proof.
  induction l as [| a l IH]; intros st Hin; [destruct Hin|].
  cbn [fold_left]. destruct Hin as [-> | Hin]; [|apply IH, Hin].
  apply fold_TimerFunc_keeps_none. unfold run_TimerFunc, TimerFunc, KillTimer. cbn.
  apply lookup_delete_eq.
Qed.

Lemma count_once (l : list Z) (k : Z) :
  List.NoDup l -> In k l -> length (List.filter (fun i => i =? k) l) = 1%nat.
Proof.
  induction l as [| a l IH]; intros Hnd Hin; [destruct Hin|].
  apply List.NoDup_cons_iff in Hnd as [Hnotin Hnd]. cbn.
  destruct (Z.eqb_spec a k) as [-> | E].
  - cbn. f_equal.
    replace (List.filter (fun i => i =? k) l) with (@nil Z); [reflexivity|].
    symmetry. apply filter_nil_iff. intros b Hb. apply Z.eqb_neq. congruence.
  - destruct Hin as [-> | Hin]; [contradiction | auto].
Qed.

Lemma timeouts_of_TimerFuncs (w : World) (this : Z) (t : TimerImplWin32) (l : list Z) :
  timers w !! this = Some t -> is_set (onTimeout t) = true ->
  timeouts_of this (flat_map (fun event => (TimerFunc event w).2) l) =
  length (List.filter (fun i => i =? this) l).
Proof.
  intros Ht Hset. unfold timeouts_of.
  induction l as [| a l IH]; cbn [flat_map List.filter]; [reflexivity|].
  rewrite List.filter_app, length_app, IH. unfold TimerFunc. cbn [snd].
  destruct (Z.eqb_spec a this) as [-> | E].
  - rewrite Ht, Hset. cbn. rewrite Z.eqb_refl. reflexivity.
  - destruct (timers w !! a) as [ta|]; [|reflexivity].
    destruct (is_set (onTimeout ta)); [|reflexivity].
    cbn. destruct (Z.eqb_spec a this); [contradiction | reflexivity].
Qed.

Lemma due_timers_spec (w : World) (k : Z) :
  In k (due_timers w) <-> exists due, timer_table w !! k = Some due /\ due <= now w.
Proof.
  unfold due_timers. rewrite <- list_elem_of_In, list_elem_of_fmap. split.
  - intros ([k' due] & -> & Hin). apply elem_of_map_to_list in Hin.
    apply map_lookup_filter_Some in Hin as [Hl Hd]. eauto.
  - intros (due & Hl & Hd). exists (k, due). split; [reflexivity|].
    apply elem_of_map_to_list, map_lookup_filter_Some. auto.
Qed.

Lemma due_timers_NoDup (w : World) : List.NoDup (due_timers w).
Proof. apply NoDup_ListNoDup, NoDup_fst_map_to_list. Qed.

(** The Win32 half of C9. *)
Lemma win32_rearm (w : World) (this d1 d2 : Z) (t : TimerImplWin32) (f : unit -> unit) :
  timers w !! this = Some t -> onTimeout t = Some f ->
  let w2 := WindUp this d2 (WindUp this d1 w) in
  (pending this w <= 1)%nat /\
  pending this (WindUp this d1 w) = 1%nat /\
  pending this w2 = 1%nat /\
  timeouts_of this (elapse d2 w2).2 = 1%nat /\
  pending this (elapse d2 w2).1 = 0%nat.
Proof.
  intros Ht Hf w2.
  split; [unfold pending; destruct (timer_table w !! this); lia|].
  split; [unfold pending, WindUp, SetTimer; cbn; rewrite lookup_insert_eq; reflexivity|].
  split; [unfold pending, w2, WindUp, SetTimer; cbn; rewrite lookup_insert_eq; reflexivity|].
  set (w3 := mkWorld (now w2 + d2) (timer_table w2) (timers w2)).
  assert (Hin : In this (due_timers w3)).
  { apply due_timers_spec. exists (now w + d2). split; [|cbn; lia].
    cbn. apply lookup_insert_eq. }
  unfold elapse. fold w3. unfold dispatch.
  destruct (fold_TimerFunc (due_timers w3) (w3, [])) as (_ & _ & He).
  split.
  - rewrite He. cbn [fst snd app].
    rewrite (timeouts_of_TimerFuncs w3 this t); [| exact Ht | rewrite Hf; reflexivity].
    apply count_once; [apply due_timers_NoDup | exact Hin].
  - unfold pending. rewrite (fold_TimerFunc_kills _ this (w3, []) Hin). reflexivity.
Qed.

End Win32Timers.

(** C9: on both backends a timer has at most one fire pending, and
    winding it up leaves exactly one, also when it was already wound up.
    Wound up twice in succession, for [d1] and then for [d2]
    milliseconds, a timer with an [onTimeout] has that callback invoked
    exactly once when [d2] milliseconds have passed, and no fire is
    pending afterwards.  The GTK world is any that creating timers,
    setting callbacks, winding up and the passage of time lead to. *)
Theorem timer_rearm_fires_once
    (gtk : Gtk.World) (this : Z) (t : Gtk.TimerImplGtk) (f : unit -> unit)
    (win32 : Win32.World) (this' : Z) (t' : Win32.TimerImplWin32) (f' : unit -> unit)
    (d1 d2 : Z) :
  Gtk.reachable gtk ->
  Gtk.timers gtk !! this = Some t -> Gtk.onTimeout t = Some f ->
  Win32.timers win32 !! this' = Some t' -> Win32.onTimeout t' = Some f' ->
  (let twice := Gtk.WindUp this d2 (Gtk.WindUp this d1 gtk) in
   (Gtk.pending this gtk <= 1)%nat /\
   Gtk.pending this (Gtk.WindUp this d1 gtk) = 1%nat /\
   Gtk.pending this twice = 1%nat /\
   timeouts_of this (Gtk.elapse d2 twice).2 = 1%nat /\
   Gtk.pending this (Gtk.elapse d2 twice).1 = 0%nat) /\
  (let twice := Win32.WindUp this' d2 (Win32.WindUp this' d1 win32) in
   (Win32.pending this' win32 <= 1)%nat /\
   Win32.pending this' (Win32.WindUp this' d1 win32) = 1%nat /\
   Win32.pending this' twice = 1%nat /\
   timeouts_of this' (Win32.elapse d2 twice).2 = 1%nat /\
   Win32.pending this' (Win32.elapse d2 twice).1 = 0%nat).
Proof.
  intros Hr Ht Hf Ht' Hf'. split.
  - exact (gtk_rearm gtk this d1 d2 t f Hr Ht Hf).
  - exact (win32_rearm win32 this' d1 d2 t' f' Ht' Hf').
Qed.

Lemma timer_rearm_fires_once_witness :
  let f : unit -> unit := fun u => u in
  let gtk := Gtk.set_onTimeout 1 (Some f) (Gtk.CreateTimer 1 Gtk.initial_world) in
  let win32 := Win32.set_onTimeout 1 (Some f)
                 (Win32.CreateTimer 1 (Win32.mkWorld 0 ∅ ∅)) in
  timeouts_of 1 (Gtk.elapse 20 (Gtk.WindUp 1 20 (Gtk.WindUp 1 500 gtk))).2 = 1%nat /\
  timeouts_of 1 (Win32.elapse 20 (Win32.WindUp 1 20 (Win32.WindUp 1 500 win32))).2 = 1%nat.
Proof.
  cbn zeta.
  destruct (timer_rearm_fires_once
              (Gtk.set_onTimeout 1 (Some (fun u => u)) (Gtk.CreateTimer 1 Gtk.initial_world))
              1 (Gtk.mkTimerImplGtk None (Some (fun u => u))) (fun u => u)
              (Win32.set_onTimeout 1 (Some (fun u => u))
                 (Win32.CreateTimer 1 (Win32.mkWorld 0 ∅ ∅)))
              1 (Win32.mkTimerImplWin32 (Some (fun u => u))) (fun u => u)
              500 20) as [(_ & _ & _ & Hg & _) (_ & _ & _ & Hw & _)].
  - apply Gtk.reach_set_onTimeout, Gtk.reach_CreateTimer;
      [apply Gtk.reach_initial | reflexivity].
  - reflexivity.
  - reflexivity.
  - reflexivity.
  - reflexivity.
  - split; [exact Hg | exact Hw].
Defined.

(** The same run, evaluated: the timeout of the first winding (500 ms)
    never happens; 20 ms after the second one the callback runs once,
    and later nothing more. *)
Lemma timer_rearm_examples :
  let f : unit -> unit := fun u => u in
  let gtk := Gtk.WindUp 1 20 (Gtk.WindUp 1 500
               (Gtk.set_onTimeout 1 (Some f) (Gtk.CreateTimer 1 Gtk.initial_world))) in
  let win32 := Win32.WindUp 1 20 (Win32.WindUp 1 500
                 (Win32.set_onTimeout 1 (Some f)
                    (Win32.CreateTimer 1 (Win32.mkWorld 0 ∅ ∅)))) in
  (Gtk.elapse 20 gtk).2 = [onTimeout_called 1] /\
  (Gtk.elapse 1000 (Gtk.elapse 20 gtk).1).2 = [] /\
  (Win32.elapse 20 win32).2 = [onTimeout_called 1] /\
  (Win32.elapse 1000 (Win32.elapse 20 win32).1).2 = [].
Proof. cbn zeta. repeat split; vm_compute; reflexivity. Qed.

(** * Further properties of the code *)

(** ** Events *)

(** X1: [Equals] answers [true] exactly for two events with the same
    type, key, union cell and modifier flags. *)
Theorem KeyboardEvent_Equals_iff (a b : KeyboardEvent.t) :
  KeyboardEvent.Equals a b = true <-> a = b.
Proof.
  destruct a as [ta ka na sa ca], b as [tb kb nb sb cb].
  unfold KeyboardEvent.Equals, KeyboardEvent.num. cbn. split.
  - intros H. repeat (apply andb_prop in H as [H ?]).
    apply Z.eqb_eq in H2. apply Bool.eqb_prop in H0, H1.
    destruct ta, tb, ka, kb; try discriminate; congruence.
  - intros [= -> -> -> -> ->].
    rewrite Z.eqb_refl, !Bool.eqb_reflx. destruct tb, kb; reflexivity.
Qed.

(** ** Window geometry, continued *)

(** X2: with a proper interval, [Clamp] lands inside it, leaves a value
    that is inside alone, and clamping again changes nothing. *)
Theorem Clamp_within (x a b : Z) :
  a <= b ->
  a <= Win32.Clamp x a b <= b /\
  (a <= x <= b -> Win32.Clamp x a b = x) /\
  Win32.Clamp (Win32.Clamp x a b) a b = Win32.Clamp x a b.
Proof. unfold Win32.Clamp. lia. Qed.

Lemma Clamp_within_witness :
  0 <= Win32.Clamp 5000 0 1920 <= 1920.
Proof. apply (Clamp_within 5000 0 1920). lia. Defined.

(** Appending to one key tells the suffixes apart. *)
Lemma append_inj_r (key a b : string) : key +:+ a = key +:+ b -> a = b.
Proof.
  induction key as [| c key IH]; cbn; intros H; [exact H|].
  injection H as H. exact (IH H).
Qed.

Lemma suffix_ne (key a b : string) : a <> b -> key +:+ a <> key +:+ b.
Proof. intros Hne H. exact (Hne (append_inj_r key a b H)). Qed.

(** X3: on Win32 the rectangle a thaw gives the host lies within the
    monitor nearest the stored rectangle, for whatever is stored,
    provided the host reports monitors that are proper rectangles. *)
Theorem win32_ThawPosition_within_monitor (MonitorFromRect : Win32.RECT -> Win32.RECT)
    (key : string) (w : Win32.WindowImplWin32) (cnf : gmap string Z) :
  (forall r, Win32.left_ (MonitorFromRect r) <= Win32.right_ (MonitorFromRect r) /\
             Win32.top_ (MonitorFromRect r) <= Win32.bottom_ (MonitorFromRect r)) ->
  let current := Win32.rcNormalPosition (Win32.GetWindowPlacement (Win32.hWindow w)) in
  let stored :=
    Win32.mkRECT (CnfThawInt (Win32.left_ current) (key +:+ "_left") cnf)
                 (CnfThawInt (Win32.top_ current) (key +:+ "_top") cnf)
                 (CnfThawInt (Win32.right_ current) (key +:+ "_right") cnf)
                 (CnfThawInt (Win32.bottom_ current) (key +:+ "_bottom") cnf) in
  let mrc := MonitorFromRect stored in
  let rc := Win32.rcNormalPosition
              (Win32.GetWindowPlacement
                 (Win32.hWindow (Win32.ThawPosition MonitorFromRect key w cnf))) in
  Win32.left_ mrc <= Win32.left_ rc <= Win32.right_ mrc /\
  Win32.left_ mrc <= Win32.right_ rc <= Win32.right_ mrc /\
  Win32.top_ mrc <= Win32.top_ rc <= Win32.bottom_ mrc /\
  Win32.top_ mrc <= Win32.bottom_ rc <= Win32.bottom_ mrc.
Proof.
  intros Hm current stored mrc rc.
  destruct (Hm stored) as [Hh Hv]. fold mrc in Hh, Hv.
  subst rc. unfold Win32.ThawPosition, Win32.thawed_rect. cbn.
  fold current. fold stored. fold mrc. unfold Win32.Clamp. lia.
Qed.

Lemma win32_ThawPosition_within_monitor_witness :
  let w := Win32.CreateWindow (Win32.sample_native 0) no_callbacks in
  let stored : gmap string Z := {[ "w_left" := 5000; "w_right" := 5400 ]} in
  let rc := Win32.rcNormalPosition
              (Win32.GetWindowPlacement
                 (Win32.hWindow (Win32.ThawPosition Win32.one_monitor "w" w stored))) in
  0 <= Win32.left_ rc <= 1920 /\ 0 <= Win32.right_ rc <= 1920.
Proof.
  cbn zeta.
  destruct (win32_ThawPosition_within_monitor Win32.one_monitor "w"
              (Win32.CreateWindow (Win32.sample_native 0) no_callbacks)
              {[ "w_left" := 5000; "w_right" := 5400 ]}) as (Hl & Hr & _).
  - intros r. cbn. lia.
  - split; [exact Hl | exact Hr].
Defined.

(** What [FreezePosition] leaves in the store on Win32. *)
Lemma win32_frozen_values (key : string) (w : Win32.WindowImplWin32) (cnf : gmap string Z) :
  let rc := Win32.rcNormalPosition (Win32.GetWindowPlacement (Win32.hWindow w)) in
  let cnf' := (Win32.FreezePosition key w cnf).2 in
  cnf' !! (key +:+ "_left") = Some (Win32.left_ rc) /\
  cnf' !! (key +:+ "_right") = Some (Win32.right_ rc) /\
  cnf' !! (key +:+ "_top") = Some (Win32.top_ rc) /\
  cnf' !! (key +:+ "_bottom") = Some (Win32.bottom_ rc) /\
  cnf' !! (key +:+ "_maximized") = Some (Z.b2z (Win32.IsZoomed (Win32.hWindow w))).
Proof.
  cbn zeta. unfold Win32.FreezePosition, CnfFreezeInt. cbn [snd].
  repeat split;
    repeat first [ apply lookup_insert_eq
                 | rewrite lookup_insert_ne by (apply suffix_ne; discriminate) ].
Qed.

(** X4: on Win32, freezing a window and thawing it under the same key
    brings back its normal rectangle unchanged, provided that rectangle
    lies within the monitor nearest to it, and shows the window
    maximized exactly when it was zoomed. *)
Theorem win32_Freeze_Thaw_round_trip (MonitorFromRect : Win32.RECT -> Win32.RECT)
    (key : string) (w : Win32.WindowImplWin32) (cnf : gmap string Z) :
  let rc := Win32.rcNormalPosition (Win32.GetWindowPlacement (Win32.hWindow w)) in
  let mrc := MonitorFromRect rc in
  Win32.left_ mrc <= Win32.left_ rc -> Win32.right_ rc <= Win32.right_ mrc ->
  Win32.top_ mrc <= Win32.top_ rc -> Win32.bottom_ rc <= Win32.bottom_ mrc ->
  Win32.left_ rc <= Win32.right_ rc -> Win32.top_ rc <= Win32.bottom_ rc ->
  let frozen := Win32.FreezePosition key w cnf in
  let thawed := Win32.placement (Win32.ThawPosition MonitorFromRect key frozen.1 frozen.2) in
  Win32.rcNormalPosition thawed = rc /\
  Win32.showCmd thawed =
    if Win32.IsZoomed (Win32.hWindow w) then Win32.SW_SHOWMAXIMIZED else Win32.SW_SHOW.
Proof.
  intros rc mrc Hl Hr Ht Hb Hh Hv frozen thawed.
  destruct (win32_frozen_values key w cnf) as (El & Er & Et & Eb & Em).
  fold rc in El, Er, Et, Eb. fold frozen in El, Er, Et, Eb, Em.
  subst thawed. unfold Win32.ThawPosition, Win32.thawed_rect, CnfThawInt.
  cbn [Win32.placement Win32.rcNormalPosition Win32.showCmd].
  rewrite El, Er, Et, Eb, Em. cbn [default from_option]. unfold id.
  replace (Win32.mkRECT (Win32.left_ rc) (Win32.top_ rc) (Win32.right_ rc) (Win32.bottom_ rc))
    with rc by (destruct rc; reflexivity).
  fold mrc. split.
  - unfold Win32.Clamp. clearbody mrc. clear El Er Et Eb Em. clearbody rc.
    destruct rc as [l t r b], mrc as [ml mt mr mb]. cbn in *. f_equal; lia.
  - destruct (Win32.IsZoomed (Win32.hWindow w)); reflexivity.
Qed.

Lemma win32_Freeze_Thaw_round_trip_witness :
  let w := Win32.CreateWindow (Win32.sample_native 0) no_callbacks in
  let frozen := Win32.FreezePosition "w" w ∅ in
  Win32.rcNormalPosition
    (Win32.placement (Win32.ThawPosition Win32.one_monitor "w" frozen.1 frozen.2)) =
  Win32.mkRECT 10 20 110 220.
Proof.
  cbn zeta.
  refine (proj1 (win32_Freeze_Thaw_round_trip Win32.one_monitor "w"
            (Win32.CreateWindow (Win32.sample_native 0) no_callbacks) ∅ _ _ _ _ _ _));
    cbn; lia.
Defined.

(** What [FreezePosition] leaves in the store on GTK, for a visible window. *)
Lemma gtk_frozen_values (key : string) (w : Gtk.WindowImplGtk) (cnf : gmap string Z) :
  Gtk.IsVisible w = true ->
  let g := Gtk.gtkWindow w in
  let cnf' := Gtk.FreezePosition key w cnf in
  cnf' !! (key +:+ "_left") = Some (Gtk.position g).1 /\
  cnf' !! (key +:+ "_top") = Some (Gtk.position g).2 /\
  cnf' !! (key +:+ "_width") = Some (Gtk.size g).1 /\
  cnf' !! (key +:+ "_height") = Some (Gtk.size g).2 /\
  cnf' !! (key +:+ "_maximized") = Some (Z.b2z (Gtk.maximized g)).
Proof.
  unfold Gtk.IsVisible. intros Hv. cbn zeta. unfold Gtk.FreezePosition, CnfFreezeInt.
  rewrite Hv. cbn [negb].
  destruct (Gtk.position (Gtk.gtkWindow w)) as [l t].
  destruct (Gtk.size (Gtk.gtkWindow w)) as [wd ht]. cbn [fst snd].
  repeat split;
    repeat first [ apply lookup_insert_eq
                 | rewrite lookup_insert_ne by (apply suffix_ne; discriminate) ].
Qed.

(** X5: on GTK, what a visible window freezes, any window thaws under
    the same key: it is moved and resized to the frozen position and
    size, and maximized if the frozen window was; a frozen window that
    was not maximized leaves the maximized state alone. *)
Theorem gtk_Freeze_Thaw_round_trip (key : string) (w w' : Gtk.WindowImplGtk)
    (cnf : gmap string Z) :
  Gtk.IsVisible w = true ->
  let g := Gtk.gtkWindow (Gtk.ThawPosition key w' (Gtk.FreezePosition key w cnf)) in
  Gtk.position g = Gtk.position (Gtk.gtkWindow w) /\
  Gtk.size g = Gtk.size (Gtk.gtkWindow w) /\
  Gtk.maximized g = Gtk.maximized (Gtk.gtkWindow w) || Gtk.maximized (Gtk.gtkWindow w').
Proof.
  intros Hv. destruct (gtk_frozen_values key w cnf Hv) as (El & Et & Ew & Eh & Em).
  cbn zeta in *. unfold Gtk.ThawPosition, CnfThawInt.
  destruct (Gtk.position (Gtk.gtkWindow w')) as [l' t'].
  destruct (Gtk.size (Gtk.gtkWindow w')) as [wd' ht'].
  rewrite El, Et, Ew, Eh, Em. cbn.
  destruct (Gtk.position (Gtk.gtkWindow w)), (Gtk.size (Gtk.gtkWindow w)).
  destruct (Gtk.maximized (Gtk.gtkWindow w)); auto.
Qed.

Lemma gtk_Freeze_Thaw_round_trip_witness :
  let w := Gtk.SetVisible true (Gtk.CreateWindow (30, 40) (640, 480) no_callbacks) in
  let w' := Gtk.CreateWindow (0, 0) (100, 100) no_callbacks in
  Gtk.position (Gtk.gtkWindow (Gtk.ThawPosition "w" w' (Gtk.FreezePosition "w" w ∅)))
  = (30, 40).
Proof.
  cbn zeta.
  exact (proj1 (gtk_Freeze_Thaw_round_trip "w"
           (Gtk.SetVisible true (Gtk.CreateWindow (30, 40) (640, 480) no_callbacks))
           (Gtk.CreateWindow (0, 0) (100, 100) no_callbacks) ∅ eq_refl)).
Defined.

(** X6: a thaw under a key with nothing stored keeps the geometry.  On
    GTK the window is exactly as before; on Win32 the rectangle handed
    to the host is the current one brought inside the nearest monitor,
    shown normally. *)
Theorem ThawPosition_nothing_stored (key : string) (cnf : gmap string Z)
    (g : Gtk.WindowImplGtk) (MonitorFromRect : Win32.RECT -> Win32.RECT)
    (w : Win32.WindowImplWin32) :
  (forall suffix, cnf !! (key +:+ suffix) = None) ->
  Gtk.ThawPosition key g cnf = g /\
  let rc := Win32.rcNormalPosition (Win32.GetWindowPlacement (Win32.hWindow w)) in
  let mrc := MonitorFromRect rc in
  Win32.placement (Win32.ThawPosition MonitorFromRect key w cnf) =
  Win32.mkWINDOWPLACEMENT 0 Win32.SW_SHOW
    (Win32.mkRECT (Win32.Clamp (Win32.left_ rc) (Win32.left_ mrc) (Win32.right_ mrc))
                  (Win32.Clamp (Win32.top_ rc) (Win32.top_ mrc) (Win32.bottom_ mrc))
                  (Win32.Clamp (Win32.right_ rc) (Win32.left_ mrc) (Win32.right_ mrc))
                  (Win32.Clamp (Win32.bottom_ rc) (Win32.top_ mrc) (Win32.bottom_ mrc))).
Proof.
  intros Hnone. split.
  - unfold Gtk.ThawPosition, CnfThawInt. destruct g as [[v [l t] [wd ht] m f sv a] cb].
    cbn. rewrite !Hnone. reflexivity.
  - cbn zeta. unfold Win32.ThawPosition, Win32.thawed_rect, CnfThawInt.
    rewrite !Hnone. cbn.
    destruct (Win32.rcNormalPosition (Win32.GetWindowPlacement (Win32.hWindow w))).
    reflexivity.
Qed.

Lemma ThawPosition_nothing_stored_witness :
  let g := Gtk.CreateWindow (30, 40) (640, 480) no_callbacks in
  Gtk.ThawPosition "w" g ∅ = g.
Proof.
  cbn zeta.
  refine (proj1 (ThawPosition_nothing_stored "w" ∅ _ Win32.one_monitor
                   (Win32.CreateWindow (Win32.sample_native 0) no_callbacks) _)).
  intros suffix. apply lookup_empty.
Defined.

(** ** Timers, continued *)

Section MoreGtkTimers.

Import Gtk.

Lemma reachable_exclusive (w : World) : reachable w -> exclusive w.
Proof.
  induction 1 as [| w this0 Hr IH Hfresh | w this0 f Hr IH | w this0 ms Hr IH | w ms Hr IH].
  - intros this t c Ht. cbn in Ht. rewrite lookup_empty in Ht. discriminate Ht.
  - intros this t c Ht Hc. cbn in Ht |- *.
    destruct (Z.eq_dec this0 this) as [-> | Hne].
    + rewrite lookup_insert_eq in Ht. injection Ht as <-. discriminate Hc.
    + rewrite lookup_insert_ne in Ht by exact Hne. exact (IH this t c Ht Hc).
  - unfold set_onTimeout. destruct (timers w !! this0) as [t0|] eqn:Ht0; [|exact IH].
    intros this t c Ht Hc. cbn in Ht |- *.
    destruct (Z.eq_dec this0 this) as [-> | Hne].
    + rewrite lookup_insert_eq in Ht. injection Ht as <-. exact (IH this t0 c Ht0 Hc).
    + rewrite lookup_insert_ne in Ht by exact Hne. exact (IH this t c Ht Hc).
  - destruct (timers w !! this0) as [t0|] eqn:Ht0;
      [| unfold WindUp; rewrite Ht0; exact IH].
    destruct (WindUp_sources w this0 ms t0 Ht0) as (Hs & _ & Hn & Htm).
    pose proof (reachable_well_formed w Hr) as [_ Hall].
    rewrite List.Forall_forall in Hall.
    intros this t c Ht Hc. rewrite Hs, Hn. rewrite Htm in Ht.
    destruct (Z.eq_dec this0 this) as [-> | Hne].
    + rewrite lookup_insert_eq in Ht. injection Ht as <-. cbn in Hc. injection Hc as <-.
      split; [lia|]. intros s Hin Hid. apply in_app_iff in Hin as [Hin | [<- | []]].
      * apply without_old_sources_sub in Hin. destruct (Hall s Hin) as [Hlt _]. lia.
      * reflexivity.
    + rewrite lookup_insert_ne in Ht by exact Hne.
      destruct (IH this t c Ht Hc) as [Hlt Hown]. split; [lia|].
      intros s Hin Hid. apply in_app_iff in Hin as [Hin | [<- | []]].
      * apply without_old_sources_sub in Hin. exact (Hown s Hin Hid).
      * cbn in Hid. lia.
  - intros this t c Ht Hc. cbn in Ht |- *. destruct (IH this t c Ht Hc) as [Hlt Hown].
    split; [exact Hlt|]. intros s Hin. apply List.filter_In in Hin as [Hin _].
    exact (Hown s Hin).
Qed.

Lemma filter_filter_implied {A} (p q : A -> bool) (l : list A) :
  (forall a, In a l -> p a = true -> q a = true) ->
  List.filter p (List.filter q l) = List.filter p l.
Proof.
  induction l as [| a l IH]; cbn; intros H; [reflexivity|].
  destruct (q a) eqn:Hq; cbn.
  - destruct (p a); rewrite IH; auto.
  - destruct (p a) eqn:Hp; [|apply IH; auto].
    rewrite (H a (or_introl eq_refl) Hp) in Hq. discriminate Hq.
Qed.

Lemma gtk_WindUp_other (w : World) (this other ms : Z) :
  reachable w -> other <> this -> pending other (WindUp this ms w) = pending other w.
Proof.
  intros Hr Hne. destruct (timers w !! this) as [t|] eqn:Ht;
    [| unfold WindUp; rewrite Ht; reflexivity].
  destruct (WindUp_sources w this ms t Ht) as (Hs & _).
  unfold pending. rewrite Hs, List.filter_app. cbn.
  destruct (Z.eqb_spec this other) as [E | _]; [congruence|].
  rewrite app_nil_r. f_equal.
  unfold without_old, connection_empty, connection_disconnect.
  destruct (_connection t) as [c|] eqn:Hc; cbn; [|reflexivity].
  destruct (connected c (main_context w)); cbn; [|reflexivity].
  apply filter_filter_implied. intros s Hin Hs'. apply Z.eqb_eq in Hs'.
  apply negb_true_iff, Z.eqb_neq. intros Hid.
  destruct (reachable_exclusive w Hr this t c Ht Hc) as [_ Hown].
  specialize (Hown s Hin Hid). congruence.
Qed.

Lemma timeouts_of_handlers_le (w : World) (this : Z) (l : list TimeoutSource) :
  (timeouts_of this (flat_map (fun s => handler w (source_this s)) l)
   <= length (List.filter (fun s => (source_this s =? this)%Z) l))%nat.
Proof.
  unfold timeouts_of. induction l as [| a l IH]; cbn; [lia|].
  rewrite List.filter_app, length_app. unfold handler at 1.
  destruct (timers w !! source_this a) as [ta|];
    [destruct (is_set (onTimeout ta))|]; cbn;
    destruct (source_this a =? this); cbn; lia.
Qed.

Lemma elapse_timeouts_le (w : World) (this e : Z) :
  (timeouts_of this (elapse e w).2
   <= length (List.filter (fun s => (source_due s <=? now (main_context w) + e)%Z)
                (List.filter (fun s => (source_this s =? this)%Z)
                   (sources (main_context w)))))%nat.
Proof.
  unfold elapse, dispatch. cbn [snd main_context timers now sources].
  eapply Nat.le_trans; [apply timeouts_of_handlers_le|].
  rewrite filter_filter_comm. unfold is_due. cbn [now]. reflexivity.
Qed.

Lemma elapse_pending (w : World) (this e : Z) :
  pending this (elapse e w).1 =
  length (List.filter (fun s => negb (source_due s <=? now (main_context w) + e))
            (List.filter (fun s => source_this s =? this) (sources (main_context w)))).
Proof.
  unfold pending, elapse, dispatch. cbn [fst main_context sources now].
  rewrite filter_filter_comm. unfold is_due. cbn [now]. reflexivity.
Qed.

Lemma gtk_no_early_fire (w : World) (this d e : Z) (t : TimerImplGtk) :
  reachable w -> timers w !! this = Some t -> e < d ->
  timeouts_of this (elapse e (WindUp this d w)).2 = 0%nat /\
  pending this (elapse e (WindUp this d w)).1 = 1%nat.
Proof.
  intros Hr Ht Hlt. pose proof (reachable_well_formed w Hr) as Hwf.
  pose proof (WindUp_own_sources w this d t Hwf Ht) as Hown.
  destruct (WindUp_sources w this d t Ht) as (_ & Hnow & _).
  assert (Hdue : (now (main_context w) + d <=? now (main_context w) + e) = false)
    by (apply Z.leb_gt; lia).
  split.
  - pose proof (elapse_timeouts_le (WindUp this d w) this e) as Hle.
    remember (timeouts_of this (elapse e (WindUp this d w)).2) as n eqn:Hn. clear Hn.
    rewrite Hown, Hnow in Hle. cbn in Hle. rewrite Hdue in Hle. cbn in Hle. lia.
  - rewrite elapse_pending, Hown, Hnow. cbn. rewrite Hdue. reflexivity.
Qed.

Lemma gtk_disarmed_is_silent (w : World) (this ms : Z) :
  pending this w = 0%nat -> timeouts_of this (elapse ms w).2 = 0%nat.
Proof.
  unfold pending. intros H0. apply length_zero_iff_nil in H0.
  pose proof (elapse_timeouts_le w this ms) as Hle.
  rewrite H0 in Hle. cbn [List.filter length] in Hle. lia.
Qed.

End MoreGtkTimers.

Section MoreWin32Timers.

Import Win32.

Lemma fold_TimerFunc_keeps_others (l : list Z) (k : Z) :
  forall st : World * list Effect,
    ~ In k l ->
    timer_table (fold_left run_TimerFunc l st).1 !! k = timer_table st.1 !! k.
Proof.
  induction l as [| a l IH]; intros st Hnotin; [reflexivity|].
  cbn [fold_left]. rewrite IH by (intros H; apply Hnotin; right; exact H).
  unfold run_TimerFunc, TimerFunc, KillTimer. cbn.
  apply lookup_delete_ne. intros ->. apply Hnotin. left; reflexivity.
Qed.

Lemma timeouts_of_TimerFuncs_absent (w : World) (this : Z) (l : list Z) :
  ~ In this l ->
  timeouts_of this (flat_map (fun event => (TimerFunc event w).2) l) = 0%nat.
Proof.
  unfold timeouts_of. induction l as [| a l IH]; intros Hnotin; [reflexivity|].
  cbn [flat_map]. rewrite List.filter_app, length_app, IH
    by (intros H; apply Hnotin; right; exact H).
  unfold TimerFunc. cbn [snd].
  assert (a <> this) as Hne by (intros ->; apply Hnotin; left; reflexivity).
  destruct (timers w !! a) as [ta|]; [destruct (is_set (onTimeout ta))|]; cbn;
    try reflexivity.
  destruct (Z.eqb_spec a this); [contradiction | reflexivity].
Qed.

Lemma win32_not_due (w : World) (this ms : Z) :
  (forall due, timer_table w !! this = Some due -> now w + ms < due) ->
  timeouts_of this (elapse ms w).2 = 0%nat /\
  timer_table (elapse ms w).1 !! this = timer_table w !! this.
Proof.
  intros Hlate. set (w' := mkWorld (now w + ms) (timer_table w) (timers w)).
  assert (Hnotin : ~ In this (due_timers w')).
  { intros Hin. apply due_timers_spec in Hin as (due & Hl & Hd). cbn in Hl, Hd.
    specialize (Hlate due Hl). lia. }
  unfold elapse. fold w'. unfold dispatch.
  destruct (fold_TimerFunc (due_timers w') (w', [])) as (_ & _ & He). split.
  - rewrite He. cbn [fst snd app]. apply timeouts_of_TimerFuncs_absent, Hnotin.
  - rewrite (fold_TimerFunc_keeps_others _ this (w', []) Hnotin). reflexivity.
Qed.

End MoreWin32Timers.

(** X7: winding up one timer leaves the fires pending for every other
    timer as they were, on both backends. *)
Theorem WindUp_leaves_other_timers
    (gtk : Gtk.World) (win32 : Win32.World) (this other ms : Z) :
  Gtk.reachable gtk -> other <> this ->
  Gtk.pending other (Gtk.WindUp this ms gtk) = Gtk.pending other gtk /\
  Win32.pending other (Win32.WindUp this ms win32) = Win32.pending other win32.
Proof.
  intros Hr Hne. split.
  - exact (gtk_WindUp_other gtk this other ms Hr Hne).
  - unfold Win32.pending, Win32.WindUp, Win32.SetTimer. cbn.
    rewrite lookup_insert_ne by congruence. reflexivity.
Qed.

Lemma WindUp_leaves_other_timers_witness :
  let gtk := Gtk.WindUp 2 300 (Gtk.CreateTimer 2 (Gtk.CreateTimer 1 Gtk.initial_world)) in
  Gtk.pending 2 (Gtk.WindUp 1 50 gtk) = Gtk.pending 2 gtk.
Proof.
  cbn zeta.
  refine (proj1 (WindUp_leaves_other_timers
            (Gtk.WindUp 2 300 (Gtk.CreateTimer 2 (Gtk.CreateTimer 1 Gtk.initial_world)))
            (Win32.mkWorld 0 ∅ ∅) 1 2 50 _ _)).
  - apply Gtk.reach_WindUp, Gtk.reach_CreateTimer;
      [apply Gtk.reach_CreateTimer; [apply Gtk.reach_initial | reflexivity] | reflexivity].
  - discriminate.
Defined.

(** X8: a timer wound up for [d] milliseconds does not fire before: when
    less time has passed, its [onTimeout] has not been invoked and its
    fire is still pending, on both backends. *)
Theorem timer_does_not_fire_early
    (gtk : Gtk.World) (t : Gtk.TimerImplGtk) (win32 : Win32.World) (this d e : Z) :
  Gtk.reachable gtk -> Gtk.timers gtk !! this = Some t -> e < d ->
  (timeouts_of this (Gtk.elapse e (Gtk.WindUp this d gtk)).2 = 0%nat /\
   Gtk.pending this (Gtk.elapse e (Gtk.WindUp this d gtk)).1 = 1%nat) /\
  (timeouts_of this (Win32.elapse e (Win32.WindUp this d win32)).2 = 0%nat /\
   Win32.pending this (Win32.elapse e (Win32.WindUp this d win32)).1 = 1%nat).
Proof.
  intros Hr Ht Hlt. split; [exact (gtk_no_early_fire gtk this d e t Hr Ht Hlt)|].
  destruct (win32_not_due (Win32.WindUp this d win32) this e) as [H0 Hkeep].
  - intros due. unfold Win32.WindUp, Win32.SetTimer. cbn.
    rewrite lookup_insert_eq. intros [= <-]. lia.
  - split; [exact H0|]. unfold Win32.pending. rewrite Hkeep.
    unfold Win32.WindUp, Win32.SetTimer. cbn. rewrite lookup_insert_eq. reflexivity.
Qed.

Lemma timer_does_not_fire_early_witness :
  let f : unit -> unit := fun u => u in
  let gtk := Gtk.set_onTimeout 1 (Some f) (Gtk.CreateTimer 1 Gtk.initial_world) in
  timeouts_of 1 (Gtk.elapse 499 (Gtk.WindUp 1 500 gtk)).2 = 0%nat.
Proof.
  cbn zeta.
  refine (proj1 (proj1 (timer_does_not_fire_early
            (Gtk.set_onTimeout 1 (Some (fun u => u)) (Gtk.CreateTimer 1 Gtk.initial_world))
            (Gtk.mkTimerImplGtk None (Some (fun u => u)))
            (Win32.mkWorld 0 ∅ ∅) 1 500 499 _ _ _))).
  - apply Gtk.reach_set_onTimeout, Gtk.reach_CreateTimer;
      [apply Gtk.reach_initial | reflexivity].
  - reflexivity.
  - reflexivity.
Defined.

(** X9: a timer with no fire pending stays silent however much time
    passes: only winding it up makes its [onTimeout] run.  This holds in
    every state of either backend, so also after the timer has fired. *)
Theorem disarmed_timer_is_silent
    (gtk : Gtk.World) (win32 : Win32.World) (this ms : Z) :
  Gtk.pending this gtk = 0%nat -> Win32.pending this win32 = 0%nat ->
  timeouts_of this (Gtk.elapse ms gtk).2 = 0%nat /\
  timeouts_of this (Win32.elapse ms win32).2 = 0%nat.
Proof.
  intros Hg Hw. split; [exact (gtk_disarmed_is_silent gtk this ms Hg)|].
  apply (win32_not_due win32 this ms). intros due Hdue.
  unfold Win32.pending in Hw. rewrite Hdue in Hw. discriminate Hw.
Qed.

Lemma disarmed_timer_is_silent_witness :
  let f : unit -> unit := fun u => u in
  let gtk := Gtk.WindUp 1 20
               (Gtk.set_onTimeout 1 (Some f) (Gtk.CreateTimer 1 Gtk.initial_world)) in
  let win32 := Win32.WindUp 1 20
                 (Win32.set_onTimeout 1 (Some f)
                    (Win32.CreateTimer 1 (Win32.mkWorld 0 ∅ ∅))) in
  timeouts_of 1 (Gtk.elapse 1000 (Gtk.elapse 20 gtk).1).2 = 0%nat /\
  timeouts_of 1 (Win32.elapse 1000 (Win32.elapse 20 win32).1).2 = 0%nat.
Proof.
  cbn zeta. apply disarmed_timer_is_silent; vm_compute; reflexivity.
Defined.

(** ** Menu items, continued *)

Lemma land_lor_same (s m : Z) : Z.land (Z.lor s m) m = m.
Proof.
  apply Z.bits_inj'. intros n Hn. rewrite Z.land_spec, Z.lor_spec.
  destruct (Z.testbit s n), (Z.testbit m n); reflexivity.
Qed.

Lemma land_clear_same (s m : Z) : Z.land (Z.land s (Z.lnot m)) m = 0.
Proof.
  apply Z.bits_inj'. intros n Hn.
  rewrite !Z.land_spec, Z.lnot_spec, Z.bits_0 by exact Hn.
  destruct (Z.testbit s n), (Z.testbit m n); reflexivity.
Qed.

Lemma land_lor_disjoint (s a b : Z) :
  Z.land a b = 0 -> Z.land (Z.lor s a) b = Z.land s b.
Proof.
  intros Hd. apply Z.bits_inj'. intros n Hn.
  apply (f_equal (fun z => Z.testbit z n)) in Hd.
  rewrite Z.land_spec, Z.bits_0 in Hd. rewrite !Z.land_spec, Z.lor_spec.
  destruct (Z.testbit s n), (Z.testbit a n), (Z.testbit b n); try reflexivity;
    discriminate Hd.
Qed.

Lemma land_clear_disjoint (s a b : Z) :
  Z.land a b = 0 -> Z.land (Z.land s (Z.lnot a)) b = Z.land s b.
Proof.
  intros Hd. apply Z.bits_inj'. intros n Hn.
  apply (f_equal (fun z => Z.testbit z n)) in Hd.
  rewrite Z.land_spec, Z.bits_0 in Hd. rewrite !Z.land_spec, Z.lnot_spec by exact Hn.
  destruct (Z.testbit s n), (Z.testbit a n), (Z.testbit b n); try reflexivity;
    discriminate Hd.
Qed.

(** X10: on Win32 the check mark and the enabled state of an item do
    not disturb each other: after [SetActive] the item is checked
    exactly as asked and as enabled as before, after [SetEnabled] it is
    enabled exactly as asked and as checked as before, and neither
    touches the item's type. *)
Theorem win32_SetActive_SetEnabled_independent (b : bool) (m : Win32.MenuItemImplWin32) :
  (exists m', Win32.SetActive b m = Ok (m', []) /\
     Win32.is_checked m' = b /\ Win32.is_enabled m' = Win32.is_enabled m /\
     Win32.fType (Win32.info m') = Win32.fType (Win32.info m)) /\
  Win32.is_enabled (Win32.SetEnabled b m) = b /\
  Win32.is_checked (Win32.SetEnabled b m) = Win32.is_checked m /\
  Win32.fType (Win32.info (Win32.SetEnabled b m)) = Win32.fType (Win32.info m).
Proof.
  unfold Win32.SetActive, Win32.SetEnabled, Win32.is_checked, Win32.is_enabled, has_bits.
  change (Z.lor Win32.MFS_DISABLED Win32.MFS_GRAYED) with 3.
  change Win32.MFS_CHECKED with 8. cbn [Win32.info Win32.fState Win32.fType].
  split.
  - eexists. split; [reflexivity|]. cbn [Win32.info Win32.fState Win32.fType].
    destruct b.
    + rewrite land_lor_same, land_lor_disjoint by reflexivity. auto.
    + rewrite land_clear_same, land_clear_disjoint by reflexivity. auto.
  - destruct b.
    + rewrite land_clear_same, land_clear_disjoint by reflexivity. auto.
    + rewrite land_lor_same, land_lor_disjoint by reflexivity. auto.
Qed.

(** X11: on Win32 [SetIndicator] gives the item the radio mark exactly
    for RADIO_MARK, keeps every other type bit and the whole state, and
    treats NONE like CHECK_MARK: an item without indicator is not told
    apart from one with a check mark. *)
Theorem win32_SetIndicator_bits (type : MenuItem.Indicator) (m : Win32.MenuItemImplWin32) :
  let m' := Win32.SetIndicator type m in
  Win32.is_radio m' = match type with MenuItem.RADIO_MARK => true | _ => false end /\
  Z.land (Win32.fType (Win32.info m')) (Z.lnot Win32.MFT_RADIOCHECK) =
    Z.land (Win32.fType (Win32.info m)) (Z.lnot Win32.MFT_RADIOCHECK) /\
  Win32.fState (Win32.info m') = Win32.fState (Win32.info m) /\
  Win32.SetIndicator MenuItem.NONE m = Win32.SetIndicator MenuItem.CHECK_MARK m.
Proof.
  cbn zeta. unfold Win32.SetIndicator, Win32.is_radio, has_bits.
  cbn [Win32.info Win32.fState Win32.fType].
  assert (Hkeep : forall s a, Z.land (Z.lor s a) (Z.lnot a) = Z.land s (Z.lnot a)).
  { intros s a. apply Z.bits_inj'. intros n Hn.
    rewrite !Z.land_spec, Z.lor_spec, Z.lnot_spec by exact Hn.
    destruct (Z.testbit s n), (Z.testbit a n); reflexivity. }
  destruct type.
  - rewrite land_clear_same, <- Z.land_assoc, Z.land_diag. auto.
  - rewrite land_clear_same, <- Z.land_assoc, Z.land_diag. auto.
  - rewrite land_lor_same, Hkeep. auto.
Qed.

(** X12: on GTK [SetActive] on an item with indicator sets the state
    without triggering the item: no [onTrigger] runs, the state is as
    asked, and the item is left ready to trigger on a real activation. *)
Theorem gtk_SetActive_is_silent (this : Z) (b : bool) (m : Gtk.MenuItemImplGtk) :
  Gtk.has_indicator (Gtk.gtkMenuItem m) = true ->
  Gtk._synthetic_event (Gtk.gtkMenuItem m) = false ->
  exists m',
    Gtk.SetActive this b m = Ok (m', []) /\
    Gtk.active (Gtk.gtkMenuItem m') = b /\
    Gtk.on_activate this m' = if is_set (Gtk.onTrigger m) then [onTrigger_called this] else [].
Proof.
  intros Hind Hsyn. unfold Gtk.SetActive, ssassert. rewrite Hind.
  unfold Gtk.set_active.
  destruct (Bool.eqb (Gtk.active (Gtk.gtkMenuItem m)) b) eqn:Heq.
  - exists m. split; [reflexivity|]. split; [apply Bool.eqb_prop, Heq|].
    unfold Gtk.on_activate. rewrite Hsyn. reflexivity.
  - eexists. split; [reflexivity|]. split; reflexivity.
Qed.

Lemma gtk_SetActive_is_silent_witness :
  exists m',
    Gtk.SetActive 1 true
      (Gtk.SetIndicator MenuItem.CHECK_MARK (Gtk.AddItem_item (Some (fun u => u)))) =
    Ok (m', []) /\ Gtk.active (Gtk.gtkMenuItem m') = true.
Proof.
  destruct (gtk_SetActive_is_silent 1 true
              (Gtk.SetIndicator MenuItem.CHECK_MARK (Gtk.AddItem_item (Some (fun u => u))))
              eq_refl eq_refl) as (m' & H1 & H2 & _).
  exists m'. split; [exact H1 | exact H2].
Defined.

Section Labels.

Import Stdlib.Strings.Ascii.

Lemma find_tab_app (p d : string) :
  Win32.find_tab p = None ->
  Win32.find_tab (p +:+ String "009"%char d) = Some (String.length p).
Proof.
  induction p as [| c p IH]; intros Hp; [reflexivity|].
  simpl in Hp |- *.
  destruct (Strings.Ascii.eqb c "009"%char); [discriminate Hp|].
  destruct (Win32.find_tab p); [discriminate Hp|]. rewrite IH; reflexivity.
Qed.

Lemma substring_prefix (p r : string) :
  String.substring 0 (String.length p) (p +:+ r) = p.
Proof.
  induction p as [| c p IH]; [destruct r; reflexivity|].
  change (String c p +:+ r) with (String c (p +:+ r)).
  change (String.length (String c p)) with (S (String.length p)).
  change (String.substring 0 (S (String.length p)) (String c (p +:+ r)))
    with (String c (String.substring 0 (String.length p) (p +:+ r))).
  rewrite IH. reflexivity.
Qed.

Lemma before_tab_has_no_tab (name : string) :
  Win32.find_tab (Win32.before_tab name) = None.
Proof.
  unfold Win32.before_tab. induction name as [| c name IH]; [reflexivity|].
  cbn [Win32.find_tab]. destruct (Strings.Ascii.eqb c "009"%char) eqn:Hc; [reflexivity|].
  destruct (Win32.find_tab name) as [n|]; cbn; rewrite Hc, ?IH; reflexivity.
Qed.

(** X13: on Win32 [SetAccelerator] writes the item's label up to its
    first tab, a tab, and the accelerator's description; whatever
    followed the first tab is gone, so setting an accelerator twice
    leaves only the second, and the label part is never lost.  The text
    conversions are taken to round-trip. *)
Theorem win32_SetAccelerator_replaces_suffix (W : Type) (Widen : string -> W)
    (Narrow : W -> string) (AcceleratorDescription : KeyboardEvent.t -> string)
    (a1 a2 : KeyboardEvent.t) (nameW : W) :
  (forall s, Narrow (Widen s) = s) ->
  let SetAccelerator := Win32.SetAccelerator_text W Widen Narrow AcceleratorDescription in
  Narrow (SetAccelerator a1 nameW) =
    Win32.before_tab (Narrow nameW) +:+ String "009"%char (AcceleratorDescription a1) /\
  Win32.before_tab (Narrow (SetAccelerator a1 nameW)) = Win32.before_tab (Narrow nameW) /\
  SetAccelerator a2 (SetAccelerator a1 nameW) = SetAccelerator a2 nameW.
Proof.
  intros Hrt. cbn zeta. unfold Win32.SetAccelerator_text. rewrite !Hrt.
  assert (Hcut : forall d,
    Win32.before_tab (Win32.before_tab (Narrow nameW) +:+ String "009"%char d) =
    Win32.before_tab (Narrow nameW)).
  { intros d. unfold Win32.before_tab at 1.
    rewrite find_tab_app by apply before_tab_has_no_tab. apply substring_prefix. }
  change (String "009"%char EmptyString +:+ AcceleratorDescription a1)
    with (String "009"%char (AcceleratorDescription a1)).
  split; [reflexivity|]. rewrite Hcut. auto.
Qed.

Lemma win32_SetAccelerator_replaces_suffix_witness :
  Win32.SetAccelerator_text string id id (fun _ => "Ctrl+S")
    (KeyboardEvent.mk KeyboardEvent.PRESS KeyboardEvent.CHARACTER 0x73 false true)
    (Win32.SetAccelerator_text string id id (fun _ => "Ctrl+S")
       (KeyboardEvent.mk KeyboardEvent.PRESS KeyboardEvent.CHARACTER 0x73 false true)
       "&Save"%string) =
  Win32.SetAccelerator_text string id id (fun _ => "Ctrl+S")
    (KeyboardEvent.mk KeyboardEvent.PRESS KeyboardEvent.CHARACTER 0x73 false true)
    "&Save"%string.
Proof.
  refine (proj2 (proj2 (win32_SetAccelerator_replaces_suffix string id id
            (fun _ => "Ctrl+S"%string) _ _ "&Save"%string _))).
  intros s. reflexivity.
Defined.

(** X14: [PrepareMenuLabel] keeps the length of a label, turns every
    ['&'] into ['_'], leaves every other character in place, and
    preparing a prepared label changes nothing. *)
Theorem gtk_PrepareMenuLabel_spec (label : string) :
  String.length (Gtk.PrepareMenuLabel label) = String.length label /\
  (forall n c, String.get n label = Some c ->
     String.get n (Gtk.PrepareMenuLabel label) =
     Some (if Strings.Ascii.eqb c "&"%char then "_"%char else c)) /\
  (forall n, String.get n (Gtk.PrepareMenuLabel label) <> Some "&"%char) /\
  Gtk.PrepareMenuLabel (Gtk.PrepareMenuLabel label) = Gtk.PrepareMenuLabel label.
Proof.
  induction label as [| c label (IHlen & IHget & IHno & IHidem)].
  - cbn. repeat split; discriminate.
  - cbn [Gtk.PrepareMenuLabel String.length]. repeat split.
    + rewrite IHlen. reflexivity.
    + intros [| n] c'; cbn; [intros [= <-]; reflexivity | apply IHget].
    + intros [| n]; cbn; [| apply IHno].
      destruct (Strings.Ascii.eqb c "&"%char) eqn:Hc; intros H.
      * discriminate H.
      * injection H as ->. discriminate Hc.
    + rewrite IHidem. f_equal.
      destruct (Strings.Ascii.eqb c "&"%char) eqn:Hc; [reflexivity | rewrite Hc; reflexivity].
Qed.

End Labels.

(** X15: on GTK the key and modifiers that [SetAccelerator] derives
    from a function-key accelerator F1..F12 are decoded by the key
    handler back into that very event, given that GDK has no character
    for the key. *)
Theorem gtk_function_key_accelerator_round_trip
    (gdk_keyval_to_lower gdk_keyval_to_unicode gdk_unicode_to_keyval : Z -> Z)
    (accel : KeyboardEvent.t) :
  KeyboardEvent.key accel = KeyboardEvent.FUNCTION ->
  1 <= KeyboardEvent.num accel <= 12 ->
  gdk_keyval_to_unicode (gdk_keyval_to_lower (Gtk.accelKey gdk_unicode_to_keyval accel)) = 0 ->
  Gtk.key_event gdk_keyval_to_lower gdk_keyval_to_unicode (KeyboardEvent.type accel)
    (Gtk.accelMods accel) (Gtk.accelKey gdk_unicode_to_keyval accel) = Some accel.
Proof.
  destruct accel as [ty k n s c]. unfold KeyboardEvent.num. cbn [KeyboardEvent.key
    KeyboardEvent.chr_num KeyboardEvent.type]. intros -> Hn.
  assert (Hkey : Gtk.accelKey gdk_unicode_to_keyval
                   (KeyboardEvent.mk ty KeyboardEvent.FUNCTION n s c) = 0xffbe + n - 1).
  { unfold Gtk.accelKey, UINT_of_int, KeyboardEvent.num. cbn. apply Z.mod_small. lia. }
  rewrite Hkey. intros Hchr. unfold Gtk.key_event. rewrite Hchr.
  assert (Hmods : Z.land (Gtk.accelMods (KeyboardEvent.mk ty KeyboardEvent.FUNCTION n s c))
                    (Z.lnot (Z.lor Gtk.GDK_SHIFT_MASK Gtk.GDK_CONTROL_MASK)) = 0)
    by (destruct s, c; reflexivity).
  rewrite Hmods. cbn [Z.eqb negb].
  assert (Hrange : (Gtk.GDK_KEY_F1 <=? 0xffbe + n - 1) &&
                   (0xffbe + n - 1 <=? Gtk.GDK_KEY_F12) = true).
  { unfold Gtk.GDK_KEY_F1, Gtk.GDK_KEY_F12.
    apply andb_true_intro; split; apply Z.leb_le; lia. }
  rewrite Hrange. f_equal. f_equal.
  - unfold Gtk.GDK_KEY_F1. lia.
  - destruct s, c; reflexivity.
  - destruct s, c; reflexivity.
Qed.

Lemma gtk_function_key_accelerator_round_trip_witness :
  let f5 := KeyboardEvent.mk KeyboardEvent.PRESS KeyboardEvent.FUNCTION 5 true false in
  Gtk.key_event Gtk.latin1_keyval_to_lower Gtk.latin1_keyval_to_unicode
    KeyboardEvent.PRESS (Gtk.accelMods f5) (Gtk.accelKey (fun c => c) f5) = Some f5.
Proof.
  cbn zeta.
  apply (gtk_function_key_accelerator_round_trip
           Gtk.latin1_keyval_to_lower Gtk.latin1_keyval_to_unicode (fun c => c)
           (KeyboardEvent.mk KeyboardEvent.PRESS KeyboardEvent.FUNCTION 5 true false)).
  - reflexivity.
  - cbn. lia.
  - reflexivity.
Defined.

(** ** Menus *)

Lemma Clear_loop_skips (k : nat) :
  forall es : list Win32.MenuEntry,
    (k <= length es)%nat -> Win32.Clear_loop k es = skipn k es.
Proof.
  induction k as [| n IH]; intros es Hk; [reflexivity|].
  cbn [Win32.Clear_loop]. unfold Win32.RemoveMenu.
  assert (Hlen : length (firstn n es) = n) by (apply List.firstn_length_le; lia).
  rewrite IH by (rewrite length_app, Hlen, List.length_skipn; lia).
  rewrite List.skipn_app, Hlen, Nat.sub_diag.
  rewrite (List.skipn_all2 (firstn n es)) by lia. reflexivity.
Qed.

(** X16: on Win32 a menu lists its entries in the order of the calls
    that added them, and [Clear], whose loop removes the native entries
    from the last position down to the first, leaves a menu with no
    native entry, no item and no submenu. *)
Theorem win32_menu_order_and_Clear (m0 : Win32.MenuImplWin32) (calls : list Win32.MenuCall) :
  let m := fold_left Win32.menu_call calls m0 in
  Win32.entries m = Win32.entries m0 ++ map Win32.entry_of_call calls /\
  Win32.Clear m = Win32.CreateMenu (Win32.hMenu m0).
Proof.
  cbn zeta.
  assert (Hbuild : forall m,
    Win32.entries (fold_left Win32.menu_call calls m) =
      Win32.entries m ++ map Win32.entry_of_call calls /\
    Win32.hMenu (fold_left Win32.menu_call calls m) = Win32.hMenu m).
  { induction calls as [| c calls IH]; intros m; cbn [fold_left map].
    - rewrite app_nil_r. auto.
    - destruct (IH (Win32.menu_call m c)) as [-> ->].
      destruct c; cbn; rewrite <- app_assoc; auto. }
  destruct (Hbuild m0) as [He Hh]. split; [exact He|].
  unfold Win32.Clear, Win32.CreateMenu. rewrite Hh.
  rewrite Clear_loop_skips by lia. rewrite List.skipn_all. reflexivity.
Qed.

(** X17: on Win32, once a popup menu has been dismissed without a
    choice, a button press, double press or release that arrives less
    than 100 ms later is swallowed: the window procedure returns 1 and
    [onMouseEvent] is not invoked.  From 100 ms on the event is
    delivered, and a mouse move is delivered at any time. *)
Theorem win32_click_after_cancelled_popup
    (host : Win32.Host) (window : Win32.WindowImplWin32) (h wParam lParam t : Z)
    (msg : Win32.Message) (f : MouseEvent.t -> bool) :
  Win32.handlingFatalError host = false ->
  Win32.is_button_message msg = true ->
  onMouseEvent (Win32.callbacks window) = Some f ->
  let later := Win32.at_time t (Win32.PopUp 0 host).1 in
  Win32.WndProc later (Some window) h msg wParam lParam =
    (Win32.ret_1,
     if t - Win32.GetMilliseconds host <? 100 then []
     else [onMouseEvent_called (Win32.mouse_event later h msg wParam lParam).1]) /\
  Win32.WndProc later (Some window) h Win32.WM_MOUSEMOVE wParam lParam =
    (Win32.ret_1,
     [TrackMouseEvent_called;
      onMouseEvent_called (Win32.mouse_event later h Win32.WM_MOUSEMOVE wParam lParam).1]).
Proof.
  intros Hfatal Hmsg Hf later. unfold Win32.WndProc.
  assert (Hfatal' : Win32.handlingFatalError later = false) by exact Hfatal.
  rewrite Hfatal', Hf. cbn [is_set].
  change (Win32.GetMilliseconds later - Win32.contextMenuCancelTime later)
    with (t - Win32.GetMilliseconds host).
  split; [|reflexivity].
  destruct msg; try discriminate Hmsg; cbn [Win32.is_button_message andb];
    destruct (t - Win32.GetMilliseconds host <? 100); reflexivity.
Qed.

Lemma win32_click_after_cancelled_popup_witness :
  let f : MouseEvent.t -> bool := fun _ => true in
  let window := Win32.CreateWindow (Win32.sample_native 0)
                  (mkWindowCallbacks None None (Some f) None None None None) in
  let host := Win32.sample_host Win32.no_keys in
  Win32.WndProc (Win32.at_time 1050 (Win32.PopUp 0 host).1) (Some window) 1
    Win32.WM_LBUTTONDOWN 1 0 = (Win32.ret_1, []).
Proof.
  cbn zeta.
  exact (proj1 (win32_click_after_cancelled_popup (Win32.sample_host Win32.no_keys)
           (Win32.CreateWindow (Win32.sample_native 0)
              (mkWindowCallbacks None None (Some (fun _ => true)) None None None None))
           1 1 0 1050 Win32.WM_LBUTTONDOWN (fun _ => true) eq_refl eq_refl eq_refl)).
Defined.

(** ** The window procedure *)

(** X18: on Win32 the window procedure leaves a message to
    [DefWindowProc] exactly when no fatal error is being handled and
    either no window object is attached yet, or the message is a system
    key press on a window without parent, or it is none of the messages
    the procedure knows; and then it makes no call of its own.  In every
    other case it returns 1. *)
Theorem win32_WndProc_default_handling
    (host : Win32.Host) (window : option Win32.WindowImplWin32)
    (h : Z) (msg : Win32.Message) (wParam lParam : Z) :
  ((Win32.WndProc host window h msg wParam lParam).1 = Win32.ret_DefWindowProc <->
   Win32.handlingFatalError host = false /\
   match window with
   | None => True
   | Some w =>
       match msg with
       | Win32.WM_SYSKEYDOWN => Win32.GetParent (Win32.hWindow w) = 0
       | Win32.WM_OTHER _ => True
       | _ => False
       end
   end) /\
  ((Win32.WndProc host window h msg wParam lParam).1 = Win32.ret_1 \/
   Win32.WndProc host window h msg wParam lParam = (Win32.ret_DefWindowProc, [])).
Proof.
  unfold Win32.WndProc.
  destruct (Win32.handlingFatalError host).
  { cbn. split; [split; [discriminate | intros [H _]; discriminate] | auto]. }
  destruct window as [w|]; [| cbn; split; [split; auto | auto]].
  destruct msg; cbn [Win32.is_button_message andb];
    try (destruct (Win32.GetMilliseconds host - Win32.contextMenuCancelTime host <? 100));
    try (destruct (Win32.mouse_event host h _ wParam lParam) as [ev calls]);
    try (destruct (Win32.key_event host _ wParam));
    try (destruct (Z.eqb_spec (Win32.GetParent (Win32.hWindow w)) 0) as [Hp | Hp]);
    cbn [fst snd negb];
    (split; [split; [try discriminate; auto | intros [_ H]; try contradiction; auto]
            | auto]).
Qed.

(** ** Key decoding *)

(** X19: every keyboard event the GTK handler builds is well formed:
    it has the type of the handler, a function key is one of F1..F12, a
    character is never the null character, the two flags are the shift
    and control bits of the state, and the state has no other bit. *)
Theorem gtk_key_event_well_formed
    (gdk_keyval_to_lower gdk_keyval_to_unicode : Z -> Z)
    (type : KeyboardEvent.Type_) (state keyval : Z) (event : KeyboardEvent.t) :
  Gtk.key_event gdk_keyval_to_lower gdk_keyval_to_unicode type state keyval = Some event ->
  KeyboardEvent.type event = type /\
  match KeyboardEvent.key event with
  | KeyboardEvent.FUNCTION =>
      1 <= KeyboardEvent.num event <= 12 /\
      keyval = Gtk.GDK_KEY_F1 + KeyboardEvent.num event - 1
  | KeyboardEvent.CHARACTER =>
      KeyboardEvent.chr event <> 0 /\
      KeyboardEvent.chr event = gdk_keyval_to_unicode (gdk_keyval_to_lower keyval)
  end /\
  KeyboardEvent.shiftDown event = has_bits state Gtk.GDK_SHIFT_MASK /\
  KeyboardEvent.controlDown event = has_bits state Gtk.GDK_CONTROL_MASK /\
  Z.land state (Z.lnot (Z.lor Gtk.GDK_SHIFT_MASK Gtk.GDK_CONTROL_MASK)) = 0.
Proof.
  unfold Gtk.key_event.
  destruct (Z.eqb_spec (Z.land state (Z.lnot (Z.lor Gtk.GDK_SHIFT_MASK Gtk.GDK_CONTROL_MASK))) 0)
    as [Hmask | Hmask]; cbn [negb]; [| discriminate].
  destruct (Z.eqb_spec (gdk_keyval_to_unicode (gdk_keyval_to_lower keyval)) 0)
    as [Hchr | Hchr]; cbn [negb].
  - destruct ((Gtk.GDK_KEY_F1 <=? keyval) && (keyval <=? Gtk.GDK_KEY_F12)) eqn:Hf;
      [| discriminate].
    apply andb_prop in Hf as [H1 H2]. apply Z.leb_le in H1, H2.
    intros [= <-]. unfold KeyboardEvent.num. cbn.
    unfold Gtk.GDK_KEY_F1, Gtk.GDK_KEY_F12 in *. repeat split; auto; lia.
  - intros [= <-]. unfold KeyboardEvent.chr. cbn. repeat split; auto.
Qed.

Lemma gtk_key_event_well_formed_witness :
  exists event,
    Gtk.key_event Gtk.latin1_keyval_to_lower Gtk.latin1_keyval_to_unicode
      KeyboardEvent.RELEASE 4 0x41 = Some event /\
    KeyboardEvent.chr event = 0x61 /\ KeyboardEvent.controlDown event = true.
Proof.
  eexists. split; [reflexivity|].
  pose proof (gtk_key_event_well_formed Gtk.latin1_keyval_to_lower
                Gtk.latin1_keyval_to_unicode KeyboardEvent.RELEASE 4 0x41 _ eq_refl)
    as (_ & [_ Hc] & _ & Hctl & _).
  split; [exact Hc | exact Hctl].
Defined.

(** X20: every keyboard event the Win32 window procedure builds is
    well formed: a function key is one of F1..F12, a character is never
    the null character, and a full stop never comes with shift held,
    since that combination is delivered as the character '>' without
    shift. *)
Theorem win32_key_event_well_formed
    (host : Win32.Host) (msg : Win32.Message) (wParam : Z) (event : KeyboardEvent.t) :
  Win32.key_event host msg wParam = Some event ->
  match KeyboardEvent.key event with
  | KeyboardEvent.FUNCTION =>
      1 <= KeyboardEvent.num event <= 12 /\
      wParam = Win32.VK_F1 + KeyboardEvent.num event - 1
  | KeyboardEvent.CHARACTER =>
      KeyboardEvent.chr event <> 0 /\
      ~ (KeyboardEvent.chr event = 0x2e /\ KeyboardEvent.shiftDown event = true)
  end /\
  KeyboardEvent.controlDown event =
    has_bits (Win32.GetKeyState host Win32.VK_CONTROL) 0x8000.
Proof.
  unfold Win32.key_event.
  destruct ((Win32.VK_F1 <=? wParam) && (wParam <=? Win32.VK_F12)) eqn:Hf.
  - apply andb_prop in Hf as [H1 H2]. apply Z.leb_le in H1, H2.
    intros [= <-]. unfold KeyboardEvent.num. cbn.
    unfold Win32.VK_F1, Win32.VK_F12 in *. repeat split; lia.
  - cbv zeta.
    destruct (Z.eqb_spec (Win32.tolower host (Win32.MapVirtualKeyW host wParam)) 0)
      as [Hchr | Hchr].
    + destruct (wParam =? Win32.VK_DELETE); [| discriminate].
      intros [= <-]. unfold KeyboardEvent.chr. cbn.
      repeat split; [lia | intros [H _]; lia].
    + destruct (Z.eqb_spec (Win32.tolower host (Win32.MapVirtualKeyW host wParam)) 0x2e)
        as [Hdot | Hdot]; cbn [andb].
      * destruct (has_bits (Win32.GetKeyState host Win32.VK_SHIFT) 32768) eqn:Hs;
          intros [= <-]; unfold KeyboardEvent.chr; cbn;
          repeat split; try lia; intros [_ H]; congruence.
      * intros [= <-]. unfold KeyboardEvent.chr. cbn.
        repeat split; [exact Hchr | intros [H _]; contradiction].
Qed.

Lemma win32_key_event_well_formed_witness :
  exists event,
    Win32.key_event (Win32.sample_host (Win32.held Win32.VK_SHIFT)) Win32.WM_KEYDOWN 0xBE
      = Some event /\
    ~ (KeyboardEvent.chr event = 0x2e /\ KeyboardEvent.shiftDown event = true).
Proof.
  eexists. split; [reflexivity|].
  exact (proj2 (proj1 (win32_key_event_well_formed
                         (Win32.sample_host (Win32.held Win32.VK_SHIFT))
                         Win32.WM_KEYDOWN 0xBE _ eq_refl))).
Defined.

(** On Win32 a key message is dropped without any call exactly
    when the key is no function key, maps to no character and is not
    Delete; Delete without a character of its own is delivered as the
    character 0x7f. *)
Lemma win32_unmapped_keys (host : Win32.Host) (msg : Win32.Message) (wParam : Z) :
  (Win32.key_event host msg wParam = None <->
   ~ (Win32.VK_F1 <= wParam <= Win32.VK_F12) /\
   Win32.tolower host (Win32.MapVirtualKeyW host wParam) = 0 /\
   wParam <> Win32.VK_DELETE) /\
  (Win32.tolower host (Win32.MapVirtualKeyW host Win32.VK_DELETE) = 0 ->
   exists event,
     Win32.key_event host msg Win32.VK_DELETE = Some event /\
     KeyboardEvent.key event = KeyboardEvent.CHARACTER /\
     KeyboardEvent.chr event = 0x7f).
Proof.
  split.
  - unfold Win32.key_event.
    destruct ((Win32.VK_F1 <=? wParam) && (wParam <=? Win32.VK_F12)) eqn:Hf.
    + apply andb_prop in Hf as [H1 H2]. apply Z.leb_le in H1, H2.
      split; [discriminate | intros [H _]; exfalso; apply H; lia].
    + assert (Hnf : ~ (Win32.VK_F1 <= wParam <= Win32.VK_F12)).
      { intros [H1 H2]. apply Z.leb_le in H1, H2. rewrite H1, H2 in Hf. discriminate. }
      cbv zeta.
      destruct (Z.eqb_spec (Win32.tolower host (Win32.MapVirtualKeyW host wParam)) 0)
        as [Hchr | Hchr].
      * destruct (Z.eqb_spec wParam Win32.VK_DELETE) as [Hd | Hd].
        -- split; [discriminate | intros (_ & _ & H); contradiction].
        -- split; auto.
      * destruct ((Win32.tolower host (Win32.MapVirtualKeyW host wParam) =? 46) &&
                  has_bits (Win32.GetKeyState host Win32.VK_SHIFT) 32768);
          (split; [discriminate | intros (_ & H & _); contradiction]).
  - intros Hchr. unfold Win32.key_event. cbn [Win32.VK_DELETE].
    change ((Win32.VK_F1 <=? Win32.VK_DELETE) && (Win32.VK_DELETE <=? Win32.VK_F12))
      with false.
    cbv zeta. rewrite Hchr. cbn. eexists. repeat split.
Qed.

(** ** The mouse wheel and the scroll bar *)

Lemma HIWORD_range (l : Z) : 0 <= Win32.HIWORD l < 0x10000.
Proof.
  unfold Win32.HIWORD. change 0xFFFF with (Z.ones 16).
  rewrite Z.land_ones by lia. apply Z.mod_pos_bound. lia.
Qed.

Lemma wheel_delta_positive (wParam : Z) :
  (0 <? Win32.GET_WHEEL_DELTA_WPARAM wParam) = true <-> 0 < Win32.HIWORD wParam < 0x8000.
Proof.
  unfold Win32.GET_WHEEL_DELTA_WPARAM. pose proof (HIWORD_range wParam) as Hr. cbv zeta.
  destruct (Z.ltb_spec (Win32.HIWORD wParam) 0x8000); rewrite Z.ltb_lt; lia.
Qed.

(** X21: on Win32 a wheel message is reported to [onMouseEvent] in
    either case.  Over no window or over this window the event is a
    vertical scroll whose delta is 1 or -1, and 1 exactly when the high
    word of [wParam] is a positive 16-bit number; a wheel delta of zero
    scrolls by -1.  Over another window the message is sent on to that
    window, and the event this window still receives is a motion with
    no button and no delta. *)
Theorem win32_mouse_wheel
    (host : Win32.Host) (window : Win32.WindowImplWin32) (h wParam lParam : Z)
    (f : MouseEvent.t -> bool) :
  Win32.handlingFatalError host = false ->
  onMouseEvent (Win32.callbacks window) = Some f ->
  let under := Win32.WindowFromPoint host (Win32.LOWORD lParam) (Win32.HIWORD lParam) in
  let forwarded := negb (under =? 0) && negb (under =? h) in
  exists event,
    Win32.WndProc host (Some window) h Win32.WM_MOUSEWHEEL wParam lParam =
      (Win32.ret_1,
       (if forwarded then [SendMessage_called under 0x020A wParam lParam] else [])
       ++ [onMouseEvent_called event]) /\
    MouseEvent.button event = MouseEvent.NONE /\
    if forwarded
    then MouseEvent.type event = MouseEvent.MOTION /\ MouseEvent.scrollDelta event = 0
    else MouseEvent.type event = MouseEvent.SCROLL_VERT /\
         (MouseEvent.scrollDelta event = 1 \/ MouseEvent.scrollDelta event = -1) /\
         (MouseEvent.scrollDelta event = 1 <-> 0 < Win32.HIWORD wParam < 0x8000).
Proof.
  intros Hfatal Hf under forwarded. unfold Win32.WndProc. rewrite Hfatal, Hf.
  cbn [Win32.is_button_message andb Win32.mouse_event is_set].
  fold under. fold forwarded. destruct forwarded.
  - eexists. split; [reflexivity|]. cbn. auto.
  - eexists. split; [reflexivity|]. cbn [MouseEvent.button MouseEvent.type
      MouseEvent.scrollDelta].
    pose proof (wheel_delta_positive wParam) as Hw.
    destruct (0 <? Win32.GET_WHEEL_DELTA_WPARAM wParam).
    + split; [reflexivity|]. split; [reflexivity|]. split; [left; reflexivity|].
      split; [intros _; apply Hw; reflexivity | reflexivity].
    + split; [reflexivity|]. split; [reflexivity|]. split; [right; reflexivity|].
      split; [discriminate | intros Hh; apply Hw in Hh; discriminate].
Qed.

Lemma win32_mouse_wheel_witness :
  exists event,
    Win32.WndProc (Win32.sample_host Win32.no_keys)
      (Some (Win32.CreateWindow (Win32.sample_native 0)
               (mkWindowCallbacks None None (Some (fun _ => true)) None None None None)))
      1 Win32.WM_MOUSEWHEEL 0x780000 0 = (Win32.ret_1, [onMouseEvent_called event]) /\
    MouseEvent.scrollDelta event = 1.
Proof.
  destruct (win32_mouse_wheel (Win32.sample_host Win32.no_keys)
              (Win32.CreateWindow (Win32.sample_native 0)
                 (mkWindowCallbacks None None (Some (fun _ => true)) None None None None))
              1 0x780000 0 (fun _ => true) eq_refl eq_refl)
    as (event & Hw & _ & _ & _ & Hd).
  exists event. split; [exact Hw|]. apply Hd. vm_compute. split; reflexivity.
Defined.

Lemma UINT_clip (p m : Z) :
  0 <= m < 2 ^ 31 ->
  0 <= int_of_UINT (Z.min (UINT_of_int p) (UINT_of_int m)) <= m.
Proof.
  intros Hm. unfold UINT_of_int, int_of_UINT.
  rewrite (Z.mod_small m) by lia.
  pose proof (Z.mod_pos_bound p (2 ^ 32) ltac:(lia)) as Hp.
  destruct (Z.ltb_spec (Z.min (p mod 2 ^ 32) m) (2 ^ 31)); lia.
Qed.

Lemma UINT_clip_negative (p m : Z) :
  - 2 ^ 31 <= p < 0 -> 0 <= m < 2 ^ 31 ->
  int_of_UINT (Z.min (UINT_of_int (int_of_UINT (UINT_of_int p))) (UINT_of_int m)) = m.
Proof.
  intros Hp Hm. unfold UINT_of_int, int_of_UINT.
  assert (Hw : p mod 2 ^ 32 = p + 2 ^ 32).
  { symmetry. apply (Z.mod_unique p (2 ^ 32) (-1)); lia. }
  rewrite Hw. rewrite (Z.mod_small m) by lia.
  destruct (Z.ltb_spec (p + 2 ^ 32) (2 ^ 31)); [lia|].
  replace (p + 2 ^ 32 - 2 ^ 32) with p by lia. rewrite Hw.
  rewrite Z.min_r by lia. destruct (Z.ltb_spec m (2 ^ 31)); lia.
Qed.

(** X22: on Win32 the position a [WM_VSCROLL] message reports lies
    between 0 and [nMax - nPage], whatever the request and the state of
    the scroll bar, as long as [nMax - nPage] is a non-negative [int]. *)
Theorem win32_vscroll_pos_within_range (si : Win32.SCROLLINFO) (wParam : Z) :
  0 <= Win32.nMax si - Win32.nPage si < 2 ^ 31 ->
  0 <= Win32.vscroll_pos si wParam <= Win32.nMax si - Win32.nPage si.
Proof.
  intros Hm. unfold Win32.vscroll_pos. cbv zeta. apply UINT_clip. exact Hm.
Qed.

Lemma win32_vscroll_pos_within_range_witness :
  0 <= Win32.vscroll_pos (Win32.mkSCROLLINFO 0 655360 65536 589824 0) Win32.SB_LINEDOWN
    <= 589824.
Proof.
  apply (win32_vscroll_pos_within_range
           (Win32.mkSCROLLINFO 0 655360 65536 589824 0) Win32.SB_LINEDOWN).
  cbn. lia.
Defined.

(** X23: on Win32 a line-up or page-up request that would take the
    position below zero reports the bottom position [nMax - nPage], not
    the top: the negative position is compared as an unsigned number. *)
Theorem win32_scroll_up_past_top (si : Win32.SCROLLINFO) (wParam : Z) :
  0 <= Win32.nMax si - Win32.nPage si < 2 ^ 31 ->
  (Win32.LOWORD wParam = Win32.SB_LINEUP /\
   - 2 ^ 31 <= Win32.nPos si - Win32.SCROLLBAR_UNIT < 0) \/
  (Win32.LOWORD wParam = Win32.SB_PAGEUP /\
   - 2 ^ 31 <= Win32.nPos si - Win32.nPage si < 0) ->
  Win32.vscroll_pos si wParam = Win32.nMax si - Win32.nPage si.
Proof.
  intros Hm [[Hreq Hp] | [Hreq Hp]]; unfold Win32.vscroll_pos; cbv zeta; rewrite Hreq;
    cbn [Z.eqb Win32.SB_LINEUP Win32.SB_PAGEUP Pos.eqb]; apply UINT_clip_negative; assumption.
Qed.

Lemma win32_scroll_up_past_top_witness :
  Win32.vscroll_pos (Win32.mkSCROLLINFO 0 655360 65536 0 0) Win32.SB_LINEUP = 589824.
Proof.
  apply (win32_scroll_up_past_top (Win32.mkSCROLLINFO 0 655360 65536 0 0) Win32.SB_LINEUP).
  - cbn. lia.
  - left. split; [reflexivity | unfold Win32.SCROLLBAR_UNIT; cbn [Win32.nPos]; lia].
Defined.

(** X24: the GTK scroll handler reports nothing but vertical scroll
    events at the pointer position with a delta of 1 or -1; the
    direction "up" scrolls by 1 whatever the smooth delta says; and when
    it reports nothing it returns false, leaving the event to the base
    class. *)
Theorem gtk_on_scroll_event_spec
    (_receiver : WindowCallbacks) (x y : float) (state : Z) (delta_y : float)
    (direction : Gtk.GdkScrollDirection) :
  let r := Gtk.on_scroll_event _receiver x y state delta_y direction in
  (forall event, In (onMouseEvent_called event) r.2 ->
     MouseEvent.type event = MouseEvent.SCROLL_VERT /\
     (MouseEvent.scrollDelta event = 1 \/ MouseEvent.scrollDelta event = -1) /\
     MouseEvent.x event = x /\ MouseEvent.y event = y) /\
  (direction = Gtk.GDK_SCROLL_UP -> is_set (onMouseEvent _receiver) = true ->
     exists event, r.2 = [onMouseEvent_called event] /\ MouseEvent.scrollDelta event = 1) /\
  (r.2 = [] -> r.1 = false).
Proof.
  cbv zeta. unfold Gtk.on_scroll_event, Gtk.process_pointer_event.
  destruct (PrimFloat.ltb delta_y 0), (PrimFloat.ltb 0 delta_y), direction,
    (onMouseEvent _receiver) as [f|]; cbn [orb fst snd is_set];
    (split; [intros event Hin; cbn in Hin;
             try contradiction; destruct Hin as [[= <-] | []]; cbn; auto
            | split; [intros Hd Hs; try discriminate; eexists; split; reflexivity
                     | intros He; try discriminate; reflexivity]]).
Qed.

(** ** The editor *)

(** X25: whatever is done to a GTK editor overlay since its
    construction, it holds exactly one modal grab while the entry is
    shown and none while it is hidden: starting twice grabs once, and
    stopping twice releases once. *)
Theorem gtk_overlay_grab_invariant
    (get_ascent : bool * Z -> Z) (layout_width : bool * Z -> string -> Z)
    (get_style : bool * Z -> Gtk.EntryStyle) (steps : list Gtk.OverlayStep) :
  let o := fold_left (Gtk.overlay_step get_ascent layout_width get_style) steps
             Gtk.new_overlay in
  Gtk.modal_grabs o = if Gtk.entry_visible o then 1%nat else 0%nat.
Proof.
  cbv zeta.
  assert (Hstep : forall o s,
    Gtk.modal_grabs o = (if Gtk.entry_visible o then 1%nat else 0%nat) ->
    let o' := Gtk.overlay_step get_ascent layout_width get_style o s in
    Gtk.modal_grabs o' = (if Gtk.entry_visible o' then 1%nat else 0%nat)).
  { intros o s Ho. cbv zeta.
    destruct s as [x y fh mw mono val | | keyval | keyval];
      unfold Gtk.overlay_step, Gtk.start_editing, Gtk.stop_editing,
        Gtk.overlay_key_press, Gtk.overlay_key_release, Gtk.is_editing, Gtk.stop_editing;
      destruct (Gtk.entry_visible o) eqn:Hv; cbn; rewrite ?Hv; try rewrite Ho;
      try reflexivity;
      destruct (keyval =? Gtk.GDK_KEY_Escape); cbn; rewrite ?Hv, ?Ho; reflexivity. }
  assert (Hrun : forall o,
    Gtk.modal_grabs o = (if Gtk.entry_visible o then 1%nat else 0%nat) ->
    Gtk.modal_grabs (fold_left (Gtk.overlay_step get_ascent layout_width get_style) steps o) =
      (if Gtk.entry_visible
            (fold_left (Gtk.overlay_step get_ascent layout_width get_style) steps o)
       then 1%nat else 0%nat)).
  { induction steps as [| s steps IH]; intros o Ho; [exact Ho|].
    cbn [fold_left]. apply IH. apply Hstep. exact Ho. }
  apply Hrun. reflexivity.
Qed.

(** The key handlers of the GTK overlay take an event for
    themselves exactly while the entry is shown; a release never changes
    the overlay; a press ends the editing exactly when the key is
    Escape, and keeps the text of the entry in either case. *)
Lemma gtk_overlay_keys (keyval : Z) (o : Gtk.GtkEditorOverlay) :
  Gtk.consumed (Gtk.overlay_key_press keyval o).2 = Gtk.is_editing o /\
  Gtk.consumed (Gtk.overlay_key_release keyval o).2 = Gtk.is_editing o /\
  Gtk.is_editing (Gtk.overlay_key_press keyval o).1 =
    Gtk.is_editing o && negb (keyval =? Gtk.GDK_KEY_Escape) /\
  (Gtk.overlay_key_release keyval o).1 = o /\
  Gtk.entry_text (Gtk.overlay_key_press keyval o).1 = Gtk.entry_text o.
Proof.
  unfold Gtk.overlay_key_press, Gtk.overlay_key_release, Gtk.stop_editing, Gtk.is_editing.
  destruct (Gtk.entry_visible o) eqn:Hv; destruct (keyval =? Gtk.GDK_KEY_Escape);
    cbn; rewrite ?Hv; repeat split; reflexivity.
Qed.

(** X26: a second [ShowEditor] is ignored on Win32, where the editor
    stays exactly as the first call left it, and takes effect on GTK,
    where the entry gets the text, place, size and font of the second
    call, the font height being the [int] the second height converts
    to, while the overlay keeps the one modal grab it has. *)
Theorem ShowEditor_twice
    (GetTextMetricsW : bool * Z -> Win32.TEXTMETRICW)
    (GetTextExtentPoint32W : bool * Z -> string -> Z)
    (AdjustWindowRectEx : Win32.RECT -> Win32.RECT)
    (get_ascent : bool * Z -> Z) (layout_width : bool * Z -> string -> Z)
    (get_style : bool * Z -> Gtk.EntryStyle)
    (x1 y1 h1 w1 x2 y2 h2 w2 : float) (m1 m2 : bool) (text1 text2 : string)
    (e : Win32.EditorWindow) (o : Gtk.GtkEditorOverlay) :
  let win32_show := Win32.ShowEditor GetTextMetricsW GetTextExtentPoint32W AdjustWindowRectEx in
  let gtk_show := Gtk.ShowEditor get_ascent layout_width get_style in
  win32_show x2 y2 h2 w2 m2 text2 (win32_show x1 y1 h1 w1 m1 text1 e) =
    win32_show x1 y1 h1 w1 m1 text1 e /\
  gtk_show x2 y2 h2 w2 m2 text2 (gtk_show x1 y1 h1 w1 m1 text1 o) =
    Gtk.mkGtkEditorOverlay true text2
      (Gtk.entry_position (gtk_show x2 y2 h2 w2 m2 text2 o))
      (Gtk.entry_size_request (gtk_show x2 y2 h2 w2 m2 text2 o))
      (m2, int_of_double h2)
      (Gtk.modal_grabs (gtk_show x1 y1 h1 w1 m1 text1 o)).
Proof.
  cbv zeta. split.
  - unfold Win32.ShowEditor at 1.
    assert (Hv : Win32.IsEditorVisible
                   (Win32.ShowEditor GetTextMetricsW GetTextExtentPoint32W AdjustWindowRectEx
                      x1 y1 h1 w1 m1 text1 e) = true).
    { unfold Win32.ShowEditor. destruct (Win32.IsEditorVisible e) eqn:He; [exact He|].
      reflexivity. }
    rewrite Hv. reflexivity.
  - unfold Gtk.ShowEditor, Gtk.start_editing. cbn. reflexivity.
Qed.

(** X27: on Win32 showing the editor with an empty text does not
    clear it: after an edit of a non-empty text and [HideEditor], the
    editor comes back with the text of that earlier edit. *)
Theorem win32_ShowEditor_empty_text_is_stale
    (GetTextMetricsW : bool * Z -> Win32.TEXTMETRICW)
    (GetTextExtentPoint32W : bool * Z -> string -> Z)
    (AdjustWindowRectEx : Win32.RECT -> Win32.RECT)
    (x1 y1 h1 w1 x2 y2 h2 w2 : float) (m1 m2 : bool) (text : string)
    (e : Win32.EditorWindow) :
  Win32.IsEditorVisible e = false ->
  text <> ""%string ->
  let show := Win32.ShowEditor GetTextMetricsW GetTextExtentPoint32W AdjustWindowRectEx in
  let e' := show x2 y2 h2 w2 m2 ""%string (Win32.HideEditor (show x1 y1 h1 w1 m1 text e)) in
  Win32.IsEditorVisible e' = true /\ Win32.editor_text e' = text.
Proof.
  intros He Ht. cbv zeta. unfold Win32.ShowEditor, Win32.HideEditor. rewrite He.
  cbn. destruct (String.eqb_spec text "") as [Heq | Hne]; [contradiction|].
  cbn. auto.
Qed.

Lemma win32_ShowEditor_empty_text_is_stale_witness :
  let show := Win32.ShowEditor (fun _ => Win32.mkTEXTMETRICW 12 3 7)
                (fun _ s => 7 * Z.of_nat (String.length s)) (fun rc => rc) in
  Win32.editor_text
    (show 0%float 0%float 16%float 50%float false ""%string
       (Win32.HideEditor
          (show 5%float 5%float 16%float 50%float false "12.5"%string
             (Win32.mkEditorWindow false "" (Win32.mkRECT 0 0 0 0) (false, 0) false))))
    = "12.5"%string.
Proof.
  cbv zeta.
  apply (win32_ShowEditor_empty_text_is_stale (fun _ => Win32.mkTEXTMETRICW 12 3 7)
           (fun _ s => 7 * Z.of_nat (String.length s)) (fun rc => rc)
           5%float 5%float 16%float 50%float 0%float 0%float 16%float 50%float
           false false "12.5"%string
           (Win32.mkEditorWindow false "" (Win32.mkRECT 0 0 0 0) (false, 0) false)).
  - reflexivity.
  - discriminate.
Defined.

(** X28: on Win32 the Escape key pressed in the editor reaches
    [onKeyboardEvent] of the window as a press of the character 0x1b,
    provided the keyboard layout maps the Escape key to that character:
    the editor procedure sends the very message to the parent window,
    whose procedure decodes it.  [onEditingDone] is not involved. *)
Theorem win32_editor_Escape_reaches_window
    (host : Win32.Host) (window : Win32.WindowImplWin32) (e : Win32.EditorWindow)
    (h lParam : Z) (f : KeyboardEvent.t -> bool) :
  Win32.handlingFatalError host = false ->
  Win32.tolower host (Win32.MapVirtualKeyW host Win32.VK_ESCAPE) = 0x1b ->
  onKeyboardEvent (Win32.callbacks window) = Some f ->
  Win32.EditorWndProc host window e Win32.WM_KEYDOWN Win32.VK_ESCAPE lParam =
    Win32.sent_to_parent Win32.WM_KEYDOWN Win32.VK_ESCAPE lParam /\
  Win32.WndProc host (Some window) h Win32.WM_KEYDOWN Win32.VK_ESCAPE lParam =
    (Win32.ret_1,
     [onKeyboardEvent_called
        (KeyboardEvent.mk KeyboardEvent.PRESS KeyboardEvent.CHARACTER 0x1b
           (has_bits (Win32.GetKeyState host Win32.VK_SHIFT) 0x8000)
           (has_bits (Win32.GetKeyState host Win32.VK_CONTROL) 0x8000))]).
Proof.
  intros Hfatal Hmap Hf. split.
  - unfold Win32.EditorWndProc. rewrite Hfatal. reflexivity.
  - unfold Win32.WndProc, Win32.key_event, Win32.dispatch_key_event.
    rewrite Hfatal, Hf.
    change ((Win32.VK_F1 <=? Win32.VK_ESCAPE) && (Win32.VK_ESCAPE <=? Win32.VK_F12))
      with false.
    cbv zeta. rewrite Hmap. reflexivity.
Qed.

Lemma win32_editor_Escape_reaches_window_witness :
  let host := Win32.mkHost false 0 0 Win32.no_keys (fun vk => vk) (fun c => c)
                (fun _ _ => 0) (fun _ _ => 0) (fun _ => None) in
  let window := Win32.CreateWindow (Win32.sample_native 0)
                  (mkWindowCallbacks None None None (Some (fun _ => true)) None None None) in
  Win32.WndProc host (Some window) 1 Win32.WM_KEYDOWN Win32.VK_ESCAPE 0 =
    (Win32.ret_1,
     [onKeyboardEvent_called
        (KeyboardEvent.mk KeyboardEvent.PRESS KeyboardEvent.CHARACTER 0x1b false false)]).
Proof.
  cbv zeta.
  exact (proj2 (win32_editor_Escape_reaches_window
                  (Win32.mkHost false 0 0 Win32.no_keys (fun vk => vk) (fun c => c)
                     (fun _ _ => 0) (fun _ _ => 0) (fun _ => None))
                  (Win32.CreateWindow (Win32.sample_native 0)
                     (mkWindowCallbacks None None None (Some (fun _ => true))
                        None None None))
                  (Win32.mkEditorWindow true "" (Win32.mkRECT 0 0 0 0) (false, 0) true)
                  1 0 (fun _ => true) eq_refl eq_refl eq_refl)).
Defined.

(** ** Full screen and the menu bar *)


(** X30: however often the menu bar of a GTK window is set or unset,
    the window's box holds the current menu bar and no other. *)
Theorem gtk_set_menu_bar_invariant (bars : list (option Z)) :
  let g := fold_left (fun g b => Gtk.set_menu_bar b g) bars (Gtk.mkMenuBarSlot None []) in
  Gtk.vbox_menus g = match Gtk._menu_bar g with Some b => [b] | None => [] end.
Proof.
  cbv zeta.
  assert (Hrun : forall g,
    Gtk.vbox_menus g = match Gtk._menu_bar g with Some b => [b] | None => [] end ->
    Gtk.vbox_menus (fold_left (fun g b => Gtk.set_menu_bar b g) bars g) =
      match Gtk._menu_bar (fold_left (fun g b => Gtk.set_menu_bar b g) bars g) with
      | Some b => [b] | None => [] end).
  { induction bars as [| b bars IH]; intros g Hg; [exact Hg|].
    cbn [fold_left]. apply IH. unfold Gtk.set_menu_bar. rewrite Hg.
    destruct (Gtk._menu_bar g) as [old|]; cbn [List.filter];
      rewrite ?Z.eqb_refl; destruct b; reflexivity. }
  apply Hrun. reflexivity.
Qed.
